(** * Layta Figma plugin: a shallow embedding of [src/code.ts]

    The plugin turns a Figma scene node into a tree of Layta constructor
    calls.  This file embeds, function by function, the pure core of
    [code.ts]: [packColor], the style extractors, the value serializer
    [transpile], the tree builder [createNode] and the code emitter
    [buildTree], and states the properties of the specification over them.

    Modelling conventions.
    - A JS number is a finite decimal [mantissa * 10^(-scale)] with exact
      arithmetic.  Every operation the source applies to numbers ([===],
      [> 0], truthiness, [*], [Math.min]/[Math.max], [ToInt32] and
      [toString]) is defined on that representation; it agrees with
      IEEE doubles wherever the double computation is exact (integers and
      short decimals of ordinary magnitude).  [NaN], infinities and
      negative zero are outside the model.
    - A JS string is a [string] of 8-bit characters.
    - A JS object used as a record is the list of its own enumerable
      entries, in the order [Object.entries] yields them.
    - ["k" in obj ? obj.k : d] is a field of [option] type.
    - An exception is the [Thrown] outcome; [console.log] appends to a
      list of messages threaded through [createNode]. *)

From Stdlib Require Import ZArith List String Ascii Bool Lia.
From Stdlib Require Import DecimalString DecimalZ.
Import ListNotations.

Local Open Scope string_scope.
Local Open Scope Z_scope.

#[local] Set Warnings "-register-all".

(* ================================================================== *)
(** * Part I: the embedding of [code.ts] *)

(* ------------------------------------------------------------------ *)
(** ** Numbers *)

Module Number.

Record number := mkNumber { mantissa : Z; scale : nat }.

Definition pow10 (e : nat) : Z := 10 ^ Z.of_nat e.

(** An integer literal. *)
Definition int (z : Z) : number := mkNumber z 0.

(** [a === b] on numbers. *)
Definition eqb (a b : number) : bool :=
  mantissa a * pow10 (scale b) =? mantissa b * pow10 (scale a).

(** [a > b]. *)
Definition gtb (a b : number) : bool :=
  mantissa b * pow10 (scale a) <? mantissa a * pow10 (scale b).

(** JS truthiness of a number: everything but zero. *)
Definition truthy (a : number) : bool := negb (mantissa a =? 0).

Definition mul (a b : number) : number :=
  mkNumber (mantissa a * mantissa b) (scale a + scale b).

(** [Math.min] and [Math.max]. *)
Definition min (a b : number) : number := if gtb a b then b else a.
Definition max (a b : number) : number := if gtb b a then b else a.

(** [ToInt32]: truncate toward zero, then wrap to a signed 32-bit value. *)
Definition wrap32 (z : Z) : Z := (z + 2 ^ 31) mod 2 ^ 32 - 2 ^ 31.
Definition toInt32 (a : number) : Z :=
  wrap32 (Z.quot (mantissa a) (pow10 (scale a))).

(** Drop trailing zero digits of the fraction. *)
Fixpoint normalize (m : Z) (e : nat) : Z * nat :=
  match e with
  | O => (m, O)
  | S e' => if m mod 10 =? 0 then normalize (m / 10) e' else (m, e)
  end.

Definition digit (d : Z) : ascii := ascii_of_nat (48 + Z.to_nat d).

(** Exactly [k] decimal digits of [n], most significant first. *)
Fixpoint digits (k : nat) (n : Z) : string :=
  match k with
  | O => ""
  | S k' => digits k' (n / 10) ++ String (digit (n mod 10)) ""
  end.

Definition intToString (z : Z) : string :=
  NilZero.string_of_int (Z.to_int z).

(** [Number.prototype.toString]: the shortest decimal literal. *)
Definition toString (a : number) : string :=
  let '(m, e) := normalize (mantissa a) (scale a) in
  match e with
  | O => intToString m
  | S _ =>
      (if m <? 0 then "-" else "")
      ++ intToString (Z.abs m / pow10 e) ++ "."
      ++ digits e (Z.abs m mod pow10 e)
  end.

End Number.

Abbreviation number := Number.number.
Abbreviation int := Number.int.

(* ------------------------------------------------------------------ *)
(** ** [packColor] (code.ts, lines 1-10) *)

(** [const clamp = (val, min, max) => Math.max(min, Math.min(max, val))] *)
Definition clamp (val min max : number) : number :=
  Number.max min (Number.min max val).

(** [clamp(c, 0, 1) * 255 & 0xFF] *)
Definition channel (c : number) : Z :=
  Z.land (Number.toInt32 (Number.mul (clamp c (int 0) (int 1)) (int 255))) 255.

(** [x << n] on 32-bit operands. *)
Definition shl32 (x n : Z) : Z := Number.wrap32 (Z.shiftl x n).

(** [packColor(r, g, b, a = 1)]; an omitted (undefined) [a] is [None].
    The result of the JS bitwise operators is a signed 32-bit integer. *)
Definition packColor (r g b : number) (a : option number) : Z :=
  let a := match a with Some a => a | None => int 1 end in
  let R := channel r in
  let G := channel g in
  let B := channel b in
  let A := channel a in
  Number.wrap32 (Z.lor (Z.lor (Z.lor (shl32 A 24) (shl32 R 16)) (shl32 G 8)) B).

(* ------------------------------------------------------------------ *)
(** ** JS values and source scene nodes *)

(** The values [transpile] distinguishes.  [VObj] holds the entries of a
    plain object; [VOther ty] is any value whose [typeof] is [ty] and that
    no branch of [serialize] accepts (a function, a symbol, a bigint). *)
Inductive value : Type :=
| VUndefined
| VNull
| VBool (b : bool)
| VNum (n : number)
| VStr (s : string)
| VArr (items : list value)
| VObj (entries : list (string * value))
| VOther (ty : string).

(** [Record<string, number>]: keys in insertion order. *)
Definition props := list (string * number).

(** A paint of [fills] or [strokes]. *)
Record RGB := mkRGB { r : number; g : number; b : number }.
Record Paint := mkPaint {
  paint_type : string;
  color : RGB;
  opacity : option number
}.

Record CornerRadii := mkCornerRadii {
  topLeftRadius : number;
  topRightRadius : number;
  bottomLeftRadius : number;
  bottomRightRadius : number
}.

Record StrokeWeights := mkStrokeWeights {
  strokeLeftWeight : number;
  strokeTopWeight : number;
  strokeRightWeight : number;
  strokeBottomWeight : number
}.

Record Paddings := mkPaddings {
  paddingLeft : number;
  paddingTop : number;
  paddingRight : number;
  paddingBottom : number
}.

Record FontName := mkFontName { family : string; style : string }.

(** The part of the Figma [SceneNode] interface that [code.ts] reads.  A
    field of [option] type is one the source guards with an [in] test (or,
    for [fontName] and [fontSize], one that may be [figma.mixed]). *)
Inductive SceneNode : Type := mkSceneNode {
  type : string;
  name : string;
  visible : bool;
  x : number;
  y : number;
  width : number;
  height : number;
  layoutPositioning : option string;
  layoutMode : option string;
  layoutWrap : option string;
  primaryAxisAlignItems : option string;
  counterAxisAlignItems : option string;
  itemSpacing : option number;
  layoutSizingHorizontal : option string;
  layoutSizingVertical : option string;
  fills : option (list Paint);
  strokes : option (list Paint);
  cornerRadii : option CornerRadii;
  strokeWeights : option StrokeWeights;
  paddings : option Paddings;
  children : option (list SceneNode);
  characters : string;
  fontName : option FontName;
  fontSize : option number;
  styledTextSegments : list (FontName * number);
  textAutoResize : string
}.

(* ------------------------------------------------------------------ *)
(** ** Style extractors (code.ts, lines 12-85) *)

(** [paints.find(p => p.type === "SOLID" && (p.opacity ?? 1) > 0)] *)
Definition isVisibleSolid (p : Paint) : bool :=
  (paint_type p =? "SOLID")%string
  && Number.gtb (match opacity p with Some o => o | None => int 1 end) (int 0).

Definition solidColor (paints : option (list Paint)) : option Z :=
  match paints with
  | None => None
  | Some ps =>
      match find isVisibleSolid ps with
      | None => None
      | Some solid =>
          Some (packColor (r (color solid)) (g (color solid)) (b (color solid))
                          (opacity solid))
      end
  end.

Definition getFillColor (figmaNode : SceneNode) : option Z :=
  solidColor (fills figmaNode).

Definition getStrokeColor (figmaNode : SceneNode) : option Z :=
  solidColor (strokes figmaNode).

Definition getTextColor (figmaNode : SceneNode) : option Z :=
  solidColor (fills figmaNode).

(** [if (v > 0) props.k = v;] *)
Definition setIfPositive (k : string) (v : number) : props :=
  if Number.gtb v (int 0) then [(k, v)] else [].

Definition getBorderRadiusProps (figmaNode : SceneNode) : props :=
  match cornerRadii figmaNode with
  | None => []
  | Some (mkCornerRadii topLeftRadius topRightRadius
                        bottomLeftRadius bottomRightRadius) =>
      if Number.eqb topLeftRadius topRightRadius
         && Number.eqb topRightRadius bottomLeftRadius
         && Number.eqb bottomLeftRadius bottomRightRadius
         && Number.gtb topLeftRadius (int 0)
      then [("borderRadius", topLeftRadius)]
      else
        (setIfPositive "borderTopLeftRadius" topLeftRadius
         ++ setIfPositive "borderTopRightRadius" topRightRadius
         ++ setIfPositive "borderBottomLeftRadius" bottomLeftRadius
         ++ setIfPositive "borderBottomRightRadius" bottomRightRadius)%list
  end.

Definition getStrokeWeightProps (figmaNode : SceneNode) : props :=
  match strokeWeights figmaNode with
  | None => []
  | Some (mkStrokeWeights strokeLeftWeight strokeTopWeight
                          strokeRightWeight strokeBottomWeight) =>
      if Number.eqb strokeLeftWeight strokeTopWeight
         && Number.eqb strokeTopWeight strokeRightWeight
         && Number.eqb strokeRightWeight strokeBottomWeight
         && Number.gtb strokeLeftWeight (int 0)
      then [("strokeWeight", strokeLeftWeight)]
      else
        (setIfPositive "strokeLeftWeight" strokeLeftWeight
         ++ setIfPositive "strokeTopWeight" strokeTopWeight
         ++ setIfPositive "strokeRightWeight" strokeRightWeight
         ++ setIfPositive "strokeBottomWeight" strokeBottomWeight)%list
  end.

Definition getPaddingProps (figmaNode : SceneNode) : props :=
  match paddings figmaNode with
  | None => []
  | Some (mkPaddings paddingLeft paddingTop paddingRight paddingBottom) =>
      if Number.eqb paddingLeft paddingTop
         && Number.eqb paddingTop paddingRight
         && Number.eqb paddingRight paddingBottom
         && Number.gtb paddingLeft (int 0)
      then [("padding", paddingLeft)]
      else
        (setIfPositive "paddingLeft" paddingLeft
         ++ setIfPositive "paddingTop" paddingTop
         ++ setIfPositive "paddingRight" paddingRight
         ++ setIfPositive "paddingBottom" paddingBottom)%list
  end.

(* ------------------------------------------------------------------ *)
(** ** Strings and exceptions *)

(** The double quote and the line feed, as characters and as strings. *)
Definition dq : ascii := ascii_of_nat 34.
Definition nl : ascii := ascii_of_nat 10.
Definition DQ : string := String dq "".
Definition NL : string := String nl "".

(** [s.repeat(n)] *)
Fixpoint repeatString (s : string) (n : nat) : string :=
  match n with
  | O => ""
  | S n' => s ++ repeatString s n'
  end.

(** [items.join(sep)] *)
Fixpoint join (sep : string) (items : list string) : string :=
  match items with
  | [] => ""
  | [s] => s
  | s :: rest => s ++ sep ++ join sep rest
  end.

(** [s.replace(/c/g, by)] for a single character [c]. *)
Fixpoint replaceAll (c : ascii) (by_ : string) (s : string) : string :=
  match s with
  | EmptyString => ""
  | String a s' =>
      (if Ascii.eqb a c then by_ else String a "") ++ replaceAll c by_ s'
  end.

(** A computation that returns or throws (the message of the error). *)
Inductive outcome (A : Type) : Type :=
| Returned (a : A)
| Thrown (e : string).
Arguments Returned {A} a.
Arguments Thrown {A} e.

Definition bind {A B} (m : outcome A) (k : A -> outcome B) : outcome B :=
  match m with
  | Returned a => k a
  | Thrown e => Thrown e
  end.

Notation "x <- m ;; k" := (bind m (fun x => k))
  (at level 61, m at next level, right associativity).

(** [xs.map(f)] where [f] may throw: the first exception escapes. *)
Definition mapM {A B} (f : A -> outcome B) : list A -> outcome (list B) :=
  fix go (l : list A) : outcome (list B) :=
    match l with
    | [] => Returned []
    | a :: l' => b <- f a ;; bs <- go l' ;; Returned (b :: bs)
    end.

(* ------------------------------------------------------------------ *)
(** ** The value serializer [transpile] (code.ts, lines 97-123) *)

(** [const indent = (level) => "  ".repeat(level)] *)
Definition indent (level : nat) : string := repeatString "  " level.

(** The character classes of the key test, as written in the source:
    [[aZAZ]] and [[aZAZ09]]. *)
Definition keyHead (c : ascii) : bool :=
  Ascii.eqb c "a" || Ascii.eqb c "Z" || Ascii.eqb c "A".

Definition keyTail (c : ascii) : bool :=
  keyHead c || Ascii.eqb c "0" || Ascii.eqb c "9".

Fixpoint allChars (p : ascii -> bool) (s : string) : bool :=
  match s with
  | EmptyString => true
  | String c s' => p c && allChars p s'
  end.

(** [/^[aZAZ][aZAZ09]*$/.test(k)] *)
Definition isBareKey (k : string) : bool :=
  match k with
  | EmptyString => false
  | String c rest => keyHead c && allChars keyTail rest
  end.

(** [value.replace(/"/g, '\\"')] *)
Definition escapeQuotes (s : string) : string :=
  replaceAll dq (String "\" DQ) s.

(** The brace block both the array and the object branch return. *)
Definition block (level : nat) (items : list string) : string :=
  "{" ++ NL ++ indent (S level)
  ++ join ("," ++ NL ++ indent (S level)) items
  ++ NL ++ indent level ++ "}".

Fixpoint serialize (v : value) (level : nat) {struct v} : outcome string :=
  match v with
  | VUndefined | VNull => Returned "nil"
  | VBool b => Returned (if b then "true" else "false")
  | VNum n => Returned (Number.toString n)
  | VStr s => Returned (DQ ++ escapeQuotes s ++ DQ)
  | VArr items =>
      match items with
      | [] => Returned "{}"
      | _ =>
          items' <- mapM (fun v => serialize v (S level)) items ;;
          Returned (block level items')
      end
  | VObj entries =>
      entries' <- mapM (fun kv =>
                          let key := if isBareKey (fst kv) then fst kv
                                     else "[" ++ DQ ++ fst kv ++ DQ ++ "]" in
                          s <- serialize (snd kv) (S level) ;;
                          Returned (key ++ " = " ++ s)) entries ;;
      match entries' with
      | [] => Returned "{}"
      | _ => Returned (block level entries')
      end
  | VOther ty => Thrown ("Unsupported type: " ++ ty)
  end.

Definition transpile (object : value) (indentLevel : nat) : outcome string :=
  serialize object indentLevel.

(* ------------------------------------------------------------------ *)
(** ** The intermediate layout tree and the emitter [buildTree]
       (code.ts, lines 323-333) *)

(** The object [createNode] returns.  [constructor] and [children] are
    the two properties [buildTree] destructures; [fields] are the other
    entries of the object, in insertion order.  An object without a
    [children] property has [children = None]. *)
Inductive LayoutNode : Type := mkLayoutNode {
  constructor : string;
  nodeChildren : option (list LayoutNode);
  fields : list (string * value)
}.

(** [s.replace(re, "$1")] where [re] matches a whole string that opens
    and closes with a single quote and holds no line terminator between
    them (the dot of the source's pattern matches none). *)
Definition isLineTerminator (c : ascii) : bool :=
  Ascii.eqb c nl || Ascii.eqb c (ascii_of_nat 13).

Fixpoint dropLast (s : string) : option (string * ascii) :=
  match s with
  | EmptyString => None
  | String c s' =>
      match dropLast s' with
      | None => Some ("", c)
      | Some (init, last) => Some (String c init, last)
      end
  end.

Definition stripSingleQuotes (s : string) : string :=
  match s with
  | String "'" rest =>
      match dropLast rest with
      | Some (inner, "'"%char) =>
          if allChars (fun c => negb (isLineTerminator c)) inner
          then inner else s
      | _ => s
      end
  | _ => s
  end.

(** One [key = value] pair of the argument table:
    [(key === "font" || key == "material") && value.replace(...) || transpile(value)].
    Calling [replace] on a value that is no string is a [TypeError]. *)
Definition emitProp (kv : string * value) : outcome string :=
  let '(key, value) := kv in
  rhs <- (if (key =? "font")%string || (key =? "material")%string
          then match value with
               | VStr s =>
                   match stripSingleQuotes s with
                   | EmptyString => transpile value 0
                   | raw => Returned raw
                   end
               | _ => Thrown "TypeError: value.replace is not a function"
               end
          else transpile value 0) ;;
  Returned (key ++ " = " ++ rhs).

Definition isStructural (kv : string * value) : bool :=
  (fst kv =? "constructor")%string || (fst kv =? "children")%string.

Fixpoint buildTree (node : LayoutNode) (level : nat) {struct node}
  : outcome string :=
  let indent := repeatString "  " level in
  let (constructor, children, fields) := node in
  props <- mapM emitProp (filter (fun kv => negb (isStructural kv)) fields) ;;
  let props := join ", " props in
  match children with
  | None | Some [] => Returned (indent ++ constructor ++ "({" ++ props ++ "})")
  | Some children =>
      children' <- mapM (fun child => buildTree child (S level)) children ;;
      let childrenStr := join ("," ++ NL) children' in
      Returned (indent ++ constructor ++ "(" ++ NL
                ++ repeatString "  " (S level) ++ "{" ++ props ++ "},"
                ++ NL ++ childrenStr ++ NL ++ indent ++ ")")
  end.

(* ------------------------------------------------------------------ *)
(** ** JS short-circuit operators on values *)

Definition truthy (v : value) : bool :=
  match v with
  | VUndefined | VNull => false
  | VBool b => b
  | VNum n => Number.truthy n
  | VStr s => negb (s =? "")%string
  | VArr _ | VObj _ | VOther _ => true
  end.

(** [a && b] and [a || b]: both operands here are free of effects. *)
Definition jsAnd (a b : value) : value := if truthy a then b else a.
Definition jsOr (a b : value) : value := if truthy a then a else b.

Infix "&&&" := jsAnd (at level 40, left associativity).
Infix "|||" := jsOr (at level 50, left associativity).

(** [s === "LIT"] as a JS boolean. *)
Definition strIs (s lit : string) : value := VBool (s =? lit)%string.

(** [v === "LIT"] for a value that need not be a string. *)
Definition valueIs (v : value) (lit : string) : bool :=
  match v with
  | VStr s => (s =? lit)%string
  | _ => false
  end.

Definition ofOption {A} (f : A -> value) (o : option A) : value :=
  match o with
  | Some a => f a
  | None => VUndefined
  end.

Definition colorValue (c : option Z) : value := ofOption (fun z => VNum (int z)) c.

(** [...props] inside an object literal. *)
Definition spread (p : props) : list (string * value) :=
  map (fun kv => (fst kv, VNum (snd kv))) p.

(* ------------------------------------------------------------------ *)
(** ** [getTextFont] (code.ts, lines 87-95) *)

(** [\s] on 8-bit characters: tab, line feed, vertical tab, form feed,
    carriage return and space. *)
Definition isSpace (c : ascii) : bool :=
  let n := nat_of_ascii c in
  ((9 <=? n)%nat && (n <=? 13)%nat) || (n =? 32)%nat.

Fixpoint removeSpaces (s : string) : string :=
  match s with
  | EmptyString => ""
  | String c s' => if isSpace c then removeSpaces s' else String c (removeSpaces s')
  end.

Definition fontFile (f : FontName) : string :=
  family f ++ "-" ++ removeSpaces (style f) ++ ".ttf".

Definition threeQuarters : number := Number.mkNumber 75 2.

(** [fontName]/[fontSize] are [None] when they are [figma.mixed]; then the
    first styled segment decides, and reading it of an empty list throws. *)
Definition getTextFont (figmaNode : SceneNode) : outcome (string * number) :=
  match fontName figmaNode, fontSize figmaNode with
  | Some fontName, Some fontSize =>
      Returned (fontFile fontName, Number.mul fontSize threeQuarters)
  | _, _ =>
      match styledTextSegments figmaNode with
      | first :: _ =>
          Returned (fontFile (fst first), Number.mul (snd first) threeQuarters)
      | [] => Thrown "TypeError: Cannot read properties of undefined"
      end
  end.

(* ------------------------------------------------------------------ *)
(** ** [safelyExport] (code.ts, lines 125-141) *)

Fixpoint updateEffectiveVisibility (figmaNode : SceneNode) : SceneNode :=
  match figmaNode with
  | mkSceneNode ty nm _ x y w h lp lm lw pa ca sp sh sv fi st cr sw pd ch
                tx fn fs sg ar =>
      mkSceneNode ty nm true x y w h lp lm lw pa ca sp sh sv fi st cr sw pd
                  (option_map (map updateEffectiveVisibility) ch)
                  tx fn fs sg ar
  end.

(** [clone.x = 0; clone.y = 0] *)
Definition moveToOrigin (figmaNode : SceneNode) : SceneNode :=
  match figmaNode with
  | mkSceneNode ty nm v _ _ w h lp lm lw pa ca sp sh sv fi st cr sw pd ch
                tx fn fs sg ar =>
      mkSceneNode ty nm v (int 0) (int 0) w h lp lm lw pa ca sp sh sv fi st
                  cr sw pd ch tx fn fs sg ar
  end.

Definition removeNewlines (s : string) : string := replaceAll nl "" s.

Section Host.

(** The host's rasterization service: [node.exportAsync] with the options
    of line 136, which yields the SVG text or fails. *)
Variable exportAsync : SceneNode -> outcome string.

Definition safelyExport (figmaNode : SceneNode) : outcome string :=
  let clone := moveToOrigin (updateEffectiveVisibility figmaNode) in
  content <- exportAsync clone ;;
  Returned (removeNewlines content).

End Host.

(* ------------------------------------------------------------------ *)
(** ** The tree builder [createNode] (code.ts, lines 143-321) *)

(** What a call of [createNode] leaves behind: the messages it passed to
    [console.log], oldest first, and its result. *)
Definition built : Type := list string * outcome LayoutNode.

(** The loop of lines 219-225 (and 242-248, 274-280):
    [for (const figmaChild of children) try { push(await convert(figmaChild)) } catch (e) { console.log(e) }] *)
Definition convertChildren (convert : SceneNode -> built)
  : list SceneNode -> list string * list LayoutNode :=
  fix loop (figmaChildren : list SceneNode) : list string * list LayoutNode :=
    match figmaChildren with
    | [] => ([], [])
    | figmaChild :: rest =>
        let (log1, result) := convert figmaChild in
        let (log2, pushed) := loop rest in
        match result with
        | Returned child => ((log1 ++ log2)%list, child :: pushed)
        | Thrown e => ((log1 ++ e :: log2)%list, pushed)
        end
    end.

(** Lines 144-145. *)
Definition positionOf (figmaNode : SceneNode) (parentIsFrame : bool) : string :=
  let layoutPositioning :=
    match layoutPositioning figmaNode with Some p => p | None => "AUTO" end in
  if negb parentIsFrame || (layoutPositioning =? "ABSOLUTE")%string
  then "absolute" else "relative".

(** Lines 155-165. *)
Definition flexDirectionOf (figmaNode : SceneNode) : value :=
  let layoutMode :=
    match layoutMode figmaNode with Some m => m | None => "row" end in
  strIs layoutMode "HORIZONTAL" &&& VStr "row"
  ||| strIs layoutMode "VERTICAL" &&& VStr "column".

Definition flexWrapOf (figmaNode : SceneNode) : value :=
  let layoutWrap :=
    match layoutWrap figmaNode with Some w => w | None => "NO_WRAP" end in
  strIs layoutWrap "NO_WRAP" &&& VStr "nowrap"
  ||| strIs layoutWrap "WRAP" &&& VStr "wrap".

Definition justifyContentOf (figmaNode : SceneNode) : value :=
  let primaryAxisAlignItems :=
    match primaryAxisAlignItems figmaNode with Some a => a | None => "MIN" end in
  strIs primaryAxisAlignItems "MIN" &&& VStr "flex-start"
  ||| strIs primaryAxisAlignItems "MAX" &&& VStr "flex-end"
  ||| strIs primaryAxisAlignItems "CENTER" &&& VStr "center"
  ||| strIs primaryAxisAlignItems "SPACE_BETWEEN" &&& VStr "space-between".

Definition alignItemsOf (figmaNode : SceneNode) : value :=
  let counterAxisAlignItems :=
    match counterAxisAlignItems figmaNode with Some a => a | None => "MIN" end in
  strIs counterAxisAlignItems "MIN" &&& VStr "stretch"
  ||| strIs counterAxisAlignItems "MAX" &&& VStr "flex-end"
  ||| strIs counterAxisAlignItems "CENTER" &&& VStr "center".

(** Lines 169-170. *)
Definition widthOf (figmaNode : SceneNode)
           (parentIsMainAxisRow parentStretchItems : bool) : value :=
  let layoutSizingHorizontal :=
    match layoutSizingHorizontal figmaNode with Some m => m | None => "FIXED" end in
  strIs layoutSizingHorizontal "FIXED" &&& VNum (width figmaNode)
  ||| strIs layoutSizingHorizontal "FILL"
      &&& (VBool (negb parentIsMainAxisRow) &&& VBool parentStretchItems
           &&& VStr "auto" ||| VStr "100%")
  ||| strIs layoutSizingHorizontal "HUG" &&& VStr "fit-content".

(** Lines 172-173. *)
Definition heightOf (figmaNode : SceneNode)
           (parentIsMainAxisRow parentStretchItems : bool) : value :=
  let layoutSizingVertical :=
    match layoutSizingVertical figmaNode with Some m => m | None => "FIXED" end in
  strIs layoutSizingVertical "FIXED" &&& VNum (height figmaNode)
  ||| strIs layoutSizingVertical "FILL"
      &&& (VBool parentIsMainAxisRow &&& VBool parentStretchItems
           &&& VStr "auto" ||| VStr "100%")
  ||| strIs layoutSizingVertical "HUG" &&& VStr "fit-content".

(** The test of line 182. *)
Definition isContainerType (ty : string) : bool :=
  existsb (String.eqb ty) ["FRAME"; "GROUP"; "COMPONENT"; "INSTANCE"].

Definition isVectorGroup (figmaNode : SceneNode) : bool :=
  isContainerType (type figmaNode)
  && match children figmaNode with
     | Some children => forallb (fun child => (type child =? "VECTOR")%string) children
     | None => false
     end.

(** The template literal of line 193; [svg] is what [safelyExport] returned. *)
Definition materialOf (figmaNode : SceneNode) (svg : string) : string :=
  "Layta.svgCreate(" ++ Number.toString (width figmaNode) ++ ", "
  ++ Number.toString (height figmaNode) ++ ", '" ++ removeNewlines svg ++ "')".

(** The template literal of line 314. *)
Definition fontOf (fontName : string) (fontSize : number) : string :=
  "Layta.dxCreateFont(" ++ DQ ++ fontName ++ DQ ++ ", "
  ++ Number.toString fontSize ++ ", false, " ++ DQ ++ "cleartype_natural"
  ++ DQ ++ ") or " ++ DQ ++ "default" ++ DQ.

(** [for (const c of figmaNode.children)] when the node has no such property. *)
Definition notIterable : string :=
  "TypeError: figmaNode.children is not iterable".

Section Builder.

Variable exportAsync : SceneNode -> outcome string.

Fixpoint createNode (figmaNode : SceneNode)
         (parentIsFrame parentIsMainAxisRow parentStretchItems : bool)
         {struct figmaNode} : built :=
  let position := positionOf figmaNode parentIsFrame in
  let left := if (position =? "absolute")%string
              then VNum (x figmaNode) else VUndefined in
  let top := if (position =? "absolute")%string
             then VNum (y figmaNode) else VUndefined in
  let flexDirection := flexDirectionOf figmaNode in
  let flexWrap := flexWrapOf figmaNode in
  let justifyContent := justifyContentOf figmaNode in
  let alignItems := alignItemsOf figmaNode in
  let gap := ofOption VNum (itemSpacing figmaNode) in
  let width := widthOf figmaNode parentIsMainAxisRow parentStretchItems in
  let height := heightOf figmaNode parentIsMainAxisRow parentStretchItems in
  let fillColor := colorValue (getFillColor figmaNode) in
  let strokeColor := colorValue (getStrokeColor figmaNode) in
  let strokeWeight := spread (getStrokeWeightProps figmaNode) in
  let borderRadius := spread (getBorderRadiusProps figmaNode) in
  let padding := spread (getPaddingProps figmaNode) in
  let common :=
    [("id", VStr (name figmaNode)); ("visible", VBool (visible figmaNode));
     ("position", VStr position); ("left", left); ("top", top)] in
  let withChildren (parentIsFrame parentIsMainAxisRow : bool)
                   (fields : list (string * value)) : built :=
    match children figmaNode with
    | None => ([], Thrown notIterable)
    | Some figmaChildren =>
        let (log, pushed) :=
          convertChildren
            (fun figmaChild =>
               createNode figmaChild parentIsFrame parentIsMainAxisRow true)
            figmaChildren in
        (log, Returned (mkLayoutNode "Layta.Node" (Some pushed) fields))
    end in
  if isVectorGroup figmaNode then
    match safelyExport exportAsync figmaNode with
    | Thrown e => ([], Thrown e)
    | Returned svg =>
        ([], Returned (mkLayoutNode "Layta.Image" None
           (common ++
            [("width", width); ("height", height);
             ("foregroundColor", fillColor);
             ("material", VStr (materialOf figmaNode svg))])%list))
    end
  else if (type figmaNode =? "FRAME")%string then
    withChildren true (valueIs flexDirection "row")
      (common ++
       [("flexDirection", flexDirection); ("flexWrap", flexWrap);
        ("justifyContent", justifyContent); ("alignItems", alignItems);
        ("gap", gap); ("width", width); ("height", height);
        ("fillColor", fillColor); ("strokeColor", strokeColor)]
       ++ strokeWeight ++ borderRadius ++ padding)%list
  else if (type figmaNode =? "GROUP")%string
          || (type figmaNode =? "COMPONENT")%string then
    withChildren false true
      (common ++ [("width", width); ("height", height)])%list
  else if (type figmaNode =? "INSTANCE")%string then
    withChildren false (valueIs flexDirection "row")
      (common ++
       [("flexDirection", flexDirection); ("flexWrap", flexWrap);
        ("justifyContent", justifyContent); ("alignItems", alignItems);
        ("gap", gap); ("width", width); ("height", height);
        ("backgroundColor", fillColor); ("strokeColor", strokeColor)]
       ++ strokeWeight ++ borderRadius)%list
  else if (type figmaNode =? "RECTANGLE")%string then
    ([], Returned (mkLayoutNode "Layta.Node" (Some [])
       (common ++
        [("width", width); ("height", height);
         ("backgroundColor", fillColor); ("strokeColor", strokeColor)]
        ++ strokeWeight ++ borderRadius)%list))
  else if (type figmaNode =? "TEXT")%string then
    match getTextFont figmaNode with
    | Thrown e => ([], Thrown e)
    | Returned (fontName, fontSize) =>
        ([], Returned (mkLayoutNode "Layta.Text" None
           (common ++
            [("text", VStr (characters figmaNode));
             ("width", width); ("height", height);
             ("foregroundColor", colorValue (getTextColor figmaNode));
             ("font", VStr (fontOf fontName fontSize));
             ("wordWrap", VBool (textAutoResize figmaNode =? "HEIGHT")%string)])%list))
    end
  else
    ([], Thrown ("Unsupported type: " ++ type figmaNode)).

End Builder.

(* ================================================================== *)
(** * Part II: the vocabulary of the properties *)

(* ------------------------------------------------------------------ *)
(** ** Reading the built tree *)

(** [obj[k]] on a list of entries. *)
Fixpoint lookup (k : string) (entries : list (string * value)) : option value :=
  match entries with
  | [] => None
  | (k', v) :: rest => if (k' =? k)%string then Some v else lookup k rest
  end.

(** [node[k]] for a property other than [constructor] and [children]. *)
Definition field (k : string) (node : LayoutNode) : option value :=
  lookup k (fields node).

(** The context a container hands to its children (lines 221, 244, 276):
    [parentIsFrame] and [parentIsMainAxisRow]; [parentStretchItems] is
    always [true]. *)
Definition childIsInFrame (parent : SceneNode) : bool :=
  (type parent =? "FRAME")%string.

Definition childMainAxisRow (parent : SceneNode) : bool :=
  if (type parent =? "GROUP")%string || (type parent =? "COMPONENT")%string
  then true
  else valueIs (flexDirectionOf parent) "row".

(** The children a list of conversions contributes, and what it logs. *)
Definition survivors (results : list built) : list LayoutNode :=
  flat_map (fun res => match snd res with
                       | Returned child => [child]
                       | Thrown _ => []
                       end) results.

Definition diagnostics (results : list built) : list string :=
  flat_map (fun res => (fst res ++ match snd res with
                                   | Returned _ => []
                                   | Thrown e => [e]
                                   end)%list) results.

(** The designer placed the node outside the flow of its parent:
    [layoutPositioning === "ABSOLUTE"]. *)
Definition explicitlyAbsolute (figmaNode : SceneNode) : bool :=
  match layoutPositioning figmaNode with
  | Some p => (p =? "ABSOLUTE")%string
  | None => false
  end.

(** The node is emitted with flex properties and a flex direction. *)
Definition emitsFlexDirection (node : LayoutNode) : Prop :=
  field "flexDirection" node = Some (VStr "row")
  \/ field "flexDirection" node = Some (VStr "column").

(* ------------------------------------------------------------------ *)
(** ** The object literals of [createNode], branch by branch

    These name the field lists that [createNode] builds inline, so that
    its defining equation ([createNode_unfold] below) can be stated. *)

Definition leftOf (figmaNode : SceneNode) (parentIsFrame : bool) : value :=
  if (positionOf figmaNode parentIsFrame =? "absolute")%string
  then VNum (x figmaNode) else VUndefined.

Definition topOf (figmaNode : SceneNode) (parentIsFrame : bool) : value :=
  if (positionOf figmaNode parentIsFrame =? "absolute")%string
  then VNum (y figmaNode) else VUndefined.

Definition commonFields (figmaNode : SceneNode) (parentIsFrame : bool)
  : list (string * value) :=
  [("id", VStr (name figmaNode)); ("visible", VBool (visible figmaNode));
   ("position", VStr (positionOf figmaNode parentIsFrame));
   ("left", leftOf figmaNode parentIsFrame);
   ("top", topOf figmaNode parentIsFrame)].

Definition flexFields (figmaNode : SceneNode) : list (string * value) :=
  [("flexDirection", flexDirectionOf figmaNode);
   ("flexWrap", flexWrapOf figmaNode);
   ("justifyContent", justifyContentOf figmaNode);
   ("alignItems", alignItemsOf figmaNode);
   ("gap", ofOption VNum (itemSpacing figmaNode))].

Definition sizeFields (figmaNode : SceneNode)
           (parentIsMainAxisRow parentStretchItems : bool)
  : list (string * value) :=
  [("width", widthOf figmaNode parentIsMainAxisRow parentStretchItems);
   ("height", heightOf figmaNode parentIsMainAxisRow parentStretchItems)].

Definition imageFields (figmaNode : SceneNode)
           (parentIsFrame parentIsMainAxisRow parentStretchItems : bool)
           (svg : string) : list (string * value) :=
  (commonFields figmaNode parentIsFrame
   ++ sizeFields figmaNode parentIsMainAxisRow parentStretchItems
   ++ [("foregroundColor", colorValue (getFillColor figmaNode));
       ("material", VStr (materialOf figmaNode svg))])%list.

Definition frameFields (figmaNode : SceneNode)
           (parentIsFrame parentIsMainAxisRow parentStretchItems : bool)
  : list (string * value) :=
  (commonFields figmaNode parentIsFrame
   ++ flexFields figmaNode
   ++ sizeFields figmaNode parentIsMainAxisRow parentStretchItems
   ++ [("fillColor", colorValue (getFillColor figmaNode));
       ("strokeColor", colorValue (getStrokeColor figmaNode))]
   ++ spread (getStrokeWeightProps figmaNode)
   ++ spread (getBorderRadiusProps figmaNode)
   ++ spread (getPaddingProps figmaNode))%list.

Definition groupFields (figmaNode : SceneNode)
           (parentIsFrame parentIsMainAxisRow parentStretchItems : bool)
  : list (string * value) :=
  (commonFields figmaNode parentIsFrame
   ++ sizeFields figmaNode parentIsMainAxisRow parentStretchItems)%list.

Definition instanceFields (figmaNode : SceneNode)
           (parentIsFrame parentIsMainAxisRow parentStretchItems : bool)
  : list (string * value) :=
  (commonFields figmaNode parentIsFrame
   ++ flexFields figmaNode
   ++ sizeFields figmaNode parentIsMainAxisRow parentStretchItems
   ++ [("backgroundColor", colorValue (getFillColor figmaNode));
       ("strokeColor", colorValue (getStrokeColor figmaNode))]
   ++ spread (getStrokeWeightProps figmaNode)
   ++ spread (getBorderRadiusProps figmaNode))%list.

Definition rectangleFields (figmaNode : SceneNode)
           (parentIsFrame parentIsMainAxisRow parentStretchItems : bool)
  : list (string * value) :=
  (commonFields figmaNode parentIsFrame
   ++ sizeFields figmaNode parentIsMainAxisRow parentStretchItems
   ++ [("backgroundColor", colorValue (getFillColor figmaNode));
       ("strokeColor", colorValue (getStrokeColor figmaNode))]
   ++ spread (getStrokeWeightProps figmaNode)
   ++ spread (getBorderRadiusProps figmaNode))%list.

Definition textFields (figmaNode : SceneNode)
           (parentIsFrame parentIsMainAxisRow parentStretchItems : bool)
           (fontName : string) (fontSize : number) : list (string * value) :=
  (commonFields figmaNode parentIsFrame
   ++ [("text", VStr (characters figmaNode))]
   ++ sizeFields figmaNode parentIsMainAxisRow parentStretchItems
   ++ [("foregroundColor", colorValue (getTextColor figmaNode));
       ("font", VStr (fontOf fontName fontSize));
       ("wordWrap", VBool (textAutoResize figmaNode =? "HEIGHT")%string)])%list.

(** A container branch: convert the children in the context
    [(inFrame, mainAxisRow, true)] and attach the survivors. *)
Definition container (convert : SceneNode -> bool -> bool -> bool -> built)
           (figmaNode : SceneNode) (inFrame mainAxisRow : bool)
           (fields : list (string * value)) : built :=
  match children figmaNode with
  | None => ([], Thrown notIterable)
  | Some figmaChildren =>
      let (log, pushed) :=
        convertChildren
          (fun figmaChild => convert figmaChild inFrame mainAxisRow true)
          figmaChildren in
      (log, Returned (mkLayoutNode "Layta.Node" (Some pushed) fields))
  end.

(* ------------------------------------------------------------------ *)
(** ** Packed colours and four-sided style groups *)

(** Byte [k/8] of a packed colour: [(p >> k) & 0xFF]. *)
Definition byteAt (p k : Z) : Z := Z.land (Z.shiftr p k) 255.

(** The 32-bit pattern of a signed 32-bit integer, read as unsigned. *)
Definition unsigned32 (p : Z) : Z := p mod 2 ^ 32.

Definition isPositive (v : number) : Prop := Number.gtb v (int 0) = true.
Definition isZero (v : number) : Prop := Number.eqb v (int 0) = true.

(** The four values of a style group are one and the same number. *)
Definition allSame (a b c d : number) : Prop :=
  Number.eqb a b = true /\ Number.eqb b c = true /\ Number.eqb c d = true.

(** The per-side entries with a strictly positive value, in source order. *)
Definition positiveSides (sides : list (string * number)) : props :=
  filter (fun kv => Number.gtb (snd kv) (int 0)) sides.

(** What the specification asks of a four-sided style group whose
    shorthand key is [shorthand], whose sides are [k1 .. k4] with values
    [a .. d], and for which the extractor returned [out]. *)
Definition collapsed (shorthand k1 k2 k3 k4 : string) (a b c d : number)
           (out : props) : Prop :=
  (allSame a b c d -> isPositive a -> out = [(shorthand, a)])
  /\ (~ allSame a b c d ->
      out = positiveSides [(k1, a); (k2, b); (k3, c); (k4, d)]
      /\ ~ In shorthand (map fst out))
  /\ (isZero a -> isZero b -> isZero c -> isZero d -> out = [])
  /\ (forall k v, In (k, v) out -> isPositive v).

(* ------------------------------------------------------------------ *)
(** ** Call trees: what a reader of the emitted text reconstructs *)

(** A constructor call: tag, ordered [field = value] pairs, ordered
    children.  A node without a [children] property and one with an empty
    [children] array are the same call. *)
Inductive CallTree : Type :=
| Call (tag : string) (args : list (string * value)) (kids : list CallTree).

Fixpoint callTreeOf (node : LayoutNode) : CallTree :=
  let (constructor, children, fields) := node in
  Call constructor
       (filter (fun kv => negb (isStructural kv)) fields)
       (match children with
        | None => []
        | Some children => map callTreeOf children
        end).

(** No field is absent and every field is of a kind [serialize] accepts. *)
Fixpoint presentValue (v : value) : bool :=
  match v with
  | VUndefined | VNull | VOther _ => false
  | VBool _ | VNum _ | VStr _ => true
  | VArr items => forallb presentValue items
  | VObj entries => forallb (fun kv => presentValue (snd kv)) entries
  end.

Fixpoint allPresent (node : LayoutNode) : bool :=
  let (_, children, fields) := node in
  forallb (fun kv => presentValue (snd kv)) fields
  && match children with
     | None => true
     | Some children => forallb allPresent children
     end.

(** The round-trip property of the specification, for a given reader of
    the emitted text. *)
Definition roundTrips (parse : string -> option CallTree) : Prop :=
  forall node text,
    allPresent node = true ->
    buildTree node 0 = Returned text ->
    parse text = Some (callTreeOf node).

(* ------------------------------------------------------------------ *)
(** ** A reader for the emitted text

    The source has no reader: this one is no part of the embedding.  It
    fixes the grammar of the emitted text so that the round trip of the
    specification can be stated:
    [Tag({k = v, ...})] for a call without children, and
    [Tag( {k = v, ...}, child, ..., child )] (with line breaks and
    indentation) for a call with children.  Values are [true], [false],
    decimal literals and double-quoted strings in which a backslash
    escapes a double quote. *)

Definition isBlank (c : ascii) : bool := Ascii.eqb c " " || Ascii.eqb c nl.

Definition isTagChar (c : ascii) : bool :=
  negb (Ascii.eqb c "(" || isBlank c).

Definition isKeyChar (c : ascii) : bool :=
  let n := nat_of_ascii c in
  ((48 <=? n) && (n <=? 57) || (65 <=? n) && (n <=? 90)
   || (97 <=? n) && (n <=? 122) || (n =? 95))%nat.

Definition isDigit (c : ascii) : bool :=
  let n := nat_of_ascii c in ((48 <=? n) && (n <=? 57))%nat.

Definition isNumChar (c : ascii) : bool :=
  isDigit c || Ascii.eqb c "-" || Ascii.eqb c ".".

Fixpoint skipBlank (s : string) : string :=
  match s with
  | String c s' => if isBlank c then skipBlank s' else s
  | EmptyString => s
  end.

(** The longest prefix of characters in [p], and what follows it. *)
Fixpoint span (p : ascii -> bool) (s : string) : string * string :=
  match s with
  | String c s' =>
      if p c then let (word, rest) := span p s' in (String c word, rest)
      else ("", s)
  | EmptyString => ("", "")
  end.

(** What follows the literal [lit] at the head of [s]. *)
Fixpoint expect (lit s : string) : option string :=
  match lit with
  | EmptyString => Some s
  | String c lit' =>
      match s with
      | String d s' => if Ascii.eqb c d then expect lit' s' else None
      | EmptyString => None
      end
  end.

(** The body of a string literal, after the opening quote: a backslash
    followed by a double quote stands for a double quote, any other
    backslash for itself. *)
Fixpoint parseString (s : string) : option (string * string) :=
  match s with
  | EmptyString => None
  | String c s' =>
      if Ascii.eqb c dq then Some ("", s')
      else if Ascii.eqb c "\" then
        match s' with
        | String c' s'' =>
            if Ascii.eqb c' dq
            then option_map (fun r => (String dq (fst r), snd r)) (parseString s'')
            else option_map (fun r => (String c (fst r), snd r)) (parseString s')
        | EmptyString => None
        end
      else option_map (fun r => (String c (fst r), snd r)) (parseString s')
  end.

(** The number a run of decimal digits denotes, after the digits [acc]. *)
Fixpoint readDigits (acc : Z) (s : string) : option Z :=
  match s with
  | EmptyString => Some acc
  | String c s' =>
      if isDigit c
      then readDigits (acc * 10 + (Z.of_nat (nat_of_ascii c) - 48)) s'
      else None
  end.

(** An unsigned decimal literal: an integer part and an optional
    fraction; [negative] is the sign read before it. *)
Definition parseUnsigned (negative : bool) (body : string) : option number :=
  let (whole, fraction) := span isDigit body in
  match NilZero.int_of_string whole with
  | None => None
  | Some d =>
      let signed (m : Z) := if negative then - m else m in
      match fraction with
      | EmptyString => Some (int (signed (Z.of_int d)))
      | String c digits =>
          if Ascii.eqb c "." then
            match readDigits 0 digits with
            | Some f =>
                let e := String.length digits in
                Some (Number.mkNumber
                        (signed (Z.of_int d * Number.pow10 e + f)) e)
            | None => None
            end
          else None
      end
  end.

(** A decimal literal with an optional sign. *)
Definition parseNumber (word : string) : option number :=
  match word with
  | String "-" body => parseUnsigned true body
  | _ => parseUnsigned false word
  end.

Definition parseValue (s : string) : option (value * string) :=
  match s with
  | EmptyString => None
  | String c s' =>
      if Ascii.eqb c dq then
        option_map (fun r => (VStr (fst r), snd r)) (parseString s')
      else if Ascii.eqb c "t" then
        option_map (fun r => (VBool true, r)) (expect "true" s)
      else if Ascii.eqb c "f" then
        option_map (fun r => (VBool false, r)) (expect "false" s)
      else
        let (word, rest) := span isNumChar s in
        option_map (fun n => (VNum n, rest)) (parseNumber word)
  end.

(** [k = v, ..., k = v}] with at least one pair. *)
Fixpoint parseArgs (fuel : nat) (s : string)
  : option (list (string * value) * string) :=
  match fuel with
  | O => None
  | S fuel' =>
      let (key, r0) := span isKeyChar s in
      match expect " = " r0 with
      | None => None
      | Some r1 =>
          match parseValue r1 with
          | None => None
          | Some (v, String "}" r3) => Some ([(key, v)], r3)
          | Some (v, String "," (String " " r3)) =>
              option_map (fun r => ((key, v) :: fst r, snd r))
                         (parseArgs fuel' r3)
          | Some _ => None
          end
      end
  end.

(** The argument table, after its opening brace. *)
Definition parseTable (s : string) : option (list (string * value) * string) :=
  match s with
  | String "}" rest => Some ([], rest)
  | _ => parseArgs (String.length s) s
  end.

Fixpoint parseNode (fuel : nat) (s : string) {struct fuel}
  : option (CallTree * string) :=
  match fuel with
  | O => None
  | S fuel' =>
      let (tag, r0) := span isTagChar (skipBlank s) in
      match r0 with
      | String "(" r1 =>
          match skipBlank r1 with
          | String "{" r2 =>
              match parseTable r2 with
              | Some (args, String ")" r4) => Some (Call tag args [], r4)
              | Some (args, String "," r4) =>
                  option_map (fun r => (Call tag args (fst r), snd r))
                             (parseKids fuel' r4)
              | _ => None
              end
          | _ => None
          end
      | _ => None
      end
  end

with parseKids (fuel : nat) (s : string) {struct fuel}
  : option (list CallTree * string) :=
  match fuel with
  | O => None
  | S fuel' =>
      match parseNode fuel' s with
      | None => None
      | Some (kid, String "," r2) =>
          option_map (fun r => (kid :: fst r, snd r)) (parseKids fuel' r2)
      | Some (kid, r1) =>
          match skipBlank r1 with
          | String ")" r2 => Some ([kid], r2)
          | _ => None
          end
      end
  end.

(** Read a whole text as one call. *)
Definition parse (text : string) : option CallTree :=
  match parseNode (String.length text) text with
  | Some (call, EmptyString) => Some call
  | _ => None
  end.

(** [s] is empty or starts with a character outside [p]. *)
Definition stopsAt (p : ascii -> bool) (s : string) : Prop :=
  match s with
  | EmptyString => True
  | String c _ => p c = false
  end.

(** [s] starts with a comma or a closing brace: what follows a value in an
    argument table. *)
Definition endsValue (s : string) : Prop :=
  exists c rest, s = String c rest /\ (c = ","%char \/ c = "}"%char).

(** The fuel [parseNode] needs to read a call back. *)
Fixpoint size (call : CallTree) : nat :=
  let (_, _, kids) := call in
  S (list_sum (map (fun kid => S (size kid)) kids)).

Definition sizes (kids : list CallTree) : nat :=
  list_sum (map (fun kid => S (size kid)) kids).

(* ------------------------------------------------------------------ *)
(** ** Plain trees and their text

    The trees the reader is proved to read back: tags without blanks and
    parentheses; fields named by identifiers other than [font] and
    [material]; values that are booleans, numbers, or strings that do
    not end with a backslash.  A number is taken in lowest decimal terms
    (no trailing zero in its fraction), the representation in which
    [toString] prints it. *)

(** [s] ends with the character [c]. *)
Fixpoint endsWith (c : ascii) (s : string) : bool :=
  match s with
  | EmptyString => false
  | String a EmptyString => Ascii.eqb a c
  | String _ s' => endsWith c s'
  end.

(** The parts of a printed number: sign, and fraction after the integer
    part. *)
Definition signText (m : Z) : string := if m <? 0 then "-" else "".

Definition fractionText (e : nat) (f : Z) : string :=
  match e with
  | O => ""
  | S _ => "." ++ Number.digits e f
  end.

Definition isNormalized (n : number) : bool :=
  let (m, e) := Number.normalize (Number.mantissa n) (Number.scale n) in
  (m =? Number.mantissa n) && (e =? Number.scale n)%nat.

Definition plainValue (v : value) : bool :=
  match v with
  | VBool _ => true
  | VNum n => isNormalized n
  | VStr s => negb (endsWith "\" s)
  | _ => false
  end.

Definition plainArg (kv : string * value) : bool :=
  negb (fst kv =? "")%string && allChars isKeyChar (fst kv)
  && negb (fst kv =? "font")%string && negb (fst kv =? "material")%string
  && plainValue (snd kv).

Fixpoint plainCall (call : CallTree) : bool :=
  let (tag, args, kids) := call in
  allChars isTagChar tag && forallb plainArg args && forallb plainCall kids.

(** The emitted text of a plain call, as a function of the call. *)
Definition renderValue (v : value) : string :=
  match v with
  | VBool b => if b then "true" else "false"
  | VNum n => Number.toString n
  | VStr s => DQ ++ escapeQuotes s ++ DQ
  | _ => "nil"
  end.

Definition renderArg (kv : string * value) : string :=
  fst kv ++ " = " ++ renderValue (snd kv).

Fixpoint render (call : CallTree) (level : nat) : string :=
  let (tag, args, kids) := call in
  let props := join ", " (map renderArg args) in
  match kids with
  | [] => indent level ++ tag ++ "({" ++ props ++ "})"
  | _ =>
      indent level ++ tag ++ "(" ++ NL ++ indent (S level) ++ "{" ++ props
      ++ "}," ++ NL
      ++ join ("," ++ NL) (map (fun kid => render kid (S level)) kids)
      ++ NL ++ indent level ++ ")"
  end.

(* ================================================================== *)
(** * Part III: sample inputs *)

(** The spec's example mapping [{a: 1, "b-c": 2}]. *)
Definition exampleMapping : value :=
  VObj [("a", VNum (int 1)); ("b-c", VNum (int 2))].

(** A node without auto-layout properties of its own. *)
Definition shape (ty nm : string) (x y w h : number)
           (positioning horizontal vertical : string)
           (kids : option (list SceneNode)) : SceneNode :=
  mkSceneNode ty nm true x y w h (Some positioning) None None None None None
              (Some horizontal) (Some vertical) (Some []) (Some [])
              None None None kids "" None None [] "NONE".

(** A frame-like node with auto-layout in direction [mode]. *)
Definition autoLayout (ty nm mode : string) (x y w h : number)
           (kids : list SceneNode) : SceneNode :=
  mkSceneNode ty nm true x y w h (Some "AUTO") (Some mode) (Some "NO_WRAP")
              (Some "MIN") (Some "MIN") (Some (int 0))
              (Some "FIXED") (Some "FIXED") (Some []) (Some [])
              (Some (mkCornerRadii (int 0) (int 0) (int 0) (int 0)))
              (Some (mkStrokeWeights (int 0) (int 0) (int 0) (int 0)))
              (Some (mkPaddings (int 0) (int 0) (int 0) (int 0)))
              (Some kids) "" None None [] "NONE".

(** A host whose rasterization service always answers [svg]. *)
Definition exportsAs (svg : string) : SceneNode -> outcome string :=
  fun _ => Returned svg.

(** A host whose rasterization service always fails. *)
Definition exportFails : SceneNode -> outcome string :=
  fun _ => Thrown "export failed".

(** A rectangle without paints, strokes or rounded corners. *)
Definition rectangle (nm : string) (x y w h : number)
           (positioning horizontal vertical : string) : SceneNode :=
  mkSceneNode "RECTANGLE" nm true x y w h (Some positioning)
              None None None None None
              (Some horizontal) (Some vertical) (Some []) (Some [])
              (Some (mkCornerRadii (int 0) (int 0) (int 0) (int 0)))
              (Some (mkStrokeWeights (int 0) (int 0) (int 0) (int 0)))
              None None "" None None [] "NONE".

Definition rect200x50 : SceneNode :=
  rectangle "box" (int 10) (int 20) (int 200) (int 50) "AUTO" "FIXED" "FIXED".

Definition rectZeroWidth : SceneNode :=
  rectangle "line" (int 10) (int 20) (int 0) (int 50) "AUTO" "FIXED" "FIXED".

Definition rectFill : SceneNode :=
  rectangle "bar" (int 0) (int 0) (int 30) (int 40) "AUTO" "FILL" "FILL".

Definition ellipse : SceneNode :=
  shape "ELLIPSE" "dot" (int 1) (int 2) (int 3) (int 4)
        "AUTO" "FIXED" "FIXED" None.

Definition vector : SceneNode :=
  shape "VECTOR" "path" (int 0) (int 0) (int 8) (int 8)
        "AUTO" "FIXED" "FIXED" None.

Definition opaqueRed : Paint :=
  mkPaint "SOLID" (mkRGB (int 1) (int 0) (int 0)) (Some (int 1)).

Definition sampleBox : SceneNode :=
  mkSceneNode "FRAME" "card" true (int 0) (int 0) (int 100) (int 60)
              (Some "AUTO") (Some "VERTICAL") (Some "NO_WRAP")
              (Some "MIN") (Some "MIN") (Some (int 4))
              (Some "FIXED") (Some "HUG") (Some [opaqueRed]) (Some [])
              (Some (mkCornerRadii (int 6) (int 6) (int 6) (int 6)))
              (Some (mkStrokeWeights (int 1) (int 0) (int 2) (int 0)))
              (Some (mkPaddings (int 0) (int 0) (int 0) (int 0)))
              (Some [rect200x50]) "" None None [] "NONE".

(** A frame with three children, the second of an unsupported kind. *)
Definition frameWithEllipse : SceneNode :=
  autoLayout "FRAME" "row" "HORIZONTAL" (int 0) (int 0) (int 300) (int 80)
             [rect200x50; ellipse; rectFill].

(** An auto-layout instance with one child that is not positioned
    absolutely by the designer. *)
Definition instanceWithChild : SceneNode :=
  autoLayout "INSTANCE" "button" "HORIZONTAL" (int 5) (int 6) (int 300) (int 80)
             [rect200x50].

Definition frameWithChild : SceneNode :=
  autoLayout "FRAME" "panel" "HORIZONTAL" (int 5) (int 6) (int 300) (int 80)
             [rect200x50].

Definition iconGroup : SceneNode :=
  shape "GROUP" "icon" (int 3) (int 4) (int 16) (int 16)
        "AUTO" "FIXED" "FIXED" (Some [vector; vector]).

(** A group around a single vertical stroke: its bounding box has width
    0. *)
Definition ruleGroup : SceneNode :=
  shape "GROUP" "rule" (int 3) (int 4) (int 0) (int 8)
        "AUTO" "FIXED" "FIXED"
        (Some [shape "VECTOR" "stroke" (int 0) (int 0) (int 0) (int 8)
                     "AUTO" "FIXED" "FIXED" None]).

Definition emptyFrame : SceneNode :=
  autoLayout "FRAME" "spacer" "VERTICAL" (int 0) (int 0) (int 10) (int 10) [].

(** A text node set in font [family], style Regular, size 12. *)
Definition label (nm family : string) : SceneNode :=
  mkSceneNode "TEXT" nm true (int 0) (int 0) (int 10) (int 10)
              (Some "AUTO") None None None None None
              (Some "FIXED") (Some "FIXED") (Some [opaqueRed]) (Some [])
              None None None None "hi"
              (Some (mkFontName family "Regular")) (Some (int 12)) [] "NONE".

Definition groupOf (kids : list SceneNode) : SceneNode :=
  shape "GROUP" "g" (int 0) (int 0) (int 10) (int 10)
        "AUTO" "FIXED" "FIXED" (Some kids).

(** A font family name that spells out the end of one emitted text call
    and the beginning of the next. *)
Definition forgedFamily : string :=
  "X-Regular.ttf" ++ DQ ++ ", 9, false, " ++ DQ ++ "cleartype_natural" ++ DQ
  ++ ") or " ++ DQ ++ "default" ++ DQ ++ ", wordWrap = false})," ++ NL
  ++ "  Layta.Text({id = " ++ DQ ++ "b" ++ DQ ++ ", visible = true, position = "
  ++ DQ ++ "absolute" ++ DQ ++ ", left = 0, top = 0, text = " ++ DQ ++ "hi"
  ++ DQ ++ ", width = 10, height = 10, foregroundColor = -65536, "
  ++ "font = Layta.dxCreateFont(" ++ DQ ++ "Y".

Definition oneLabel : SceneNode := groupOf [label "a" forgedFamily].
Definition twoLabels : SceneNode := groupOf [label "a" "X"; label "b" "Y"].

(** The tree [createNode] returns, for inputs on which it returns. *)
Definition treeOf (figmaNode : SceneNode) : LayoutNode :=
  match snd (createNode exportFails figmaNode false true true) with
  | Returned node => node
  | Thrown _ => mkLayoutNode "" None []
  end.

(** A scene whose tree has no absent field: a group of two rectangles
    with a solid fill and a solid stroke. *)
Definition paintedRect (nm : string) (w h : number) : SceneNode :=
  mkSceneNode "RECTANGLE" nm true (int 1) (int 2) w h
              (Some "AUTO") None None None None None
              (Some "FIXED") (Some "HUG") (Some [opaqueRed]) (Some [opaqueRed])
              (Some (mkCornerRadii (int 4) (int 4) (int 4) (int 4)))
              (Some (mkStrokeWeights (int 1) (int 0) (int 1) (int 0)))
              None None "" None None [] "NONE".

Definition paintedGroup : SceneNode :=
  groupOf [paintedRect "first" (int 20) (Number.mkNumber 305 1);
           paintedRect "say hi" (Number.mkNumber (-5) 2) (int 7)].


(* ================================================================== *)
(** * Part IV: the rest of the plugin, and more vocabulary *)

(* ------------------------------------------------------------------ *)
(** ** Vocabulary: numbers and colours *)

(** [a >= b] and [a <= b] on numbers. *)
Definition atLeast (a b : number) : Prop := Number.gtb b a = false.
Definition atMost (a b : number) : Prop := Number.gtb a b = false.

(** The colour [0xAARRGGBB] as an unsigned number. *)
Definition argb (a r g b : Z) : Z := a * 2 ^ 24 + r * 2 ^ 16 + g * 2 ^ 8 + b.

Definition alphaOf (a : option number) : number :=
  match a with Some a => a | None => int 1 end.

(** The packed colour of one paint, as the three extractors compute it. *)
Definition paintColor (p : Paint) : Z :=
  packColor (r (color p)) (g (color p)) (b (color p)) (opacity p).

(** No paint of the list is solid with a positive opacity. *)
Definition noVisibleSolid (paints : list Paint) : Prop :=
  Forall (fun p => isVisibleSolid p = false) paints.

(* ------------------------------------------------------------------ *)
(** ** Vocabulary: serialized values *)

(** No part of the value is of a kind [serialize] rejects. *)
Fixpoint serializable (v : value) : bool :=
  match v with
  | VOther _ => false
  | VArr items => forallb serializable items
  | VObj entries => forallb (fun kv => serializable (snd kv)) entries
  | _ => true
  end.

(** Every double quote of [s] stands right after a backslash;
    [afterBackslash] tells whether the character before [s] is one. *)
Fixpoint quotesGuarded (afterBackslash : bool) (s : string) : bool :=
  match s with
  | EmptyString => true
  | String c s' =>
      (if Ascii.eqb c dq then afterBackslash else true)
      && quotesGuarded (Ascii.eqb c "\") s'
  end.

Definition hasQuote (s : string) : bool :=
  negb (allChars (fun c => negb (Ascii.eqb c dq)) s).

Fixpoint countQuotes (s : string) : nat :=
  match s with
  | EmptyString => O
  | String c s' => ((if Ascii.eqb c dq then 1 else 0) + countQuotes s')%nat
  end.

(* ------------------------------------------------------------------ *)
(** ** More sample inputs *)

Definition hiddenBlue : Paint :=
  mkPaint "SOLID" (mkRGB (int 0) (int 0) (int 1)) (Some (int 0)).

Definition gradient : Paint :=
  mkPaint "GRADIENT_LINEAR" (mkRGB (int 0) (int 1) (int 0)) None.

Definition halfGreen : Paint :=
  mkPaint "SOLID" (mkRGB (int 0) (int 1) (int 0)) (Some (Number.mkNumber 5 1)).

(** A rectangle painted with a hidden solid, a gradient, and two solids. *)
Definition layered : SceneNode :=
  mkSceneNode "RECTANGLE" "layers" true (int 0) (int 0) (int 10) (int 10)
              (Some "AUTO") None None None None None
              (Some "FIXED") (Some "FIXED")
              (Some [hiddenBlue; gradient; opaqueRed; halfGreen])
              (Some [hiddenBlue; gradient; opaqueRed; halfGreen])
              (Some (mkCornerRadii (int 0) (int 0) (int 0) (int 0)))
              (Some (mkStrokeWeights (int 0) (int 0) (int 0) (int 0)))
              None None "" None None [] "NONE".

(** A number in lowest terms: trailing zero digits of the fraction dropped. *)
Definition lowestTerms (n : number) : number :=
  let (m, e) := Number.normalize (Number.mantissa n) (Number.scale n) in
  Number.mkNumber m e.

(** The node's font cannot be read off the node itself: [fontName] or
    [fontSize] is [figma.mixed]. *)
Definition mixedFont (figmaNode : SceneNode) : Prop :=
  fontName figmaNode = None \/ fontSize figmaNode = None.

(** A text node of mixed fonts, with its styled segments. *)
Definition mixedLabel (segments : list (FontName * number)) : SceneNode :=
  mkSceneNode "TEXT" "mixed" true (int 0) (int 0) (int 10) (int 10)
              (Some "AUTO") None None None None None
              (Some "FIXED") (Some "FIXED") (Some [opaqueRed]) (Some [])
              None None None None "hi"
              (Some (mkFontName "Inter" "Regular")) None segments "NONE".

(* ------------------------------------------------------------------ *)
(** ** Vocabulary: built trees *)

(** The fields of a container that is not a vector group. *)
Definition containerFields (figmaNode : SceneNode)
           (parentIsFrame parentIsMainAxisRow parentStretchItems : bool)
  : list (string * value) :=
  if (type figmaNode =? "FRAME")%string then
    frameFields figmaNode parentIsFrame parentIsMainAxisRow parentStretchItems
  else if (type figmaNode =? "GROUP")%string
          || (type figmaNode =? "COMPONENT")%string then
    groupFields figmaNode parentIsFrame parentIsMainAxisRow parentStretchItems
  else
    instanceFields figmaNode parentIsFrame parentIsMainAxisRow
                   parentStretchItems.

(** A property of every node of a built tree. *)
Fixpoint everyNode (Q : LayoutNode -> Prop) (node : LayoutNode) : Prop :=
  Q node
  /\ match nodeChildren node with
     | None => True
     | Some kids =>
         (fix all (l : list LayoutNode) : Prop :=
            match l with
            | [] => True
            | kid :: rest => everyNode Q kid /\ all rest
            end) kids
     end.

(** A value that is no array, no object and nothing [transpile] rejects. *)
Definition isScalar (v : value) : bool :=
  match v with
  | VUndefined | VBool _ | VNum _ | VStr _ => true
  | _ => false
  end.

(** An entry [buildTree] can emit: the value of [font] and [material] is
    a string, any other value is a scalar. *)
Definition emittableField (kv : string * value) : bool :=
  if (fst kv =? "font")%string || (fst kv =? "material")%string
  then match snd kv with VStr _ => true | _ => false end
  else isScalar (snd kv).

Definition emittableFields (node : LayoutNode) : Prop :=
  forallb emittableField (fields node) = true.

(** The keys the three four-sided style extractors can write. *)
Definition styleKeys : list string :=
  ["borderRadius"; "borderTopLeftRadius"; "borderTopRightRadius";
   "borderBottomLeftRadius"; "borderBottomRightRadius";
   "strokeWeight"; "strokeLeftWeight"; "strokeTopWeight";
   "strokeRightWeight"; "strokeBottomWeight";
   "padding"; "paddingLeft"; "paddingTop"; "paddingRight"; "paddingBottom"].

Definition isStyleKey (k : string) : bool := existsb (String.eqb k) styleKeys.

(** A card: a frame holding a text, a rectangle, an icon drawn with
    vectors and a shape the plugin does not support. *)
Definition card : SceneNode :=
  autoLayout "FRAME" "card" "VERTICAL" (int 0) (int 0) (int 120) (int 90)
             [label "title" "Inter"; paintedRect "line" (int 100) (int 2);
              iconGroup; ellipse].

(* ------------------------------------------------------------------ *)
(** ** The entry point (code.ts, lines 335-347) *)

(** What a run of the plugin leaves behind: whether [figma.showUI] was
    called, the messages passed to [figma.ui.postMessage], and the
    messages passed to [console.log], oldest first. *)
Record Session := mkSession {
  shown : bool;
  posted : list string;
  console : list string
}.

(** The two ends of the template literal of line 343. *)
Definition preamble : string :=
  "loadstring(exports.layta:import())()" ++ NL ++ NL ++ "local ui = ".

Definition trailer : string := NL ++ NL ++ "ui:setParent(Layta.tree)".

Section Plugin.

Variable exportAsync : SceneNode -> outcome string.

(** The body of the immediately invoked function, for a page whose
    selection is [selection].  [createNode] is called with its default
    context; [showUI] runs before the argument of [postMessage] is
    evaluated; whatever is thrown inside the [try] is logged. *)
Definition main (selection : list SceneNode) : Session :=
  match selection with
  | [] => mkSession false [] []
  | first :: _ =>
      let (log, result) := createNode exportAsync first false true true in
      match result with
      | Thrown e => mkSession false [] (log ++ [e])
      | Returned tree =>
          match buildTree tree 0 with
          | Thrown e => mkSession true [] (log ++ [e])
          | Returned code =>
              mkSession true [preamble ++ code ++ trailer] log
          end
      end
  end.

End Plugin.

(* ------------------------------------------------------------------ *)
(** ** Vocabulary: exported clones *)

(** The node and all its descendants are visible. *)
Fixpoint allVisible (figmaNode : SceneNode) : bool :=
  visible figmaNode
  && match children figmaNode with
     | None => true
     | Some figmaChildren => forallb allVisible figmaChildren
     end.

Definition noLineFeed (s : string) : bool :=
  allChars (fun c => negb (Ascii.eqb c nl)) s.

(** An icon whose second path is hidden, placed away from the origin. *)
Definition hiddenPath : SceneNode :=
  mkSceneNode "VECTOR" "shadow" false (int 2) (int 2) (int 8) (int 8)
              (Some "AUTO") None None None None None
              (Some "FIXED") (Some "FIXED") (Some []) (Some [])
              None None None None "" None None [] "NONE".

Definition icon : SceneNode :=
  shape "GROUP" "icon" (int 30) (int 40) (int 16) (int 16)
        "AUTO" "FIXED" "FIXED" (Some [vector; hiddenPath]).

(** A host that draws one line of SVG per visible node of what it is
    given. *)
Fixpoint drawing (figmaNode : SceneNode) : string :=
  (if visible figmaNode then "<" ++ name figmaNode ++ "/>" ++ NL else "")
  ++ match children figmaNode with
     | None => ""
     | Some figmaChildren =>
         (fix all (l : list SceneNode) : string :=
            match l with
            | [] => ""
            | c :: rest => drawing c ++ all rest
            end) figmaChildren
     end.

Definition draws : SceneNode -> outcome string :=
  fun figmaNode => Returned (drawing figmaNode).

(* ------------------------------------------------------------------ *)
(** ** Vocabulary: the keys of a built node *)

Definition commonKeys : list string :=
  ["id"; "visible"; "position"; "left"; "top"].

Definition flexKeys : list string :=
  ["flexDirection"; "flexWrap"; "justifyContent"; "alignItems"; "gap"].

Definition sizeKeys : list string := ["width"; "height"].

Definition paintKeys : list string :=
  ["fillColor"; "backgroundColor"; "foregroundColor"; "strokeColor";
   "material"; "font"; "wordWrap"].

Definition weightKeys : list string :=
  ["strokeWeight"; "strokeLeftWeight"; "strokeTopWeight";
   "strokeRightWeight"; "strokeBottomWeight"].

Definition radiusKeys : list string :=
  ["borderRadius"; "borderTopLeftRadius"; "borderTopRightRadius";
   "borderBottomLeftRadius"; "borderBottomRightRadius"].

Definition paddingKeys : list string :=
  ["padding"; "paddingLeft"; "paddingTop"; "paddingRight"; "paddingBottom"].

(** All the keys [createNode] writes, in an order every object literal
    of [createNode] respects. *)
Definition keyOrder : list string :=
  (commonKeys ++ flexKeys ++ ["text"] ++ sizeKeys ++ paintKeys
   ++ weightKeys ++ radiusKeys ++ paddingKeys)%list.

(** [l] is [l'] with some elements left out. *)
Fixpoint isSubsequence (l l' : list string) {struct l'} : bool :=
  match l, l' with
  | [], _ => true
  | _ :: _, [] => false
  | a :: t, b :: t' =>
      if (a =? b)%string then isSubsequence t t' else isSubsequence l t'
  end.

Definition keys (node : LayoutNode) : list string := map fst (fields node).

(** The shape of a node of a built tree: a [Layta.Node] has a list of
    children, a [Layta.Image] and a [Layta.Text] have no such property;
    the node has the seven properties every call carries; no property
    occurs twice, and none is named [constructor] or [children]. *)
Definition wellFormed (node : LayoutNode) : Prop :=
  match nodeChildren node with
  | Some _ => constructor node = "Layta.Node"
  | None => constructor node = "Layta.Image" \/ constructor node = "Layta.Text"
  end
  /\ (forall k, In k (commonKeys ++ sizeKeys)%list -> field k node <> None)
  /\ NoDup (keys node)
  /\ forallb (fun kv => negb (isStructural kv)) (fields node) = true.

(* ------------------------------------------------------------------ *)
(** ** Vocabulary: the layout a parent hands down *)

(** The parent lays its children out in a row: it is a group or a
    component, or its [layoutMode] is [HORIZONTAL]. *)
Definition rowParent (parent : SceneNode) : bool :=
  (type parent =? "GROUP")%string || (type parent =? "COMPONENT")%string
  || match layoutMode parent with
     | Some mode => (mode =? "HORIZONTAL")%string
     | None => false
     end.

(** The sizing mode of a node on an axis, [FIXED] when it has none. *)
Definition horizontalMode (figmaNode : SceneNode) : string :=
  match layoutSizingHorizontal figmaNode with Some m => m | None => "FIXED" end.

Definition verticalMode (figmaNode : SceneNode) : string :=
  match layoutSizingVertical figmaNode with Some m => m | None => "FIXED" end.

Definition knownMode (mode : string) : bool :=
  existsb (String.eqb mode) ["FIXED"; "FILL"; "HUG"].

(** A column of two bars that fill it. *)
Definition column : SceneNode :=
  autoLayout "FRAME" "column" "VERTICAL" (int 0) (int 0) (int 80) (int 200)
             [rectFill; rect200x50].

(** The node [createNode] returns in a given context, for inputs on which
    it returns. *)
Definition builtWith (figmaNode : SceneNode) (pf pr ps : bool) : LayoutNode :=
  match snd (createNode exportFails figmaNode pf pr ps) with
  | Returned node => node
  | Thrown _ => mkLayoutNode "" None []
  end.


(* ================================================================== *)
(** * Part V: properties *)

(** ** Sanity checks of the embedding on concrete inputs *)

Example toString_int : Number.toString (int 200) = "200".
Proof. reflexivity. Qed.

Example toString_neg : Number.toString (int (-65536)) = "-65536".
Proof. reflexivity. Qed.

Example toString_frac :
  Number.toString (Number.mul (int 13) (Number.mkNumber 75 2)) = "9.75".
Proof. reflexivity. Qed.

Example toString_frac_int :
  Number.toString (Number.mul (int 12) (Number.mkNumber 75 2)) = "9".
Proof. reflexivity. Qed.

Example toString_small :
  Number.toString (Number.mkNumber (-5) 2) = "-0.05".
Proof. reflexivity. Qed.

Example packColor_half :
  packColor (Number.mkNumber 5 1) (int 0) (int 1) (Some (int 0)) = 8323327.
Proof. reflexivity. Qed.

Example transpile_exampleMapping :
  transpile exampleMapping 0
  = Returned ("{" ++ NL ++ "  a = 1," ++ NL ++ "  [" ++ DQ ++ "b-c" ++ DQ
              ++ "] = 2" ++ NL ++ "}").
Proof. reflexivity. Qed.

Example transpile_empty :
  transpile (VArr []) 0 = Returned "{}" /\ transpile (VObj []) 0 = Returned "{}".
Proof. split; reflexivity. Qed.

Example buildTree_leaf :
  buildTree (mkLayoutNode "Layta.Node" (Some [])
               [("id", VStr "box"); ("width", VNum (int 200));
                ("height", VNum (int 50))]) 0
  = Returned ("Layta.Node({id = " ++ DQ ++ "box" ++ DQ
              ++ ", width = 200, height = 50})").
Proof. reflexivity. Qed.

Example buildTree_nested :
  buildTree (mkLayoutNode "Layta.Node"
               (Some [mkLayoutNode "Layta.Text" None [("font", VStr "'f'")];
                      mkLayoutNode "Layta.Node" (Some []) []])
               [("visible", VBool true)]) 0
  = Returned ("Layta.Node(" ++ NL ++ "  {visible = true}," ++ NL
              ++ "  Layta.Text({font = f})," ++ NL
              ++ "  Layta.Node({})" ++ NL ++ ")").
Proof. reflexivity. Qed.

Example createNode_rect200x50 :
  createNode exportFails rect200x50 false true true
  = ([], Returned (mkLayoutNode "Layta.Node" (Some [])
       [("id", VStr "box"); ("visible", VBool true);
        ("position", VStr "absolute");
        ("left", VNum (int 10)); ("top", VNum (int 20));
        ("width", VNum (int 200)); ("height", VNum (int 50));
        ("backgroundColor", VUndefined); ("strokeColor", VUndefined)])).
Proof. reflexivity. Qed.

Example createNode_unsupported :
  createNode exportFails ellipse false true true
  = ([], Thrown "Unsupported type: ELLIPSE").
Proof. reflexivity. Qed.

(* ------------------------------------------------------------------ *)
(** ** Colour packing *)

Lemma wrap32_testbit (z n : Z) :
  0 <= n < 32 -> Z.testbit (Number.wrap32 z) n = Z.testbit z n.
Proof.
  intros Hn.
  assert (H : Number.wrap32 z mod 2 ^ 32 = z mod 2 ^ 32).
  { unfold Number.wrap32.
    rewrite Zminus_mod_idemp_l. f_equal. lia. }
  rewrite <- (Z.mod_pow2_bits_low (Number.wrap32 z) 32 n) by lia.
  rewrite H. apply Z.mod_pow2_bits_low. lia.
Qed.

Lemma channel_testbit_high (c : number) (n : Z) :
  8 <= n -> Z.testbit (channel c) n = false.
Proof.
  intros Hn. unfold channel. rewrite Z.land_spec.
  change 255 with (Z.ones 8).
  rewrite Z.ones_spec_high by lia. apply andb_false_r.
Qed.

Lemma channel_testbit_neg (c : number) (n : Z) :
  n < 0 -> Z.testbit (channel c) n = false.
Proof. intros Hn. now apply Z.testbit_neg_r. Qed.

Lemma byte_mask_low (n : Z) : 0 <= n < 8 -> Z.testbit 255 n = true.
Proof. intros Hn. change 255 with (Z.ones 8). apply Z.ones_spec_low. lia. Qed.

Lemma byte_mask_high (n : Z) : 8 <= n -> Z.testbit 255 n = false.
Proof. intros Hn. change 255 with (Z.ones 8). apply Z.ones_spec_high. lia. Qed.

(** A bit of the packed word below bit 32, in terms of the four channels. *)
Lemma packColor_testbit (r g b : number) (a : option number) (n : Z) :
  0 <= n < 32 ->
  Z.testbit (packColor r g b a) n
  = Z.testbit (channel (match a with Some a => a | None => int 1 end)) (n - 24)
    || Z.testbit (channel r) (n - 16)
    || Z.testbit (channel g) (n - 8)
    || Z.testbit (channel b) n.
Proof.
  intros Hn. unfold packColor, shl32.
  rewrite wrap32_testbit by lia.
  rewrite !Z.lor_spec, !wrap32_testbit by lia.
  rewrite !Z.shiftl_spec by lia. reflexivity.
Qed.

(** Each byte of the packed word is one channel: alpha, red, green and
    blue from the most significant byte down. *)
Lemma packColor_bytes (r g b : number) (a : option number) :
  byteAt (packColor r g b a) 24
    = channel (match a with Some a => a | None => int 1 end)
  /\ byteAt (packColor r g b a) 16 = channel r
  /\ byteAt (packColor r g b a) 8 = channel g
  /\ byteAt (packColor r g b a) 0 = channel b.
Proof.
  unfold byteAt.
  repeat split; apply Z.bits_inj'; intros n Hn;
    rewrite Z.land_spec, Z.shiftr_spec by lia;
    (destruct (Z.lt_ge_cases n 8) as [Hlt | Hge];
     [ rewrite byte_mask_low, andb_true_r by lia;
       rewrite packColor_testbit by lia;
       repeat match goal with
         | |- context [Z.testbit (channel ?c) ?k] =>
             first [ rewrite (channel_testbit_high c k) by lia
                   | rewrite (channel_testbit_neg c k) by lia ]
         end;
       rewrite ?orb_false_r, ?orb_false_l, ?Z.add_simpl_r, ?Z.add_0_r;
       reflexivity
     | rewrite byte_mask_high, andb_false_r by lia;
       symmetry; apply channel_testbit_high; lia ]).
Qed.

(** C5, as the specification states it, fails: the packed value of opaque
    red is not the unsigned number 4294901760. *)
Lemma packColor_opaque_red_is_not_unsigned :
  packColor (int 1) (int 0) (int 0) (Some (int 1)) <> 4294901760.
Proof. vm_compute. discriminate. Qed.

(** C5 (amended): [packColor(1, 0, 0, 1)] is the signed 32-bit integer
    -65536, whose bit pattern read as unsigned is 0xFFFF0000 = 4294901760;
    and for every input the bytes of the result are alpha, red, green and
    blue from the most significant byte down. *)
Theorem packColor_opaque_red :
  packColor (int 1) (int 0) (int 0) (Some (int 1)) = -65536
  /\ unsigned32 (packColor (int 1) (int 0) (int 0) (Some (int 1))) = 4294901760
  /\ forall (r g b a : number),
       byteAt (packColor r g b (Some a)) 24 = channel a
       /\ byteAt (packColor r g b (Some a)) 16 = channel r
       /\ byteAt (packColor r g b (Some a)) 8 = channel g
       /\ byteAt (packColor r g b (Some a)) 0 = channel b.
Proof.
  split; [reflexivity | split; [reflexivity |]].
  intros r g b a. apply (packColor_bytes r g b (Some a)).
Qed.

(* ------------------------------------------------------------------ *)
(** ** Keys of a serialized mapping *)

(** The key test accepts exactly the words over [a], [A], [Z] (and, after
    the first character, [0] and [9]). *)
Lemma isBareKey_examples :
  isBareKey "a" = true /\ isBareKey "b-c" = false
  /\ isBareKey "AZ09" = true /\ isBareKey "width" = false
  /\ isBareKey "b" = false.
Proof. repeat split. Qed.

(** In a one-entry mapping the key is written bare exactly when the key
    test of the source accepts it. *)
Lemma serialize_key (k : string) (level : nat) :
  serialize (VObj [(k, VBool true)]) level
  = Returned (block level
      [((if isBareKey k then k else "[" ++ DQ ++ k ++ DQ ++ "]") ++ " = true")]).
Proof. reflexivity. Qed.

(** C6: the key [width], an ordinary alphabetic identifier, is not written
    bare: the key test of line 113 rejects it and the mapping [{width: 1}]
    is serialized with a bracketed, quoted key. *)
Theorem width_key_is_bracketed :
  isBareKey "width" = false
  /\ transpile (VObj [("width", VNum (int 1))]) 0
     = Returned ("{" ++ NL ++ "  [" ++ DQ ++ "width" ++ DQ ++ "] = 1"
                 ++ NL ++ "}").
Proof. split; reflexivity. Qed.

(* ------------------------------------------------------------------ *)
(** ** Four-sided style groups *)

Lemma eqb_refl_true (a : number) : Number.eqb a a = true.
Proof. unfold Number.eqb. apply Z.eqb_refl. Qed.

Lemma pow10_pos (e : nat) : 0 < Number.pow10 e.
Proof. unfold Number.pow10. apply Z.pow_pos_nonneg; lia. Qed.

Lemma isZero_not_positive (v : number) : isZero v -> Number.gtb v (int 0) = false.
Proof.
  unfold isZero, Number.eqb, Number.gtb. cbn. intros H.
  apply Z.eqb_eq in H. apply Z.ltb_ge.
  pose proof (pow10_pos (Number.scale v)). nia.
Qed.

Lemma setIfPositive_filter (k : string) (v : number) :
  setIfPositive k v = positiveSides [(k, v)].
Proof. unfold setIfPositive, positiveSides. cbn. now destruct Number.gtb. Qed.

(** The shape all three extractors share, with the property proved once. *)
Lemma collapsed_intro (shorthand k1 k2 k3 k4 : string) (a b c d : number) :
  ~ In shorthand [k1; k2; k3; k4] ->
  collapsed shorthand k1 k2 k3 k4 a b c d
    (if Number.eqb a b && Number.eqb b c && Number.eqb c d
        && Number.gtb a (int 0)
     then [(shorthand, a)]
     else (setIfPositive k1 a ++ setIfPositive k2 b
           ++ setIfPositive k3 c ++ setIfPositive k4 d)%list).
Proof.
  intros Hfresh.
  assert (Hsides : (setIfPositive k1 a ++ setIfPositive k2 b
                    ++ setIfPositive k3 c ++ setIfPositive k4 d)%list
                   = positiveSides [(k1, a); (k2, b); (k3, c); (k4, d)]).
  { rewrite !setIfPositive_filter. unfold positiveSides.
    rewrite <- !filter_app. reflexivity. }
  assert (Hpos : forall k v,
             In (k, v) (positiveSides [(k1, a); (k2, b); (k3, c); (k4, d)]) ->
             isPositive v /\ In k [k1; k2; k3; k4]).
  { intros k v Hin. apply filter_In in Hin. destruct Hin as [Hin Hv].
    split; [exact Hv |].
    cbn in Hin. cbn.
    repeat destruct Hin as [Hin | Hin]; try inversion Hin; subst; tauto. }
  rewrite Hsides. unfold collapsed, allSame, isPositive.
  destruct (Number.eqb a b && Number.eqb b c && Number.eqb c d
            && Number.gtb a (int 0)) eqn:Hcond.
  - apply andb_prop in Hcond. destruct Hcond as [Hcond Ha].
    apply andb_prop in Hcond. destruct Hcond as [Hcond Hcd].
    apply andb_prop in Hcond. destruct Hcond as [Hab Hbc].
    split; [| split; [| split]].
    + reflexivity.
    + intros Hdiff. exfalso. apply Hdiff. auto.
    + intros Za. apply isZero_not_positive in Za. congruence.
    + intros k v [Hin | []]. inversion Hin. subst. exact Ha.
  - split; [| split; [| split]].
    + intros [Hab [Hbc Hcd]] Ha.
      rewrite Hab, Hbc, Hcd, Ha in Hcond. discriminate Hcond.
    + intros _. split; [reflexivity |].
      intros Hin. apply in_map_iff in Hin.
      destruct Hin as [[k v] [Hk Hin]]. cbn in Hk. subst k.
      apply Hpos in Hin. tauto.
    + intros Za Zb Zc Zd. unfold positiveSides. cbn.
      rewrite (isZero_not_positive _ Za), (isZero_not_positive _ Zb),
        (isZero_not_positive _ Zc), (isZero_not_positive _ Zd).
      reflexivity.
    + intros k v Hin. apply Hpos in Hin. tauto.
Qed.

(** C3: every four-sided style group (corner radii, stroke weights,
    paddings) collapses to its shorthand key alone when the four values
    are equal and strictly positive, lists exactly the strictly positive
    sides and never the shorthand when the values differ, is empty when
    all four are zero, and never holds a value that is not strictly
    positive. *)
Theorem style_groups_collapse (figmaNode : SceneNode) :
  (forall tl tr bl br,
      cornerRadii figmaNode = Some (mkCornerRadii tl tr bl br) ->
      collapsed "borderRadius" "borderTopLeftRadius" "borderTopRightRadius"
                "borderBottomLeftRadius" "borderBottomRightRadius"
                tl tr bl br (getBorderRadiusProps figmaNode))
  /\ (forall l t r b,
         strokeWeights figmaNode = Some (mkStrokeWeights l t r b) ->
         collapsed "strokeWeight" "strokeLeftWeight" "strokeTopWeight"
                   "strokeRightWeight" "strokeBottomWeight"
                   l t r b (getStrokeWeightProps figmaNode))
  /\ (forall l t r b,
         paddings figmaNode = Some (mkPaddings l t r b) ->
         collapsed "padding" "paddingLeft" "paddingTop"
                   "paddingRight" "paddingBottom"
                   l t r b (getPaddingProps figmaNode)).
Proof.
  split; [| split]; intros ? ? ? ? Hsome;
    [ unfold getBorderRadiusProps | unfold getStrokeWeightProps
    | unfold getPaddingProps ];
    rewrite Hsome; apply collapsed_intro;
    cbn; intros H; repeat destruct H as [H | H]; try discriminate H; exact H.
Qed.

(** The theorem at a frame with radii 6/6/6/6, stroke weights 1/0/2/0 and
    paddings 0/0/0/0. *)
Lemma style_groups_collapse_witness :
  getBorderRadiusProps sampleBox = [("borderRadius", int 6)]
  /\ getStrokeWeightProps sampleBox
     = [("strokeLeftWeight", int 1); ("strokeRightWeight", int 2)]
  /\ getPaddingProps sampleBox = [].
Proof.
  destruct (style_groups_collapse sampleBox) as [Hr [Hw Hp]].
  split; [| split].
  - apply (Hr _ _ _ _ eq_refl); [repeat split | reflexivity].
  - apply (Hw _ _ _ _ eq_refl). intros [H _]. discriminate H.
  - apply (Hp _ _ _ _ eq_refl); reflexivity.
Defined.

(* ------------------------------------------------------------------ *)
(** ** The defining equation of [createNode] *)

Section BuilderFacts.

Variable exportAsync : SceneNode -> outcome string.

Lemma createNode_unfold (figmaNode : SceneNode) (pf pr ps : bool) :
  createNode exportAsync figmaNode pf pr ps
  = if isVectorGroup figmaNode then
      match safelyExport exportAsync figmaNode with
      | Thrown e => ([], Thrown e)
      | Returned svg =>
          ([], Returned (mkLayoutNode "Layta.Image" None
                           (imageFields figmaNode pf pr ps svg)))
      end
    else if (type figmaNode =? "FRAME")%string then
      container (createNode exportAsync) figmaNode true
                (valueIs (flexDirectionOf figmaNode) "row")
                (frameFields figmaNode pf pr ps)
    else if (type figmaNode =? "GROUP")%string
            || (type figmaNode =? "COMPONENT")%string then
      container (createNode exportAsync) figmaNode false true
                (groupFields figmaNode pf pr ps)
    else if (type figmaNode =? "INSTANCE")%string then
      container (createNode exportAsync) figmaNode false
                (valueIs (flexDirectionOf figmaNode) "row")
                (instanceFields figmaNode pf pr ps)
    else if (type figmaNode =? "RECTANGLE")%string then
      ([], Returned (mkLayoutNode "Layta.Node" (Some [])
                       (rectangleFields figmaNode pf pr ps)))
    else if (type figmaNode =? "TEXT")%string then
      match getTextFont figmaNode with
      | Thrown e => ([], Thrown e)
      | Returned (fontName, fontSize) =>
          ([], Returned (mkLayoutNode "Layta.Text" None
                           (textFields figmaNode pf pr ps fontName fontSize)))
      end
    else ([], Thrown ("Unsupported type: " ++ type figmaNode)).
Proof. destruct figmaNode; reflexivity. Qed.

(** The loop keeps the conversions that returned, in order, and logs the
    errors of those that threw. *)
Lemma convertChildren_spec (convert : SceneNode -> built)
      (figmaChildren : list SceneNode) :
  convertChildren convert figmaChildren
  = (diagnostics (map convert figmaChildren),
     survivors (map convert figmaChildren)).
Proof.
  induction figmaChildren as [| c rest IH]; [reflexivity |].
  cbn [convertChildren map]. fold (convertChildren convert).
  rewrite IH. unfold diagnostics, survivors. cbn [flat_map].
  destruct (convert c) as [log1 [child | e]]; cbn [fst snd].
  - rewrite app_nil_r. reflexivity.
  - rewrite <- app_assoc. reflexivity.
Qed.

Lemma container_spec (figmaNode : SceneNode) (inFrame mainAxisRow : bool)
      (fields : list (string * value)) (figmaChildren : list SceneNode) :
  children figmaNode = Some figmaChildren ->
  container (createNode exportAsync) figmaNode inFrame mainAxisRow fields
  = let results :=
        map (fun c => createNode exportAsync c inFrame mainAxisRow true)
            figmaChildren in
    (diagnostics results,
     Returned (mkLayoutNode "Layta.Node" (Some (survivors results)) fields)).
Proof.
  intros Hkids. unfold container. rewrite Hkids.
  rewrite convertChildren_spec. reflexivity.
Qed.

End BuilderFacts.

(* ------------------------------------------------------------------ *)
(** ** Fields of a built node *)

Lemma createNode_fields (exportAsync : SceneNode -> outcome string)
      (figmaNode : SceneNode) (pf pr ps : bool)
      (log : list string) (node : LayoutNode) :
  createNode exportAsync figmaNode pf pr ps = (log, Returned node) ->
  field "position" node = Some (VStr (positionOf figmaNode pf))
  /\ field "left" node = Some (leftOf figmaNode pf)
  /\ field "top" node = Some (topOf figmaNode pf)
  /\ field "width" node = Some (widthOf figmaNode pr ps)
  /\ field "height" node = Some (heightOf figmaNode pr ps).
Proof.
  rewrite createNode_unfold. unfold container.
  destruct (isVectorGroup figmaNode).
  { destruct (safelyExport exportAsync figmaNode); intros [= <- <-].
    repeat split. }
  destruct (type figmaNode =? "FRAME")%string.
  { destruct (children figmaNode); [| discriminate].
    destruct (convertChildren _ _). intros [= <- <-]. repeat split. }
  destruct ((type figmaNode =? "GROUP")%string
            || (type figmaNode =? "COMPONENT")%string).
  { destruct (children figmaNode); [| discriminate].
    destruct (convertChildren _ _). intros [= <- <-]. repeat split. }
  destruct (type figmaNode =? "INSTANCE")%string.
  { destruct (children figmaNode); [| discriminate].
    destruct (convertChildren _ _). intros [= <- <-]. repeat split. }
  destruct (type figmaNode =? "RECTANGLE")%string.
  { intros [= <- <-]. repeat split. }
  destruct (type figmaNode =? "TEXT")%string; [| discriminate].
  destruct (getTextFont figmaNode) as [[fontName fontSize] | e];
    intros [= <- <-]. repeat split.
Qed.

(* ------------------------------------------------------------------ *)
(** ** Sizing *)

(** With sizing mode [FIXED] (or none), the chain of line 170 yields the
    measured width when that number is truthy, and [false] otherwise. *)
Lemma widthOf_fixed (figmaNode : SceneNode) (pr ps : bool) :
  layoutSizingHorizontal figmaNode = Some "FIXED"
  \/ layoutSizingHorizontal figmaNode = None ->
  widthOf figmaNode pr ps
  = if Number.truthy (width figmaNode)
    then VNum (width figmaNode) else VBool false.
Proof.
  unfold widthOf. intros [-> | ->];
    unfold jsOr, jsAnd, strIs; cbn;
    destruct (Number.truthy (width figmaNode)) eqn:E; cbn; rewrite ?E;
    reflexivity.
Qed.

Lemma heightOf_fixed (figmaNode : SceneNode) (pr ps : bool) :
  layoutSizingVertical figmaNode = Some "FIXED"
  \/ layoutSizingVertical figmaNode = None ->
  heightOf figmaNode pr ps
  = if Number.truthy (height figmaNode)
    then VNum (height figmaNode) else VBool false.
Proof.
  unfold heightOf. intros [-> | ->];
    unfold jsOr, jsAnd, strIs; cbn;
    destruct (Number.truthy (height figmaNode)) eqn:E; cbn; rewrite ?E;
    reflexivity.
Qed.

(** C1: a rectangle with fixed sizing on both axes, measured width 0 and
    measured height 50 is built with [width = false]: the fixed length 0
    is not emitted as a concrete value (only the non-zero height is).
    The same happens to a group around a vertical stroke, whose bounding
    box has width 0. *)
Theorem fixed_zero_width_is_not_emitted
        (exportAsync : SceneNode -> outcome string) :
  (layoutSizingHorizontal rectZeroWidth = Some "FIXED"
   /\ width rectZeroWidth = int 0
   /\ exists node,
        createNode exportAsync rectZeroWidth false true true
        = ([], Returned node)
        /\ field "width" node = Some (VBool false)
        /\ field "height" node = Some (VNum (int 50))
        /\ buildTree node 0
           = Returned ("Layta.Node({id = " ++ DQ ++ "line" ++ DQ
                       ++ ", visible = true, position = " ++ DQ ++ "absolute"
                       ++ DQ ++ ", left = 10, top = 20, width = false, "
                       ++ "height = 50, backgroundColor = nil, "
                       ++ "strokeColor = nil})"))
  /\ (layoutSizingHorizontal ruleGroup = Some "FIXED"
      /\ width ruleGroup = int 0
      /\ exists node,
           createNode (exportsAs "<svg/>") ruleGroup false true true
           = ([], Returned node)
           /\ constructor node = "Layta.Image"
           /\ field "width" node = Some (VBool false)
           /\ field "height" node = Some (VNum (int 8))).
Proof.
  split; (split; [reflexivity | split; [reflexivity |]]);
    eexists; (split; [reflexivity |]); repeat split.
Qed.

(** C4: a node with sizing mode [FILL] on an axis gets the marker "auto"
    on that axis when the axis is the cross axis of its parent (the width
    under a parent whose main axis is not the row, the height under a
    parent whose main axis is the row) and the parent stretches its items,
    and the marker "100%" in every other case. *)
Theorem fill_sizing_markers (exportAsync : SceneNode -> outcome string)
        (figmaNode : SceneNode)
        (parentIsFrame parentIsMainAxisRow parentStretchItems : bool)
        (log : list string) (node : LayoutNode) :
  createNode exportAsync figmaNode parentIsFrame parentIsMainAxisRow
             parentStretchItems = (log, Returned node) ->
  (layoutSizingHorizontal figmaNode = Some "FILL" ->
   field "width" node
   = Some (VStr (if negb parentIsMainAxisRow && parentStretchItems
                 then "auto" else "100%")))
  /\ (layoutSizingVertical figmaNode = Some "FILL" ->
      field "height" node
      = Some (VStr (if parentIsMainAxisRow && parentStretchItems
                    then "auto" else "100%"))).
Proof.
  intros Hbuilt.
  destruct (createNode_fields _ _ _ _ _ _ _ Hbuilt) as (_ & _ & _ & Hw & Hh).
  split; intros Hfill.
  - rewrite Hw. unfold widthOf. rewrite Hfill.
    destruct parentIsMainAxisRow, parentStretchItems; reflexivity.
  - rewrite Hh. unfold heightOf. rewrite Hfill.
    destruct parentIsMainAxisRow, parentStretchItems; reflexivity.
Qed.

(** The theorem at a rectangle that fills both axes, under a stretching
    row parent: the width (main axis) is "100%", the height (cross axis)
    is "auto". *)
Lemma fill_sizing_markers_witness :
  exists node,
    createNode exportFails rectFill true true true = ([], Returned node)
    /\ field "width" node = Some (VStr "100%")
    /\ field "height" node = Some (VStr "auto").
Proof.
  eexists. split; [reflexivity |].
  split.
  - apply (proj1 (fill_sizing_markers exportFails rectFill true true true
                    [] _ eq_refl) eq_refl).
  - apply (proj2 (fill_sizing_markers exportFails rectFill true true true
                    [] _ eq_refl) eq_refl).
Defined.

(* ------------------------------------------------------------------ *)
(** ** Containers and their children *)

Lemma isContainerType_cases (ty : string) :
  isContainerType ty = true ->
  ty = "FRAME" \/ ty = "GROUP" \/ ty = "COMPONENT" \/ ty = "INSTANCE".
Proof.
  unfold isContainerType. cbn [existsb]. rewrite orb_false_r.
  intros H. repeat (apply orb_prop in H; destruct H as [H | H]);
    apply String.eqb_eq in H; auto.
Qed.

(** A node of a container kind that is not a vector group is built as a
    [Layta.Node] whose children are the conversions that returned, made
    in the context the node hands down. *)
Lemma createNode_container (exportAsync : SceneNode -> outcome string)
      (figmaNode : SceneNode) (pf pr ps : bool)
      (figmaChildren : list SceneNode) :
  isContainerType (type figmaNode) = true ->
  isVectorGroup figmaNode = false ->
  children figmaNode = Some figmaChildren ->
  let results :=
      map (fun c => createNode exportAsync c (childIsInFrame figmaNode)
                               (childMainAxisRow figmaNode) true)
          figmaChildren in
  exists fields,
    createNode exportAsync figmaNode pf pr ps
    = (diagnostics results,
       Returned (mkLayoutNode "Layta.Node" (Some (survivors results)) fields)).
Proof.
  intros Hty Hvec Hkids results. subst results.
  rewrite createNode_unfold, Hvec.
  unfold childIsInFrame, childMainAxisRow.
  apply isContainerType_cases in Hty.
  destruct Hty as [Hty | [Hty | [Hty | Hty]]]; rewrite Hty; cbn [String.eqb Ascii.eqb Bool.eqb orb];
    eexists; rewrite (container_spec _ _ _ _ _ _ Hkids); reflexivity.
Qed.

(** C7: when a container is converted, a child whose conversion throws
    does not abort the parent: the parent returns, its children are
    exactly the conversions that returned, in source order, and the
    errors of the others (after whatever those conversions logged) go to
    the log and nowhere else. *)
Theorem failed_children_are_dropped
        (exportAsync : SceneNode -> outcome string)
        (figmaNode : SceneNode)
        (parentIsFrame parentIsMainAxisRow parentStretchItems : bool)
        (figmaChildren : list SceneNode) :
  isContainerType (type figmaNode) = true ->
  isVectorGroup figmaNode = false ->
  children figmaNode = Some figmaChildren ->
  let results :=
      map (fun c => createNode exportAsync c (childIsInFrame figmaNode)
                               (childMainAxisRow figmaNode) true)
          figmaChildren in
  exists node,
    createNode exportAsync figmaNode parentIsFrame parentIsMainAxisRow
               parentStretchItems
    = (diagnostics results, Returned node)
    /\ constructor node = "Layta.Node"
    /\ nodeChildren node = Some (survivors results).
Proof.
  intros Hty Hvec Hkids results.
  destruct (createNode_container exportAsync figmaNode parentIsFrame
              parentIsMainAxisRow parentStretchItems figmaChildren
              Hty Hvec Hkids) as [fields Hbuilt].
  eexists. split; [exact Hbuilt |]. split; reflexivity.
Qed.

(** The theorem at a frame whose second child is an ellipse: the first and
    the third child are kept, the error is logged. *)
Lemma failed_children_are_dropped_witness :
  exists node first third,
    createNode exportFails frameWithEllipse false true true
    = (["Unsupported type: ELLIPSE"], Returned node)
    /\ nodeChildren node = Some [first; third]
    /\ createNode exportFails rect200x50 true true true = ([], Returned first)
    /\ createNode exportFails rectFill true true true = ([], Returned third).
Proof.
  destruct (failed_children_are_dropped exportFails frameWithEllipse
              false true true _ eq_refl eq_refl eq_refl)
    as [node [Hbuilt [_ Hkids]]].
  exists node. do 2 eexists.
  split; [exact Hbuilt |]. split; [exact Hkids |]. split; reflexivity.
Defined.

(* ------------------------------------------------------------------ *)
(** ** Vector groups *)

Lemma createNode_vector_group (exportAsync : SceneNode -> outcome string)
      (figmaNode : SceneNode) (pf pr ps : bool) :
  isVectorGroup figmaNode = true ->
  (forall svg,
      safelyExport exportAsync figmaNode = Returned svg ->
      createNode exportAsync figmaNode pf pr ps
      = ([], Returned (mkLayoutNode "Layta.Image" None
                         (imageFields figmaNode pf pr ps svg))))
  /\ (forall e,
         safelyExport exportAsync figmaNode = Thrown e ->
         createNode exportAsync figmaNode pf pr ps = ([], Thrown e))
  /\ (forall log node,
         createNode exportAsync figmaNode pf pr ps = (log, Returned node) ->
         constructor node = "Layta.Image"
         /\ nodeChildren node = None
         /\ exists svg,
              safelyExport exportAsync figmaNode = Returned svg
              /\ field "material" node = Some (VStr (materialOf figmaNode svg))).
Proof.
  intros Hvec. rewrite createNode_unfold, Hvec.
  split; [| split].
  - intros svg ->. reflexivity.
  - intros e ->. reflexivity.
  - intros log node.
    destruct (safelyExport exportAsync figmaNode) as [svg | e];
      intros [= <- <-].
    repeat split. exists svg. split; reflexivity.
Qed.

(** C8: a node of kind Frame, Group, Component or Instance all of whose
    children are vectors is built as a [Layta.Image] leaf without a
    children sequence, carrying the rasterized payload in [material]; it
    is never built as a container (when rasterization fails, nothing is
    built). *)
Theorem vector_only_container_is_image
        (exportAsync : SceneNode -> outcome string)
        (figmaNode : SceneNode)
        (parentIsFrame parentIsMainAxisRow parentStretchItems : bool)
        (figmaChildren : list SceneNode) :
  isContainerType (type figmaNode) = true ->
  children figmaNode = Some figmaChildren ->
  Forall (fun child => type child = "VECTOR") figmaChildren ->
  (forall svg,
      safelyExport exportAsync figmaNode = Returned svg ->
      exists node,
        createNode exportAsync figmaNode parentIsFrame parentIsMainAxisRow
                   parentStretchItems = ([], Returned node)
        /\ constructor node = "Layta.Image"
        /\ nodeChildren node = None
        /\ field "material" node = Some (VStr (materialOf figmaNode svg)))
  /\ (forall log node,
         createNode exportAsync figmaNode parentIsFrame parentIsMainAxisRow
                    parentStretchItems = (log, Returned node) ->
         constructor node = "Layta.Image" /\ nodeChildren node = None).
Proof.
  intros Hty Hkids Hvec.
  assert (Hgroup : isVectorGroup figmaNode = true).
  { unfold isVectorGroup. rewrite Hty, Hkids. cbn [andb].
    apply forallb_forall. intros child Hin.
    rewrite Forall_forall in Hvec. apply String.eqb_eq. now apply Hvec. }
  destruct (createNode_vector_group exportAsync figmaNode parentIsFrame
              parentIsMainAxisRow parentStretchItems Hgroup)
    as [Hok [_ Hany]].
  split.
  - intros svg Hsvg. eexists. split; [apply (Hok svg Hsvg) |].
    repeat split.
  - intros log node Hbuilt.
    destruct (Hany log node Hbuilt) as [Hc [Hk _]]. now split.
Qed.

(** The theorem at a group of two vectors, with a host that answers
    [<svg/>]. *)
Lemma vector_only_container_is_image_witness :
  exists node,
    createNode (exportsAs "<svg/>") iconGroup false true true
    = ([], Returned node)
    /\ constructor node = "Layta.Image"
    /\ nodeChildren node = None
    /\ field "material" node
       = Some (VStr "Layta.svgCreate(16, 16, '<svg/>')").
Proof.
  refine (proj1 (vector_only_container_is_image (exportsAs "<svg/>") iconGroup
                   false true true [vector; vector] eq_refl eq_refl _)
                "<svg/>" eq_refl).
  repeat constructor.
Defined.

(** C10: a node of kind Frame, Group, Component or Instance with an empty
    children sequence passes the every-child-is-a-vector test vacuously
    and is built as a [Layta.Image] leaf, not as an empty container. *)
Theorem empty_container_is_image
        (exportAsync : SceneNode -> outcome string)
        (figmaNode : SceneNode)
        (parentIsFrame parentIsMainAxisRow parentStretchItems : bool) :
  isContainerType (type figmaNode) = true ->
  children figmaNode = Some [] ->
  isVectorGroup figmaNode = true
  /\ (forall svg,
         safelyExport exportAsync figmaNode = Returned svg ->
         exists node,
           createNode exportAsync figmaNode parentIsFrame parentIsMainAxisRow
                      parentStretchItems = ([], Returned node)
           /\ constructor node = "Layta.Image"
           /\ nodeChildren node = None
           /\ field "material" node = Some (VStr (materialOf figmaNode svg)))
  /\ (forall log node,
         createNode exportAsync figmaNode parentIsFrame parentIsMainAxisRow
                    parentStretchItems = (log, Returned node) ->
         constructor node = "Layta.Image" /\ nodeChildren node = None).
Proof.
  intros Hty Hkids.
  assert (Hgroup : isVectorGroup figmaNode = true).
  { unfold isVectorGroup. rewrite Hty, Hkids. reflexivity. }
  destruct (createNode_vector_group exportAsync figmaNode parentIsFrame
              parentIsMainAxisRow parentStretchItems Hgroup)
    as [Hok [_ Hany]].
  split; [exact Hgroup | split].
  - intros svg Hsvg. eexists. split; [apply (Hok svg Hsvg) |].
    repeat split.
  - intros log node Hbuilt.
    destruct (Hany log node Hbuilt) as [Hc [Hk _]]. now split.
Qed.

(** The theorem at an auto-layout frame without children. *)
Lemma empty_container_is_image_witness :
  exists node,
    createNode (exportsAs "<svg/>") emptyFrame false true true
    = ([], Returned node)
    /\ constructor node = "Layta.Image"
    /\ nodeChildren node = None
    /\ field "material" node
       = Some (VStr "Layta.svgCreate(10, 10, '<svg/>')").
Proof.
  apply (proj1 (proj2 (empty_container_is_image (exportsAs "<svg/>") emptyFrame
                         false true true eq_refl eq_refl))
               "<svg/>" eq_refl).
Defined.

(* ------------------------------------------------------------------ *)
(** ** Positioning *)

Lemma positionOf_cases (figmaNode : SceneNode) (pf : bool) :
  positionOf figmaNode pf
  = if negb pf || explicitlyAbsolute figmaNode then "absolute" else "relative".
Proof.
  unfold positionOf, explicitlyAbsolute.
  destruct (layoutPositioning figmaNode); [reflexivity |].
  cbn. now rewrite orb_false_r.
Qed.




(* ------------------------------------------------------------------ *)
(** ** Reading the emitted text back *)

(** Two scenes, one group with a single label and one group with two,
    are built into trees without absent fields and emitted as the same
    text. *)
Lemma same_text_different_trees :
  createNode exportFails oneLabel false true true
  = ([], Returned (treeOf oneLabel))
  /\ createNode exportFails twoLabels false true true
     = ([], Returned (treeOf twoLabels))
  /\ allPresent (treeOf oneLabel) = true
  /\ allPresent (treeOf twoLabels) = true
  /\ (exists text,
         buildTree (treeOf oneLabel) 0 = Returned text
         /\ buildTree (treeOf twoLabels) 0 = Returned text)
  /\ (exists tag args kid, callTreeOf (treeOf oneLabel) = Call tag args [kid])
  /\ (exists tag args kid1 kid2,
         callTreeOf (treeOf twoLabels) = Call tag args [kid1; kid2]).
Proof.
  split; [reflexivity |]. split; [reflexivity |].
  split; [reflexivity |]. split; [reflexivity |].
  split; [eexists; split; reflexivity |].
  split; [do 3 eexists; reflexivity | do 4 eexists; reflexivity].
Qed.


Example parse_paintedGroup :
  exists text,
    buildTree (treeOf paintedGroup) 0 = Returned text
    /\ text = render (callTreeOf (treeOf paintedGroup)) 0
    /\ plainCall (callTreeOf (treeOf paintedGroup)) = true
    /\ parse text = Some (callTreeOf (treeOf paintedGroup)).
Proof. eexists. repeat split; vm_compute; reflexivity. Qed.

(** *** Strings *)

Lemma append_assoc (a b c : string) : (a ++ b) ++ c = a ++ b ++ c.
Proof. induction a as [| x a IH]; cbn; [reflexivity | now rewrite IH]. Qed.

Lemma append_nil_r (a : string) : a ++ "" = a.
Proof. induction a as [| x a IH]; cbn; [reflexivity | now rewrite IH]. Qed.

Lemma length_append (a b : string) :
  String.length (a ++ b) = (String.length a + String.length b)%nat.
Proof. induction a as [| x a IH]; cbn; [reflexivity | now rewrite IH]. Qed.

Lemma allChars_append (p : ascii -> bool) (a b : string) :
  allChars p (a ++ b) = allChars p a && allChars p b.
Proof.
  induction a as [| x a IH]; cbn; [reflexivity |].
  rewrite IH. now rewrite andb_assoc.
Qed.

(** *** Tokens *)

Lemma span_append (p : ascii -> bool) (word rest : string) :
  allChars p word = true -> stopsAt p rest ->
  span p (word ++ rest) = (word, rest).
Proof.
  intros Hword Hrest. induction word as [| c word IH]; cbn.
  - destruct rest as [| c rest]; cbn in *; [reflexivity |].
    now rewrite Hrest.
  - cbn in Hword. apply andb_prop in Hword. destruct Hword as [Hc Hword].
    rewrite Hc, (IH Hword). reflexivity.
Qed.

Lemma skipBlank_stop (s : string) : stopsAt isBlank s -> skipBlank s = s.
Proof. destruct s as [| c s]; cbn; [reflexivity |]. now intros ->. Qed.

Lemma skipBlank_indent (level : nat) (s : string) :
  skipBlank (indent level ++ s) = skipBlank s.
Proof.
  unfold indent. induction level as [| level IH]; [reflexivity |].
  cbn [repeatString]. rewrite append_assoc. cbn. exact IH.
Qed.

Lemma escapeQuotes_head (s tail : string) :
  s <> "" ->
  exists c rest, escapeQuotes s ++ tail = String c rest /\ Ascii.eqb c dq = false.
Proof.
  destruct s as [| c s]; [congruence |]. intros _.
  unfold escapeQuotes. cbn [replaceAll].
  destruct (Ascii.eqb c dq) eqn:Hq; rewrite append_assoc; cbn [append];
    do 2 eexists; split; try reflexivity; exact Hq.
Qed.

Lemma endsWith_tail (c a : ascii) (s : string) :
  endsWith c (String a s) = false -> endsWith c s = false.
Proof. destruct s; [reflexivity | intros H; exact H]. Qed.

Lemma parseString_escape (s rest : string) :
  endsWith "\" s = false ->
  parseString (escapeQuotes s ++ DQ ++ rest) = Some (s, rest).
Proof.
  induction s as [| c s IH]; intros Hs.
  - cbn. reflexivity.
  - specialize (IH (endsWith_tail _ _ _ Hs)).
    unfold escapeQuotes in *. cbn [replaceAll].
    destruct (Ascii.eqb c dq) eqn:Hq.
    + apply Ascii.eqb_eq in Hq. subst c.
      rewrite append_assoc. cbn in IH |- *. rewrite IH. reflexivity.
    + rewrite append_assoc. cbn [append parseString]. rewrite Hq.
      destruct (Ascii.eqb c "\") eqn:Hb; [| now rewrite IH].
      destruct s as [| c' s].
      { apply Ascii.eqb_eq in Hb. subst c. discriminate Hs. }
      destruct (escapeQuotes_head (String c' s) (DQ ++ rest))
        as (x & tail & Htext & Hx); [discriminate |].
      unfold escapeQuotes in Htext. rewrite Htext in *.
      rewrite Hx, IH. reflexivity.
Qed.

(** *** Number literals *)

Lemma pow10_S (e : nat) : Number.pow10 (S e) = 10 * Number.pow10 e.
Proof.
  unfold Number.pow10. rewrite Nat2Z.inj_succ, Z.pow_succ_r; lia.
Qed.

Lemma digit_cases (d : Z) :
  0 <= d < 10 ->
  isDigit (Number.digit d) = true
  /\ Z.of_nat (nat_of_ascii (Number.digit d)) - 48 = d.
Proof.
  intros Hd.
  assert (H : d = 0 \/ d = 1 \/ d = 2 \/ d = 3 \/ d = 4 \/ d = 5 \/ d = 6
              \/ d = 7 \/ d = 8 \/ d = 9) by lia.
  repeat (destruct H as [-> | H]; [split; reflexivity |]).
  subst d. split; reflexivity.
Qed.

Lemma digits_isDigit (k : nat) :
  forall n, allChars isDigit (Number.digits k n) = true.
Proof.
  induction k as [| k IH]; intros n; [reflexivity |].
  cbn [Number.digits]. rewrite allChars_append, IH. cbn [allChars andb].
  rewrite (proj1 (digit_cases (n mod 10) (Z.mod_pos_bound n 10 eq_refl))).
  reflexivity.
Qed.

Lemma length_digits (k : nat) :
  forall n, String.length (Number.digits k n) = k.
Proof.
  induction k as [| k IH]; intros n; [reflexivity |].
  cbn [Number.digits]. rewrite length_append, IH. cbn. lia.
Qed.

Lemma readDigits_append (a b : string) :
  forall acc,
    readDigits acc (a ++ b)
    = match readDigits acc a with
      | Some acc' => readDigits acc' b
      | None => None
      end.
Proof.
  induction a as [| c a IH]; intros acc; cbn; [reflexivity |].
  destruct (isDigit c); [apply IH | reflexivity].
Qed.

Lemma readDigits_digits (k : nat) :
  forall n acc,
    0 <= n < Number.pow10 k ->
    readDigits acc (Number.digits k n) = Some (acc * Number.pow10 k + n).
Proof.
  induction k as [| k IH]; intros n acc Hn.
  - cbn in *. f_equal. lia.
  - rewrite pow10_S in *. cbn [Number.digits].
    pose proof (pow10_pos k) as Hpos.
    pose proof (Z.mod_pos_bound n 10 eq_refl) as Hmod.
    pose proof (Z.div_mod n 10 ltac:(lia)) as Hdiv.
    rewrite readDigits_append, IH by (split; [apply Z.div_pos; lia |
      apply Z.div_lt_upper_bound; lia]).
    cbn [readDigits].
    destruct (digit_cases (n mod 10) Hmod) as [-> ->].
    f_equal. lia.
Qed.

Lemma allChars_impl (p q : ascii -> bool) (s : string) :
  (forall c, p c = true -> q c = true) ->
  allChars p s = true -> allChars q s = true.
Proof.
  intros Hpq. induction s as [| c s IH]; cbn; [reflexivity |].
  intros H. apply andb_prop in H. destruct H as [Hc Hs].
  now rewrite (Hpq c Hc), (IH Hs).
Qed.

Lemma isDigit_isNumChar (c : ascii) : isDigit c = true -> isNumChar c = true.
Proof. unfold isNumChar. now intros ->. Qed.

Lemma digits_uint (d : Decimal.uint) :
  allChars isDigit (NilEmpty.string_of_uint d) = true.
Proof. induction d; cbn; auto. Qed.

Lemma digits_intToString (z : Z) :
  0 <= z -> allChars isDigit (Number.intToString z) = true.
Proof.
  intros Hz. unfold Number.intToString.
  destruct z as [| p | p]; [reflexivity | | lia].
  cbn [Z.to_int NilZero.string_of_int]. unfold NilZero.string_of_uint.
  destruct (Pos.to_uint p) eqn:Hp; try reflexivity;
    rewrite <- Hp; apply digits_uint.
Qed.

Lemma intToString_neg (p : positive) :
  Number.intToString (Zneg p) = String "-" (Number.intToString (Zpos p)).
Proof. reflexivity. Qed.

Lemma to_int_nonnil (z : Z) :
  Z.to_int z <> Decimal.Pos Decimal.Nil /\ Z.to_int z <> Decimal.Neg Decimal.Nil.
Proof.
  destruct z as [| p | p]; cbn; split; try discriminate;
    intros [= H]; now apply (DecimalPos.Unsigned.to_uint_nonnil p).
Qed.

Lemma int_of_intToString (z : Z) :
  NilZero.int_of_string (Number.intToString z) = Some (Z.to_int z).
Proof.
  unfold Number.intToString.
  destruct (to_int_nonnil z) as [Hpos Hneg].
  now apply NilZero.isi.
Qed.

Lemma intToString_head (z : Z) :
  0 <= z ->
  exists c tail, Number.intToString z = String c tail /\ isDigit c = true.
Proof.
  intros Hz.
  pose proof (int_of_intToString z) as Hparse.
  pose proof (digits_intToString z Hz) as Hchars.
  destruct (Number.intToString z) as [| c tail]; [discriminate Hparse |].
  cbn in Hchars. apply andb_prop in Hchars. exists c, tail. tauto.
Qed.

(** How a number in lowest terms is printed. *)
Lemma toString_normalized (n : number) :
  isNormalized n = true ->
  Number.toString n
  = signText (Number.mantissa n)
    ++ Number.intToString
         (Z.abs (Number.mantissa n) / Number.pow10 (Number.scale n))
    ++ fractionText (Number.scale n)
         (Z.abs (Number.mantissa n) mod Number.pow10 (Number.scale n)).
Proof.
  destruct n as [m e]. unfold isNormalized, Number.toString.
  cbn [Number.mantissa Number.scale].
  destruct (Number.normalize m e) as [m' e'].
  intros H. apply andb_prop in H. destruct H as [Hm He].
  apply Z.eqb_eq in Hm. apply Nat.eqb_eq in He. subst m' e'.
  destruct e as [| e]; [| reflexivity].
  change (Number.pow10 0) with 1. rewrite Z.div_1_r.
  cbn [fractionText]. rewrite append_nil_r.
  destruct m as [| p | p]; reflexivity.
Qed.

Lemma parseNumber_digit (c : ascii) (s : string) :
  isDigit c = true ->
  parseNumber (String c s) = parseUnsigned false (String c s).
Proof.
  destruct c as [[] [] [] [] [] [] [] []]; try reflexivity; discriminate.
Qed.

Lemma fractionText_stops (e : nat) (f : Z) :
  stopsAt isDigit (fractionText e f).
Proof. destruct e; reflexivity. Qed.

(** The reader's number of a printed number in lowest terms is that
    number. *)
Lemma parseNumber_toString (n : number) :
  isNormalized n = true -> parseNumber (Number.toString n) = Some n.
Proof.
  intros Hn. rewrite (toString_normalized n Hn).
  destruct n as [m e]. cbn [Number.mantissa Number.scale].
  pose proof (pow10_pos e) as Hpos.
  set (whole := Z.abs m / Number.pow10 e).
  set (frac := Z.abs m mod Number.pow10 e).
  assert (Hwhole : 0 <= whole) by (apply Z.div_pos; lia).
  assert (Hfrac : 0 <= frac < Number.pow10 e)
    by (apply Z.mod_pos_bound; lia).
  assert (Hsum : whole * Number.pow10 e + frac = Z.abs m).
  { unfold whole, frac.
    rewrite (Z.div_mod (Z.abs m) (Number.pow10 e)) at 3 by lia. lia. }
  assert (Hspan : span isDigit (Number.intToString whole ++ fractionText e frac)
                  = (Number.intToString whole, fractionText e frac)).
  { apply span_append;
      [now apply digits_intToString | apply fractionText_stops]. }
  assert (Hbody : forall negative : bool,
             parseUnsigned negative
               (Number.intToString whole ++ fractionText e frac)
             = Some (Number.mkNumber
                       (if negative then - Z.abs m else Z.abs m) e)).
  { intros negative. unfold parseUnsigned.
    rewrite Hspan, int_of_intToString, DecimalZ.of_to.
    destruct e as [| e].
    - cbn [fractionText]. unfold int. do 2 f_equal.
      change (Number.pow10 0) with 1 in Hsum, Hfrac.
      destruct negative; lia.
    - cbn [fractionText append]. rewrite Ascii.eqb_refl.
      rewrite readDigits_digits by exact Hfrac.
      rewrite length_digits. do 2 f_equal.
      destruct negative; lia. }
  unfold signText.
  destruct (m <? 0) eqn:Hsign.
  - cbn [append parseNumber]. rewrite (Hbody true). do 2 f_equal.
    apply Z.ltb_lt in Hsign. lia.
  - cbn [append].
    destruct (intToString_head whole Hwhole) as (c & tail & Hhead & Hc).
    specialize (Hbody false). rewrite Hhead in *. cbn [append] in *.
    rewrite (parseNumber_digit _ _ Hc), Hbody. do 2 f_equal.
    apply Z.ltb_ge in Hsign. lia.
Qed.

Lemma numChars_toString (n : number) :
  isNormalized n = true ->
  allChars isNumChar (Number.toString n) = true
  /\ exists c tail, Number.toString n = String c tail /\ isNumChar c = true.
Proof.
  intros Hn. rewrite (toString_normalized n Hn).
  destruct n as [m e]. cbn [Number.mantissa Number.scale].
  pose proof (pow10_pos e) as Hpos.
  assert (Hwhole : 0 <= Z.abs m / Number.pow10 e) by (apply Z.div_pos; lia).
  assert (Hall : allChars isNumChar
                   (signText m
                    ++ Number.intToString (Z.abs m / Number.pow10 e)
                    ++ fractionText e (Z.abs m mod Number.pow10 e)) = true).
  { rewrite !allChars_append.
    repeat (apply andb_true_intro; split).
    - unfold signText. destruct (m <? 0); reflexivity.
    - apply (allChars_impl _ _ _ isDigit_isNumChar
               (digits_intToString _ Hwhole)).
    - destruct e as [| e]; [reflexivity |].
      unfold fractionText. rewrite allChars_append.
      apply andb_true_intro. split; [reflexivity |].
      apply (allChars_impl _ _ _ isDigit_isNumChar (digits_isDigit _ _)). }
  split; [exact Hall |].
  destruct (intToString_head _ Hwhole) as (c & tail & Hhead & Hc).
  unfold signText in *. destruct (m <? 0).
  - do 2 eexists. split; [cbn [append]; reflexivity | reflexivity].
  - rewrite Hhead. do 2 eexists. split; [cbn [append]; reflexivity |].
    now apply isDigit_isNumChar.
Qed.

(** *** Values and argument tables *)

Lemma expect_append (lit rest : string) : expect lit (lit ++ rest) = Some rest.
Proof.
  induction lit as [| c lit IH]; cbn; [reflexivity |].
  now rewrite Ascii.eqb_refl.
Qed.

Lemma endsValue_stops (p : ascii -> bool) (s : string) :
  p ","%char = false -> p "}"%char = false -> endsValue s -> stopsAt p s.
Proof.
  intros Hcomma Hbrace (c & rest & -> & [-> | ->]); assumption.
Qed.

Lemma parseValue_number (n : number) (rest : string) :
  isNormalized n = true -> endsValue rest ->
  parseValue (Number.toString n ++ rest) = Some (VNum n, rest).
Proof.
  intros Hn Hrest.
  destruct (numChars_toString n Hn) as [Hall (c & tail & Hhead & Hc)].
  assert (Hspan : span isNumChar (Number.toString n ++ rest)
                  = (Number.toString n, rest)).
  { apply span_append; [exact Hall |]. now apply endsValue_stops. }
  unfold parseValue. rewrite Hhead in *. cbn [append] in *.
  destruct (Ascii.eqb c dq) eqn:Hq.
  { apply Ascii.eqb_eq in Hq. subst c. discriminate Hc. }
  destruct (Ascii.eqb c "t") eqn:Ht.
  { apply Ascii.eqb_eq in Ht. subst c. discriminate Hc. }
  destruct (Ascii.eqb c "f") eqn:Hf.
  { apply Ascii.eqb_eq in Hf. subst c. discriminate Hc. }
  rewrite Hspan, <- Hhead, (parseNumber_toString n Hn). reflexivity.
Qed.

Lemma parseValue_render (v : value) (rest : string) :
  plainValue v = true -> endsValue rest ->
  parseValue (renderValue v ++ rest) = Some (v, rest).
Proof.
  intros Hv Hrest. destruct v as [| | b | n | s | | |]; try discriminate Hv.
  - destruct b; cbn; reflexivity.
  - apply (parseValue_number n rest Hv Hrest).
  - cbn [renderValue plainValue] in *. rewrite !append_assoc.
    change (DQ ++ escapeQuotes s ++ DQ ++ rest)
      with (String dq (escapeQuotes s ++ DQ ++ rest)).
    unfold parseValue. rewrite Ascii.eqb_refl.
    rewrite parseString_escape by now apply negb_true_iff. reflexivity.
Qed.

Lemma parseArgs_step (fuel : nat) (s : string) :
  parseArgs (S fuel) s
  = let (key, r0) := span isKeyChar s in
    match expect " = " r0 with
    | None => None
    | Some r1 =>
        match parseValue r1 with
        | None => None
        | Some (v, String "}" r3) => Some ([(key, v)], r3)
        | Some (v, String "," (String " " r3)) =>
            option_map (fun r => ((key, v) :: fst r, snd r)) (parseArgs fuel r3)
        | Some _ => None
        end
    end.
Proof. reflexivity. Qed.

Lemma plainArg_parts (kv : string * value) :
  plainArg kv = true ->
  fst kv <> "" /\ allChars isKeyChar (fst kv) = true
  /\ (fst kv =? "font")%string = false
  /\ (fst kv =? "material")%string = false
  /\ plainValue (snd kv) = true.
Proof.
  unfold plainArg. intros H.
  repeat (apply andb_prop in H; destruct H as [H ?]).
  repeat split; try assumption; try (now apply negb_true_iff).
  apply negb_true_iff in H. now apply String.eqb_neq.
Qed.

(** One [key = value] pair, followed by whatever ends the value. *)
Lemma parseArg_render (kv : string * value) (rest : string) :
  plainArg kv = true -> endsValue rest ->
  span isKeyChar (renderArg kv ++ rest)
  = (fst kv, " = " ++ renderValue (snd kv) ++ rest)
  /\ parseValue (renderValue (snd kv) ++ rest) = Some (snd kv, rest).
Proof.
  intros Hkv Hrest. destruct (plainArg_parts kv Hkv) as (_ & Hkey & _ & _ & Hv).
  split.
  - unfold renderArg. rewrite !append_assoc.
    apply span_append; [exact Hkey | reflexivity].
  - now apply parseValue_render.
Qed.

Lemma parseArgs_render (args : list (string * value)) :
  forall (fuel : nat) (rest : string),
    args <> [] ->
    forallb plainArg args = true ->
    (List.length args <= fuel)%nat ->
    parseArgs fuel (join ", " (map renderArg args) ++ "}" ++ rest)
    = Some (args, rest).
Proof.
  induction args as [| kv args IH]; intros fuel rest Hne Hplain Hfuel;
    [congruence |].
  cbn [forallb] in Hplain. apply andb_prop in Hplain.
  destruct Hplain as [Hkv Hplain].
  destruct fuel as [| fuel]; [cbn in Hfuel; lia |].
  rewrite parseArgs_step.
  destruct args as [| kv' args].
  - cbn [map join].
    destruct (parseArg_render kv ("}" ++ rest) Hkv) as [Hspan Hvalue].
    { exists "}"%char, rest. split; [reflexivity | now right]. }
    rewrite Hspan, expect_append, Hvalue. cbn. now destruct kv.
  - assert (Hjoin : join ", " (map renderArg (kv :: kv' :: args))
                    = renderArg kv ++ ", "
                      ++ join ", " (map renderArg (kv' :: args)))
      by reflexivity.
    rewrite Hjoin, !append_assoc.
    destruct (parseArg_render kv
                (", " ++ join ", " (map renderArg (kv' :: args)) ++ "}" ++ rest)
                Hkv) as [Hspan Hvalue].
    { eexists ","%char, _. split; [reflexivity | now left]. }
    rewrite Hspan, expect_append, Hvalue.
    cbn [append]. cbv beta iota.
    change (String "}"%char rest) with ("}" ++ rest).
    rewrite IH; [now destruct kv | discriminate | exact Hplain |].
    cbn [List.length] in *. lia.
Qed.

Lemma parseTable_other (c : ascii) (s : string) :
  c <> "}"%char ->
  parseTable (String c s) = parseArgs (String.length (String c s)) (String c s).
Proof.
  intros Hc. unfold parseTable.
  destruct c as [[] [] [] [] [] [] [] []]; try reflexivity.
  now contradiction Hc.
Qed.

Lemma join_cons (sep item : string) (items : list string) :
  join sep (item :: items)
  = item ++ match items with
            | [] => ""
            | _ => sep ++ join sep items
            end.
Proof. destruct items; cbn; [now rewrite append_nil_r | reflexivity]. Qed.

Lemma length_renderArgs (args : list (string * value)) :
  (List.length args <= String.length (join ", " (map renderArg args)))%nat.
Proof.
  induction args as [| kv args IH]; [cbn; lia |].
  cbn [map]. rewrite join_cons, length_append.
  assert (Hkv : (3 <= String.length (renderArg kv))%nat).
  { unfold renderArg. rewrite !length_append. cbn. lia. }
  destruct args as [| kv' args]; cbn [List.length map] in *; [lia |].
  rewrite length_append. cbn [String.length]. lia.
Qed.

Lemma parseTable_render (args : list (string * value)) (rest : string) :
  forallb plainArg args = true ->
  parseTable (join ", " (map renderArg args) ++ "}" ++ rest)
  = Some (args, rest).
Proof.
  intros Hplain. destruct args as [| kv args]; [reflexivity |].
  assert (Hfuel : (List.length (kv :: args)
                   <= String.length (join ", " (map renderArg (kv :: args))
                                     ++ "}" ++ rest))%nat).
  { rewrite length_append. pose proof (length_renderArgs (kv :: args)). lia. }
  assert (Hhead : exists c tail,
             join ", " (map renderArg (kv :: args)) ++ "}" ++ rest
             = String c tail /\ c <> "}"%char).
  { cbn [forallb] in Hplain. apply andb_prop in Hplain.
    destruct Hplain as [Hkv _].
    destruct (plainArg_parts kv Hkv) as (Hne & Hkey & _).
    cbn [map]. rewrite join_cons. unfold renderArg at 1.
    destruct (fst kv) as [| c key]; [congruence |].
    exists c. eexists. split; [cbn [append]; reflexivity |].
    cbn [allChars] in Hkey. apply andb_prop in Hkey.
    intros ->. destruct Hkey as [Hc _]. discriminate Hc. }
  destruct Hhead as (c & tail & Htext & Hc).
  rewrite Htext, (parseTable_other c tail Hc), <- Htext.
  apply parseArgs_render; [discriminate | exact Hplain | exact Hfuel].
Qed.

(** *** Calls *)

Lemma parseNode_step (fuel : nat) (s : string) :
  parseNode (S fuel) s
  = let (tag, r0) := span isTagChar (skipBlank s) in
    match r0 with
    | String "(" r1 =>
        match skipBlank r1 with
        | String "{" r2 =>
            match parseTable r2 with
            | Some (args, String ")" r4) => Some (Call tag args [], r4)
            | Some (args, String "," r4) =>
                option_map (fun r => (Call tag args (fst r), snd r))
                           (parseKids fuel r4)
            | _ => None
            end
        | _ => None
        end
    | _ => None
    end.
Proof. reflexivity. Qed.

Lemma parseKids_step (fuel : nat) (s : string) :
  parseKids (S fuel) s
  = match parseNode fuel s with
    | None => None
    | Some (kid, String "," r2) =>
        option_map (fun r => (kid :: fst r, snd r)) (parseKids fuel r2)
    | Some (kid, r1) =>
        match skipBlank r1 with
        | String ")" r2 => Some ([kid], r2)
        | _ => None
        end
    end.
Proof. reflexivity. Qed.

Lemma parseNode_blank (fuel : nat) (c : ascii) (s : string) :
  isBlank c = true -> parseNode fuel (String c s) = parseNode fuel s.
Proof.
  intros Hc. destruct fuel as [| fuel]; [reflexivity |].
  rewrite !parseNode_step. cbn [skipBlank]. now rewrite Hc.
Qed.

Lemma tag_stops (tag rest : string) :
  allChars isTagChar tag = true -> stopsAt isBlank (tag ++ String "(" rest).
Proof.
  destruct tag as [| c tag]; cbn; [reflexivity |].
  intros H. apply andb_prop in H. destruct H as [H _].
  unfold isTagChar in H. apply negb_true_iff in H.
  now apply orb_false_elim in H.
Qed.

(** Reading the head of a call: indentation, tag, opening parenthesis. *)
Lemma parseNode_head (fuel level : nat) (tag body : string) :
  allChars isTagChar tag = true ->
  parseNode (S fuel) (indent level ++ tag ++ String "(" body)
  = match skipBlank body with
    | String "{" r2 =>
        match parseTable r2 with
        | Some (args, String ")" r4) => Some (Call tag args [], r4)
        | Some (args, String "," r4) =>
            option_map (fun r => (Call tag args (fst r), snd r))
                       (parseKids fuel r4)
        | _ => None
        end
    | _ => None
    end.
Proof.
  intros Htag. rewrite parseNode_step, skipBlank_indent.
  rewrite skipBlank_stop by now apply tag_stops.
  rewrite span_append; [reflexivity | exact Htag | reflexivity].
Qed.

Lemma skipBlank_brace (s : string) :
  skipBlank (String "{" s) = String "{" s.
Proof. reflexivity. Qed.

Lemma skipBlank_paren (s : string) :
  skipBlank (String ")" s) = String ")" s.
Proof. reflexivity. Qed.

Lemma skipBlank_nl (s : string) : skipBlank (String nl s) = skipBlank s.
Proof. reflexivity. Qed.

Lemma size_call (tag : string) (args : list (string * value))
      (kids : list CallTree) :
  size (Call tag args kids) = S (sizes kids).
Proof. reflexivity. Qed.

Lemma sizes_cons (kid : CallTree) (kids : list CallTree) :
  sizes (kid :: kids) = S (size kid + sizes kids).
Proof. reflexivity. Qed.

Lemma render_leaf (tag : string) (args : list (string * value))
      (level : nat) (rest : string) :
  render (Call tag args []) level ++ rest
  = indent level ++ tag
    ++ String "(" (String "{" (join ", " (map renderArg args)
                               ++ "}" ++ String ")" rest)).
Proof. cbn [render]. rewrite !append_assoc. reflexivity. Qed.

Lemma render_nested (tag : string) (args : list (string * value))
      (kid : CallTree) (kids : list CallTree) (level : nat) (rest : string) :
  render (Call tag args (kid :: kids)) level ++ rest
  = indent level ++ tag
    ++ String "(" (String nl (indent (S level)
         ++ String "{" (join ", " (map renderArg args)
              ++ "}" ++ String "," (String nl
                   (join ("," ++ NL)
                         (map (fun k => render k (S level)) (kid :: kids))
                    ++ String nl (indent level ++ String ")" rest)))))).
Proof. cbn [render]. rewrite !append_assoc. reflexivity. Qed.

Lemma parseKids_last (fuel : nat) (s : string) (kid : CallTree) (r : string) :
  parseNode fuel s = Some (kid, String nl r) ->
  parseKids (S fuel) s
  = match skipBlank r with
    | String ")" r2 => Some ([kid], r2)
    | _ => None
    end.
Proof. intros H. rewrite parseKids_step, H. reflexivity. Qed.

Lemma parseKids_more (fuel : nat) (s : string) (kid : CallTree) (r : string) :
  parseNode fuel s = Some (kid, String "," r) ->
  parseKids (S fuel) s
  = option_map (fun rest => (kid :: fst rest, snd rest)) (parseKids fuel r).
Proof. intros H. rewrite parseKids_step, H. reflexivity. Qed.

Lemma parse_render_fuel (fuel : nat) :
  (forall call level rest,
      plainCall call = true -> (size call <= fuel)%nat ->
      parseNode fuel (render call level ++ rest) = Some (call, rest))
  /\ (forall kids level level' rest,
         kids <> [] -> forallb plainCall kids = true ->
         (sizes kids <= fuel)%nat ->
         parseKids fuel
           (String nl (join ("," ++ NL) (map (fun k => render k level') kids)
                       ++ String nl (indent level ++ String ")" rest)))
         = Some (kids, rest)).
Proof.
  induction fuel as [| fuel [IHnode IHkids]].
  { split.
    - intros [tag args kids] level rest _ Hsize. rewrite size_call in Hsize. lia.
    - intros [| kid kids] level level' rest Hne _ Hsize; [congruence |].
      rewrite sizes_cons in Hsize. lia. }
  split.
  - intros [tag args kids] level rest Hplain Hsize.
    cbn [plainCall] in Hplain.
    apply andb_prop in Hplain. destruct Hplain as [Hplain Hkids].
    apply andb_prop in Hplain. destruct Hplain as [Htag Hargs].
    rewrite size_call in Hsize.
    destruct kids as [| kid kids].
    + rewrite render_leaf, (parseNode_head _ _ _ _ Htag).
      rewrite skipBlank_brace.
      rewrite (parseTable_render args _ Hargs). reflexivity.
    + rewrite render_nested, (parseNode_head _ _ _ _ Htag).
      rewrite skipBlank_nl, skipBlank_indent, skipBlank_brace.
      rewrite (parseTable_render args _ Hargs).
      rewrite (IHkids (kid :: kids) level (S level) rest);
        [reflexivity | discriminate | exact Hkids | lia].
  - intros kids level level' rest Hne Hplain Hsize.
    destruct kids as [| kid kids]; [congruence |].
    cbn [forallb] in Hplain. apply andb_prop in Hplain.
    destruct Hplain as [Hkid Hkids].
    rewrite sizes_cons in Hsize.
    destruct kids as [| kid' kids].
    + rewrite (parseKids_last fuel _ kid (indent level ++ String ")" rest)).
      * rewrite skipBlank_indent, skipBlank_paren. reflexivity.
      * rewrite parseNode_blank by reflexivity. cbn [map join].
        apply IHnode; [exact Hkid | lia].
    + rewrite (parseKids_more fuel _ kid
                 (String nl
                    (join ("," ++ NL)
                          (map (fun k => render k level') (kid' :: kids))
                     ++ String nl (indent level ++ String ")" rest)))).
      * rewrite (IHkids (kid' :: kids) level level' rest);
          [reflexivity | discriminate | exact Hkids | lia].
      * rewrite parseNode_blank by reflexivity.
        rewrite <- (IHnode kid level' _ Hkid) by lia.
        f_equal. cbn [map]. rewrite join_cons, !append_assoc. reflexivity.
Qed.

(** *** Induction over trees *)

Lemma CallTree_induction (P : CallTree -> Prop) :
  (forall tag args kids, Forall P kids -> P (Call tag args kids)) ->
  forall call, P call.
Proof.
  intros Hcall.
  refine (fix IH (call : CallTree) : P call :=
            match call with
            | Call tag args kids =>
                Hcall tag args kids
                  ((fix all (l : list CallTree) : Forall P l :=
                      match l with
                      | [] => Forall_nil P
                      | kid :: l' => Forall_cons kid (IH kid) (all l')
                      end) kids)
            end).
Qed.

Lemma LayoutNode_induction (P : LayoutNode -> Prop) :
  (forall tag fields, P (mkLayoutNode tag None fields)) ->
  (forall tag kids fields,
      Forall P kids -> P (mkLayoutNode tag (Some kids) fields)) ->
  forall node, P node.
Proof.
  intros Hleaf Hnode.
  refine (fix IH (node : LayoutNode) : P node :=
            match node with
            | mkLayoutNode tag None fields => Hleaf tag fields
            | mkLayoutNode tag (Some kids) fields =>
                Hnode tag kids fields
                  ((fix all (l : list LayoutNode) : Forall P l :=
                      match l with
                      | [] => Forall_nil P
                      | kid :: l' => Forall_cons kid (IH kid) (all l')
                      end) kids)
            end).
Qed.

(** *** The text is long enough to serve as fuel *)

Lemma sizes_le_join (level : nat) (kids : list CallTree) :
  Forall (fun kid => (size kid <= String.length (render kid level))%nat) kids ->
  (sizes kids
   <= S (String.length (join ("," ++ NL)
                             (map (fun kid => render kid level) kids))))%nat.
Proof.
  induction 1 as [| kid kids Hkid _ IH]; [cbn; lia |].
  rewrite sizes_cons. cbn [map]. rewrite join_cons, length_append.
  destruct kids as [| kid' kids]; [cbn in *; lia |].
  cbn [map] in *. rewrite length_append.
  change (String.length ("," ++ NL)) with 2%nat. lia.
Qed.

Lemma size_le_length (call : CallTree) :
  forall level, (size call <= String.length (render call level))%nat.
Proof.
  induction call as [tag args kids IH] using CallTree_induction.
  intros level. rewrite size_call.
  destruct kids as [| kid kids].
  - cbn [render]. rewrite !length_append. cbn. lia.
  - assert (Hkids : Forall (fun kid => (size kid
                       <= String.length (render kid (S level)))%nat)
                           (kid :: kids)).
    { eapply Forall_impl; [| exact IH]. intros k Hk. apply Hk. }
    apply sizes_le_join in Hkids.
    cbn [render]. rewrite !length_append. cbn [String.length NL] in *. lia.
Qed.

(** *** The emitter on plain trees *)

Lemma mapM_returned {A B} (f : A -> outcome B) (g : A -> B) (l : list A) :
  Forall (fun a => f a = Returned (g a)) l ->
  mapM f l = Returned (map g l).
Proof.
  induction 1 as [| a l Ha _ IH]; [reflexivity |].
  cbn [mapM map]. fold (mapM f). rewrite Ha, IH. reflexivity.
Qed.

Lemma serialize_plain (v : value) (level : nat) :
  plainValue v = true -> serialize v level = Returned (renderValue v).
Proof. destruct v; try discriminate; reflexivity. Qed.

Lemma emitProp_plain (kv : string * value) :
  plainArg kv = true -> emitProp kv = Returned (renderArg kv).
Proof.
  intros Hkv. destruct (plainArg_parts kv Hkv) as (_ & _ & Hfont & Hmat & Hv).
  destruct kv as [k v]. cbn [fst snd] in *.
  unfold emitProp, transpile, renderArg. rewrite Hfont, Hmat. cbn [orb fst snd].
  rewrite (serialize_plain v 0 Hv). reflexivity.
Qed.

Lemma buildTree_step (tag : string) (kids : option (list LayoutNode))
      (fields : list (string * value)) (level : nat) :
  buildTree (mkLayoutNode tag kids fields) level
  = (props <- mapM emitProp (filter (fun kv => negb (isStructural kv)) fields) ;;
     match kids with
     | None | Some [] =>
         Returned (repeatString "  " level ++ tag ++ "({"
                   ++ join ", " props ++ "})")
     | Some children =>
         children' <- mapM (fun child => buildTree child (S level)) children ;;
         Returned (repeatString "  " level ++ tag ++ "(" ++ NL
                   ++ repeatString "  " (S level) ++ "{" ++ join ", " props
                   ++ "}," ++ NL ++ join ("," ++ NL) children' ++ NL
                   ++ repeatString "  " level ++ ")")
     end).
Proof. reflexivity. Qed.

(** On a plain tree the emitter returns, and what it returns is [render]
    of the call tree. *)
Lemma buildTree_render (node : LayoutNode) :
  forall level,
    plainCall (callTreeOf node) = true ->
    buildTree node level = Returned (render (callTreeOf node) level).
Proof.
  induction node as [tag fields | tag kids fields IH]
    using LayoutNode_induction; intros level Hplain;
    cbn [callTreeOf plainCall] in Hplain;
    apply andb_prop in Hplain; destruct Hplain as [Hplain Hkids];
    apply andb_prop in Hplain; destruct Hplain as [_ Hargs];
    rewrite buildTree_step;
    rewrite (mapM_returned emitProp renderArg)
      by (apply Forall_forall; intros kv Hin; apply emitProp_plain;
          rewrite forallb_forall in Hargs; now apply Hargs).
  - reflexivity.
  - destruct kids as [| kid kids]; [reflexivity |].
    rewrite (mapM_returned _ (fun child => render (callTreeOf child) (S level))).
    + cbn [bind callTreeOf render map]. rewrite map_map. reflexivity.
    + rewrite forallb_forall in Hkids.
      rewrite Forall_forall in IH. apply Forall_forall. intros child Hin.
      apply IH; [exact Hin |]. apply Hkids. now apply in_map.
Qed.



(* ================================================================== *)
(** * Part VI: further properties *)

(* ------------------------------------------------------------------ *)
(** ** [packColor]: clamping, value and sign *)

Lemma channel_range (c : number) : 0 <= channel c <= 255.
Proof.
  unfold channel.
  set (x := Number.toInt32 (Number.mul (clamp c (int 0) (int 1)) (int 255))).
  change (Z.land x 255) with (Z.land x (Z.ones 8)).
  rewrite Z.land_ones by lia.
  pose proof (Z.mod_pos_bound x (2 ^ 8) eq_refl).
  change (2 ^ 8) with 256 in *. lia.
Qed.

Lemma clamp_cases (c : number) :
  (atLeast c (int 1) /\ clamp c (int 0) (int 1) = int 1)
  \/ (atMost c (int 0) /\ clamp c (int 0) (int 1) = int 0)
  \/ (Number.gtb (int 1) c = true /\ Number.gtb c (int 0) = true
      /\ clamp c (int 0) (int 1) = c).
Proof.
  unfold clamp, Number.max, Number.min, atLeast, atMost.
  destruct (Number.gtb (int 1) c) eqn:Hhigh.
  - destruct (Number.gtb c (int 0)) eqn:Hlow; [right; right | right; left];
      repeat split; assumption.
  - left. split; reflexivity.
Qed.

Lemma atMost_zero_below_one (c : number) :
  atMost c (int 0) -> Number.gtb (int 1) c = true.
Proof.
  unfold atMost, Number.gtb, int. cbn [Number.mantissa Number.scale].
  change (Number.pow10 0) with 1. intros H.
  apply Z.ltb_ge in H. apply Z.ltb_lt.
  pose proof (pow10_pos (Number.scale c)). lia.
Qed.

(** X1: a colour channel is a byte; a component of 1 or more saturates
    to 255 and a component of 0 or less to 0. *)
Theorem channel_saturates (c : number) :
  0 <= channel c <= 255
  /\ (atLeast c (int 1) -> channel c = 255)
  /\ (atMost c (int 0) -> channel c = 0).
Proof.
  split; [apply channel_range |].
  split; intros Hc.
  - destruct (clamp_cases c) as [[_ E] | [[H0 _] | [Hlt _]]].
    + unfold channel. rewrite E. reflexivity.
    + apply atMost_zero_below_one in H0. unfold atLeast in Hc. congruence.
    + unfold atLeast in Hc. congruence.
  - destruct (clamp_cases c) as [[H1 _] | [[_ E] | [_ [Hgt _]]]].
    + apply atMost_zero_below_one in Hc. unfold atLeast in H1. congruence.
    + unfold channel. rewrite E. reflexivity.
    + unfold atMost in Hc. congruence.
Qed.

(** The theorem at the components 1.5 and -0.2. *)
Lemma channel_saturates_witness :
  channel (Number.mkNumber 15 1) = 255 /\ channel (Number.mkNumber (-2) 1) = 0.
Proof.
  split.
  - apply (proj1 (proj2 (channel_saturates (Number.mkNumber 15 1)))).
    reflexivity.
  - apply (proj2 (proj2 (channel_saturates (Number.mkNumber (-2) 1)))).
    reflexivity.
Defined.

Lemma channel_clamp (c : number) :
  channel (clamp c (int 0) (int 1)) = channel c.
Proof.
  unfold channel. f_equal. f_equal. f_equal.
  destruct (clamp_cases c) as [[_ E] | [[_ E] | [_ [_ E]]]];
    rewrite E; try reflexivity.
  exact E.
Qed.


Example packColor_out_of_range :
  packColor (Number.mkNumber 15 1) (Number.mkNumber (-2) 1)
            (Number.mkNumber 5 1) (Some (int 1))
  = packColor (int 1) (int 0) (Number.mkNumber 5 1) (Some (int 1)).
Proof. reflexivity. Qed.

Lemma testbit_concat (lo hi k n : Z) :
  0 <= k -> 0 <= lo < 2 ^ k -> 0 <= n ->
  Z.testbit (lo + 2 ^ k * hi) n
  = if n <? k then Z.testbit lo n else Z.testbit hi (n - k).
Proof.
  intros Hk Hlo Hn.
  assert (Hpow : 0 < 2 ^ k) by (apply Z.pow_pos_nonneg; lia).
  replace (lo + 2 ^ k * hi) with (lo + hi * 2 ^ k) by lia.
  destruct (Z.ltb_spec n k) as [Hlt | Hge].
  - rewrite <- (Z.mod_pow2_bits_low (lo + hi * 2 ^ k) k n) by lia.
    rewrite Z_mod_plus_full, Z.mod_small by lia. reflexivity.
  - replace n with (n - k + k) at 1 by lia.
    rewrite <- Z.div_pow2_bits by lia.
    rewrite Z.div_add, Z.div_small by lia. reflexivity.
Qed.

Lemma argb_testbit (a r g b n : Z) :
  0 <= a <= 255 -> 0 <= r <= 255 -> 0 <= g <= 255 -> 0 <= b <= 255 ->
  0 <= n ->
  Z.testbit (argb a r g b) n
  = if n <? 8 then Z.testbit b n
    else if n <? 16 then Z.testbit g (n - 8)
    else if n <? 24 then Z.testbit r (n - 16)
    else Z.testbit a (n - 24).
Proof.
  intros Ha Hr Hg Hb Hn.
  replace (argb a r g b)
    with (b + 2 ^ 8 * (g + 2 ^ 8 * (r + 2 ^ 8 * a))) by (unfold argb; lia).
  rewrite testbit_concat by lia.
  destruct (Z.ltb_spec n 8) as [H8 | H8]; [reflexivity |].
  rewrite testbit_concat by lia.
  destruct (Z.ltb_spec (n - 8) 8) as [H16 | H16];
    destruct (Z.ltb_spec n 16); try lia; [reflexivity |].
  rewrite testbit_concat by lia.
  destruct (Z.ltb_spec (n - 8 - 8) 8) as [H24 | H24];
    destruct (Z.ltb_spec n 24); try lia; f_equal; lia.
Qed.

Lemma packColor_unsigned (r g b : number) (a : option number) :
  unsigned32 (packColor r g b a)
  = argb (channel (alphaOf a)) (channel r) (channel g) (channel b).
Proof.
  pose proof (channel_range (alphaOf a)) as Ha.
  pose proof (channel_range r) as Hr.
  pose proof (channel_range g) as Hg.
  pose proof (channel_range b) as Hb.
  set (s := argb (channel (alphaOf a)) (channel r) (channel g) (channel b)).
  assert (Hs : 0 <= s < 2 ^ 32) by (unfold s, argb; lia).
  rewrite <- (Z.mod_small s (2 ^ 32)) by exact Hs.
  unfold unsigned32. apply Z.bits_inj'. intros n Hn.
  destruct (Z.lt_ge_cases n 32) as [Hlt | Hge].
  - rewrite !Z.mod_pow2_bits_low by lia.
    rewrite packColor_testbit by lia. unfold s.
    rewrite argb_testbit by assumption. fold (alphaOf a).
    destruct (Z.ltb_spec n 8); [| destruct (Z.ltb_spec n 16);
      [| destruct (Z.ltb_spec n 24)]];
      repeat match goal with
        | |- context [Z.testbit (channel ?c) ?k] =>
            first [ rewrite (channel_testbit_high c k) by lia
                  | rewrite (channel_testbit_neg c k) by lia ]
        end;
      rewrite ?orb_false_r, ?orb_false_l; reflexivity.
  - rewrite !Z.mod_pow2_bits_high by lia. reflexivity.
Qed.

Lemma wrap32_range (z : Z) : - 2 ^ 31 <= Number.wrap32 z < 2 ^ 31.
Proof.
  unfold Number.wrap32.
  pose proof (Z.mod_pos_bound (z + 2 ^ 31) (2 ^ 32) eq_refl). lia.
Qed.

(** The signed reading of a 32-bit word made of four bytes. *)
Lemma signed_word (p A R G B : Z) :
  - 2 ^ 31 <= p < 2 ^ 31 ->
  unsigned32 p = argb A R G B ->
  0 <= A <= 255 -> 0 <= R <= 255 -> 0 <= G <= 255 -> 0 <= B <= 255 ->
  - 2 ^ 31 <= p < 2 ^ 31
  /\ p = (if A <? 128 then argb A R G B else argb A R G B - 2 ^ 32)
  /\ (p < 0 <-> 128 <= A).
Proof.
  unfold unsigned32, argb. intros Hrange Hword HA HR HG HB.
  assert (H32 : 2 ^ 32 = 4294967296) by reflexivity.
  assert (H31 : 2 ^ 31 = 2147483648) by reflexivity.
  assert (H24 : 2 ^ 24 = 16777216) by reflexivity.
  assert (H16 : 2 ^ 16 = 65536) by reflexivity.
  assert (H8 : 2 ^ 8 = 256) by reflexivity.
  rewrite ?H32, ?H31, ?H24, ?H16, ?H8 in *.
  pose proof (Z.div_mod p 4294967296 ltac:(lia)) as Hdiv.
  rewrite Hword in Hdiv.
  destruct (Z.ltb_spec A 128); repeat split; lia.
Qed.

Lemma packColor_range (r g b : number) (a : option number) :
  - 2 ^ 31 <= packColor r g b a < 2 ^ 31.
Proof. unfold packColor. apply wrap32_range. Qed.

(** X3: the packed colour is the signed 32-bit reading of [0xAARRGGBB]:
    it is that number when the alpha byte is below 128, and that number
    minus 2^32, hence negative, from 128 on. *)
Theorem packColor_signed_value (r g b : number) (a : option number) :
  let word := argb (channel (alphaOf a)) (channel r) (channel g) (channel b) in
  - 2 ^ 31 <= packColor r g b a < 2 ^ 31
  /\ packColor r g b a
     = (if channel (alphaOf a) <? 128 then word else word - 2 ^ 32)
  /\ (packColor r g b a < 0 <-> 128 <= channel (alphaOf a)).
Proof.
  intros word. subst word.
  apply signed_word.
  - apply packColor_range.
  - apply packColor_unsigned.
  - apply channel_range.
  - apply channel_range.
  - apply channel_range.
  - apply channel_range.
Qed.

(* ------------------------------------------------------------------ *)
(** ** Colour extraction: [getFillColor], [getStrokeColor], [getTextColor] *)

Lemma find_first {A} (f : A -> bool) (before : list A) (a : A) (after : list A) :
  Forall (fun x => f x = false) before -> f a = true ->
  find f (before ++ a :: after)%list = Some a.
Proof.
  induction 1 as [| x before Hx _ IH]; intros Ha; cbn.
  - now rewrite Ha.
  - rewrite Hx. now apply IH.
Qed.

Lemma find_none_iff {A} (f : A -> bool) (l : list A) :
  find f l = None <-> Forall (fun x => f x = false) l.
Proof.
  induction l as [| x l IH]; cbn.
  - split; [constructor | reflexivity].
  - destruct (f x) eqn:Hx.
    + split; [discriminate |]. intros H. inversion H. congruence.
    + rewrite IH. split; [now constructor | intros H; now inversion H].
Qed.

Lemma solidColor_first (before : list Paint) (p : Paint) (after : list Paint) :
  noVisibleSolid before -> isVisibleSolid p = true ->
  solidColor (Some (before ++ p :: after)%list) = Some (paintColor p).
Proof.
  intros Hbefore Hp. unfold solidColor, paintColor.
  rewrite (find_first isVisibleSolid before p after Hbefore Hp).
  reflexivity.
Qed.

Lemma solidColor_none (paints : option (list Paint)) :
  solidColor paints = None
  <-> paints = None \/ exists ps, paints = Some ps /\ noVisibleSolid ps.
Proof.
  unfold solidColor, noVisibleSolid. destruct paints as [ps |].
  - destruct (find isVisibleSolid ps) eqn:Hfind.
    + split; [discriminate |]. intros [H | (ps' & [= <-] & H)];
        [discriminate |].
      apply find_none_iff in H. congruence.
    + apply find_none_iff in Hfind. split; [| reflexivity].
      intros _. right. now exists ps.
  - split; [now left | reflexivity].
Qed.

(** X4: the colour of a node is the colour of its first paint that is
    solid with a positive opacity (an absent opacity counting as 1): the
    paints before it that are not are skipped, the paints after it are
    ignored, nothing is blended.  Fill, stroke and text colour follow
    this one rule, on [fills], [strokes] and [fills]. *)
Theorem color_is_first_visible_solid (figmaNode : SceneNode)
        (before : list Paint) (p : Paint) (after : list Paint) :
  noVisibleSolid before -> isVisibleSolid p = true ->
  (fills figmaNode = Some (before ++ p :: after)%list ->
   getFillColor figmaNode = Some (paintColor p)
   /\ getTextColor figmaNode = Some (paintColor p))
  /\ (strokes figmaNode = Some (before ++ p :: after)%list ->
      getStrokeColor figmaNode = Some (paintColor p)).
Proof.
  intros Hbefore Hp.
  unfold getFillColor, getTextColor, getStrokeColor.
  split; intros ->; rewrite (solidColor_first _ _ _ Hbefore Hp); auto.
Qed.

Lemma color_is_first_visible_solid_witness :
  getFillColor layered = Some (paintColor opaqueRed)
  /\ getTextColor layered = Some (paintColor opaqueRed)
  /\ getStrokeColor layered = Some (paintColor opaqueRed).
Proof.
  assert (Hbefore : noVisibleSolid [hiddenBlue; gradient])
    by (repeat constructor).
  assert (Hp : isVisibleSolid opaqueRed = true) by reflexivity.
  destruct (color_is_first_visible_solid layered [hiddenBlue; gradient]
              opaqueRed [halfGreen] Hbefore Hp) as [Hfill Hstroke].
  destruct (Hfill eq_refl) as [H1 H2].
  split; [exact H1 | split; [exact H2 | exact (Hstroke eq_refl)]].
Defined.

(** X5: a node has no fill (stroke, text) colour exactly when it has no
    [fills] ([strokes]) property or none of its paints is solid with a
    positive opacity; a transparent or gradient paint never yields a
    colour. *)
Theorem color_absent_iff (figmaNode : SceneNode) :
  (getFillColor figmaNode = None
   <-> fills figmaNode = None
       \/ exists ps, fills figmaNode = Some ps /\ noVisibleSolid ps)
  /\ (getStrokeColor figmaNode = None
      <-> strokes figmaNode = None
          \/ exists ps, strokes figmaNode = Some ps /\ noVisibleSolid ps)
  /\ (getTextColor figmaNode = None
      <-> fills figmaNode = None
          \/ exists ps, fills figmaNode = Some ps /\ noVisibleSolid ps).
Proof.
  unfold getFillColor, getStrokeColor, getTextColor.
  repeat split; apply solidColor_none.
Qed.

(* ------------------------------------------------------------------ *)
(** ** [getTextFont] *)

Lemma removeSpaces_clean (s : string) :
  allChars (fun c => negb (isSpace c)) (removeSpaces s) = true.
Proof.
  induction s as [| c s IH]; [reflexivity |].
  cbn [removeSpaces]. destruct (isSpace c) eqn:Hc; [exact IH |].
  cbn [allChars]. now rewrite Hc, IH.
Qed.

Lemma scaled_by_three_quarters (size : number) :
  Number.eqb (Number.mul (Number.mul size threeQuarters) (int 4))
             (Number.mul size (int 3)) = true.
Proof.
  destruct size as [m e]. unfold Number.eqb, Number.mul, threeQuarters, int.
  cbn [Number.mantissa Number.scale].
  rewrite !Nat.add_0_r. apply Z.eqb_eq.
  replace (e + 2)%nat with (S (S e)) by lia. rewrite !pow10_S. ring.
Qed.


Example getTextFont_mixed_size :
  getTextFont (mixedLabel [(mkFontName "Open Sans" "Semi Bold Italic", int 16);
                           (mkFontName "Inter" "Regular", int 12)])
  = Returned ("Open Sans-SemiBoldItalic.ttf", Number.mkNumber 1200 2)
  /\ Number.toString (Number.mkNumber 1200 2) = "12"
  /\ getTextFont (mixedLabel [])
     = Thrown "TypeError: Cannot read properties of undefined".
Proof. repeat split. Qed.

(* ------------------------------------------------------------------ *)
(** ** The serializer [transpile] *)

Lemma value_induction (P : value -> Prop) :
  P VUndefined -> P VNull ->
  (forall b, P (VBool b)) -> (forall n, P (VNum n)) -> (forall s, P (VStr s)) ->
  (forall items, Forall P items -> P (VArr items)) ->
  (forall entries, Forall (fun kv => P (snd kv)) entries -> P (VObj entries)) ->
  (forall ty, P (VOther ty)) ->
  forall v, P v.
Proof.
  intros Hu Hnull Hb Hn Hs Harr Hobj Hother.
  refine (fix IH (v : value) : P v :=
            match v with
            | VUndefined => Hu
            | VNull => Hnull
            | VBool b => Hb b
            | VNum n => Hn n
            | VStr s => Hs s
            | VArr items =>
                Harr items
                  ((fix all (l : list value) : Forall P l :=
                      match l with
                      | [] => Forall_nil P
                      | x :: l' => Forall_cons x (IH x) (all l')
                      end) items)
            | VObj entries =>
                Hobj entries
                  ((fix all (l : list (string * value))
                      : Forall (fun kv => P (snd kv)) l :=
                      match l with
                      | [] => Forall_nil _
                      | kv :: l' =>
                          Forall_cons kv (IH (snd kv)) (all l')
                      end) entries)
            | VOther ty => Hother ty
            end).
Qed.

(** [map] with a function that may throw: it returns when the function
    returns on every element, and throws an error of the function's when
    it throws on one. *)
Lemma mapM_dichotomy {A B} (f : A -> outcome B) (ok : A -> bool)
      (Q : string -> Prop) (l : list A) :
  Forall (fun a => (ok a = true /\ exists b, f a = Returned b)
                   \/ (ok a = false /\ exists e, f a = Thrown e /\ Q e)) l ->
  (forallb ok l = true
   /\ exists bs, mapM f l = Returned bs /\ List.length bs = List.length l)
  \/ (forallb ok l = false /\ exists e, mapM f l = Thrown e /\ Q e).
Proof.
  induction 1 as [| a l Ha _ IH].
  - left. split; [reflexivity |]. now exists [].
  - cbn [forallb mapM]. fold (mapM f).
    destruct Ha as [[Hok [b Hb]] | [Hok (e & He & HQ)]]; rewrite Hok.
    + rewrite Hb. cbn [bind andb].
      destruct IH as [[Hall (bs & Hbs & Hlen)] | [Hall (e & He & HQ)]].
      * left. split; [exact Hall |]. rewrite Hbs. exists (b :: bs).
        split; [reflexivity | cbn; now rewrite Hlen].
      * right. split; [exact Hall |]. rewrite He. now exists e.
    + right. split; [reflexivity |]. rewrite He. now exists e.
Qed.

Lemma serialize_dichotomy (v : value) :
  forall level,
    (serializable v = true /\ exists s, serialize v level = Returned s)
    \/ (serializable v = false
        /\ exists e, serialize v level = Thrown e
                     /\ exists ty, e = "Unsupported type: " ++ ty).
Proof.
  induction v as [| | b | n | s | items IH | entries IH | ty]
    using value_induction; intros level;
    try (left; split; [reflexivity | eexists; reflexivity]).
  - assert (Hall : Forall
               (fun a => (serializable a = true
                          /\ exists b, serialize a (S level) = Returned b)
                         \/ (serializable a = false
                             /\ exists e, serialize a (S level) = Thrown e
                                /\ exists ty, e = "Unsupported type: " ++ ty))
               items).
    { eapply Forall_impl; [| exact IH]. intros a Ha. apply Ha. }
    apply mapM_dichotomy in Hall. cbn [serializable].
    destruct items as [| v0 items];
      [left; split; [reflexivity | eexists; reflexivity] |].
    cbn [serialize]. fold (mapM (fun v => serialize v (S level))).
    change (bind (serialize v0 (S level)) _)
      with (mapM (fun v => serialize v (S level)) (v0 :: items)).
    destruct Hall as [[Hok (bs & Hbs & _)] | [Hok (e & He & HQ)]].
    + left. split; [exact Hok |]. rewrite Hbs. eexists; reflexivity.
    + right. split; [exact Hok |]. rewrite He. now exists e.
  - set (f := fun kv : string * value =>
                let key := if isBareKey (fst kv) then fst kv
                           else "[" ++ DQ ++ fst kv ++ DQ ++ "]" in
                s <- serialize (snd kv) (S level) ;;
                Returned (key ++ " = " ++ s)).
    assert (Hall : Forall
               (fun a => (serializable (snd a) = true
                          /\ exists b, f a = Returned b)
                         \/ (serializable (snd a) = false
                             /\ exists e, f a = Thrown e
                                /\ exists ty, e = "Unsupported type: " ++ ty))
               entries).
    { eapply Forall_impl; [| exact IH]. intros a Ha.
      destruct (Ha (S level)) as [[Hok [s Hs]] | [Hok (e & He & HQ)]].
      - left. split; [exact Hok |]. unfold f. rewrite Hs.
        eexists; reflexivity.
      - right. split; [exact Hok |]. unfold f. rewrite He. now exists e. }
    apply (mapM_dichotomy f (fun kv => serializable (snd kv))) in Hall.
    cbn [serializable serialize]. fold (mapM f).
    change (mapM _ entries) with (mapM f entries).
    destruct Hall as [[Hok (bs & Hbs & _)] | [Hok (e & He & HQ)]].
    + left. split; [exact Hok |]. rewrite Hbs. cbn [bind].
      destruct bs; eexists; reflexivity.
    + right. split; [exact Hok |]. rewrite He. now exists e.
  - right. split; [reflexivity |]. eexists. split; [reflexivity |].
    now exists ty.
Qed.

(** X7: [transpile] returns exactly on the values built from [null],
    [undefined], booleans, numbers, strings, arrays and plain objects;
    on any value that holds something else, at whatever depth, it throws
    [Unsupported type: ...] and nothing else. *)
Theorem transpile_returns_iff (object : value) (indentLevel : nat) :
  ((exists code, transpile object indentLevel = Returned code)
   <-> serializable object = true)
  /\ ((exists ty, transpile object indentLevel
                  = Thrown ("Unsupported type: " ++ ty))
      <-> serializable object = false).
Proof.
  unfold transpile.
  destruct (serialize_dichotomy object indentLevel)
    as [[Hok [s Hs]] | [Hok (e & He & ty & ->)]]; rewrite Hok.
  - split; split; try discriminate; try (intros _; now exists s).
    + reflexivity.
    + intros [ty Hty]. congruence.
  - split; split; try discriminate; try reflexivity.
    + intros [s Hs]. congruence.
    + intros _. now exists ty.
Qed.

(* ------------------------------------------------------------------ *)
(** ** String literals and empty tables *)

Lemma quotesGuarded_weaken (s : string) (afterBackslash : bool) :
  quotesGuarded false s = true -> quotesGuarded afterBackslash s = true.
Proof.
  destruct s as [| c s]; [reflexivity |]. cbn [quotesGuarded].
  destruct (Ascii.eqb c dq); [discriminate | now destruct afterBackslash].
Qed.

Lemma escapeQuotes_step (c : ascii) (s : string) :
  escapeQuotes (String c s)
  = if Ascii.eqb c dq then String "\" (String dq (escapeQuotes s))
    else String c (escapeQuotes s).
Proof.
  unfold escapeQuotes. cbn [replaceAll]. now destruct (Ascii.eqb c dq).
Qed.

(** X8: in the text [transpile] puts between the quotes of a string
    literal, every double quote stands right after a backslash the
    serializer added: each quote of the source string grows into two
    characters, every other character is copied (a backslash too, without
    a second one), and a string without quotes is copied as it is. *)
Theorem escapeQuotes_guards_quotes (s : string) :
  quotesGuarded false (escapeQuotes s) = true
  /\ String.length (escapeQuotes s) = (String.length s + countQuotes s)%nat
  /\ (escapeQuotes s = s <-> hasQuote s = false)
  /\ transpile (VStr s) 0 = Returned (DQ ++ escapeQuotes s ++ DQ).
Proof.
  split; [| split; [| split; [| reflexivity]]].
  - induction s as [| c s IH]; [reflexivity |].
    rewrite escapeQuotes_step. destruct (Ascii.eqb c dq) eqn:Hc.
    + cbn [quotesGuarded]. change (Ascii.eqb "\" dq) with false.
      change (Ascii.eqb "\" "\") with true.
      rewrite Ascii.eqb_refl. cbn [andb].
      change (Ascii.eqb dq "\") with false. exact IH.
    + cbn [quotesGuarded]. rewrite Hc. cbn [andb].
      now apply quotesGuarded_weaken.
  - induction s as [| c s IH]; [reflexivity |].
    rewrite escapeQuotes_step. cbn [countQuotes].
    destruct (Ascii.eqb c dq); cbn [String.length]; rewrite IH; lia.
  - unfold hasQuote. induction s as [| c s IH]; [split; reflexivity |].
    rewrite escapeQuotes_step. cbn [allChars].
    destruct (Ascii.eqb c dq) eqn:Hc; cbn [negb andb].
    + split; [| discriminate]. intros [= Hhead _].
      subst c. discriminate Hc.
    + rewrite <- IH. split; [now intros [= ->] | now intros ->].
Qed.

Lemma normalize_fixed (e : nat) :
  forall m m' e',
    Number.normalize m e = (m', e') -> Number.normalize m' e' = (m', e').
Proof.
  induction e as [| e IH]; intros m m' e' H; cbn [Number.normalize] in H.
  - now injection H as <- <-.
  - destruct (m mod 10 =? 0) eqn:Hm; [now apply (IH (m / 10)) |].
    injection H as <- <-. cbn [Number.normalize]. now rewrite Hm.
Qed.

Lemma lowestTerms_normalized (n : number) :
  isNormalized (lowestTerms n) = true
  /\ Number.toString (lowestTerms n) = Number.toString n.
Proof.
  destruct n as [m e]. unfold lowestTerms, isNormalized, Number.toString.
  cbn [Number.mantissa Number.scale].
  destruct (Number.normalize m e) as [m' e'] eqn:Hn.
  cbn [Number.mantissa Number.scale].
  rewrite (normalize_fixed e m m' e' Hn).
  now rewrite Z.eqb_refl, Nat.eqb_refl.
Qed.

(** A number never prints as the empty string, nor with a brace, a quote
    or a letter in front. *)
Lemma toString_head (n : number) :
  exists c tail, Number.toString n = String c tail /\ isNumChar c = true.
Proof.
  destruct (lowestTerms_normalized n) as [Hnorm <-].
  exact (proj2 (numChars_toString _ Hnorm)).
Qed.

Lemma mapM_cons_returned {A B} (f : A -> outcome B) (a : A) (l : list A)
      (bs : list B) :
  mapM f (a :: l) = Returned bs -> exists b rest, bs = b :: rest.
Proof.
  cbn [mapM]. destruct (f a) as [b | e]; [| discriminate]. cbn [bind].
  match goal with |- context [bind ?m _] => destruct m as [rest | e] end;
    [| discriminate].
  intros [= <-]. now exists b, rest.
Qed.

Lemma block_second (level : nat) (items : list string) :
  exists tail, block level items = String "{" (String nl tail).
Proof. unfold block. eexists. reflexivity. Qed.

(** X9: [transpile] writes the empty table [{}] for an empty array and
    for an object without entries, which the emitted text cannot tell
    apart, and for no other value. *)
Theorem transpile_empty_table_iff (object : value) (indentLevel : nat) :
  transpile object indentLevel = Returned "{}"
  <-> object = VArr [] \/ object = VObj [].
Proof.
  unfold transpile. split.
  - destruct object as [| | b | n | s | items | entries | ty];
      cbn [serialize]; try discriminate.
    + destruct b; discriminate.
    + destruct (toString_head n) as (c & tail & -> & Hc).
      intros [= -> _]. discriminate Hc.
    + destruct items as [| v items]; [now left |].
      fold (mapM (fun v => serialize v (S indentLevel))).
      destruct (mapM _ (v :: items)) as [items' | e]; [| discriminate].
      cbn [bind].
      destruct (block_second indentLevel items') as [tail ->].
      discriminate.
    + destruct entries as [| kv entries]; [now right |].
      match goal with |- context [bind ?m _] =>
        destruct m as [entries' | e] eqn:Hm end; [| discriminate].
      apply mapM_cons_returned in Hm. destruct Hm as (b & rest & ->).
      cbn [bind].
      destruct (block_second indentLevel (b :: rest)) as [tail ->].
      discriminate.
  - intros [-> | ->]; reflexivity.
Qed.

(* ------------------------------------------------------------------ *)
(** ** Induction on scene trees, and the cases of [createNode] *)

Lemma SceneNode_induction (P : SceneNode -> Prop) :
  (forall figmaNode,
      (forall figmaChildren,
          children figmaNode = Some figmaChildren -> Forall P figmaChildren) ->
      P figmaNode) ->
  forall figmaNode, P figmaNode.
Proof.
  intros Hstep.
  refine (fix IH (figmaNode : SceneNode) : P figmaNode := _).
  apply Hstep. destruct figmaNode. cbn [children].
  intros figmaChildren Hkids.
  destruct children0 as [kids |]; [| discriminate Hkids].
  injection Hkids as <-.
  induction kids as [| kid rest IHrest]; constructor;
    [apply IH | exact IHrest].
Qed.

(** The branches of [createNode], by the kind of the node. *)
Lemma createNode_cases (exportAsync : SceneNode -> outcome string)
      (figmaNode : SceneNode) (pf pr ps : bool) :
  (isVectorGroup figmaNode = true
   /\ createNode exportAsync figmaNode pf pr ps
      = match safelyExport exportAsync figmaNode with
        | Thrown e => ([], Thrown e)
        | Returned svg =>
            ([], Returned (mkLayoutNode "Layta.Image" None
                             (imageFields figmaNode pf pr ps svg)))
        end)
  \/ (isVectorGroup figmaNode = false
      /\ isContainerType (type figmaNode) = true
      /\ createNode exportAsync figmaNode pf pr ps
         = match children figmaNode with
           | None => ([], Thrown notIterable)
           | Some figmaChildren =>
               let results :=
                 map (fun c => createNode exportAsync c
                                 (childIsInFrame figmaNode)
                                 (childMainAxisRow figmaNode) true)
                     figmaChildren in
               (diagnostics results,
                Returned (mkLayoutNode "Layta.Node" (Some (survivors results))
                            (containerFields figmaNode pf pr ps)))
           end)
  \/ (isContainerType (type figmaNode) = false
      /\ type figmaNode = "RECTANGLE"
      /\ createNode exportAsync figmaNode pf pr ps
         = ([], Returned (mkLayoutNode "Layta.Node" (Some [])
                            (rectangleFields figmaNode pf pr ps))))
  \/ (isContainerType (type figmaNode) = false
      /\ type figmaNode = "TEXT"
      /\ createNode exportAsync figmaNode pf pr ps
         = match getTextFont figmaNode with
           | Thrown e => ([], Thrown e)
           | Returned (fontName, fontSize) =>
               ([], Returned (mkLayoutNode "Layta.Text" None
                                (textFields figmaNode pf pr ps
                                            fontName fontSize)))
           end)
  \/ (isContainerType (type figmaNode) = false
      /\ type figmaNode <> "RECTANGLE" /\ type figmaNode <> "TEXT"
      /\ createNode exportAsync figmaNode pf pr ps
         = ([], Thrown ("Unsupported type: " ++ type figmaNode))).
Proof.
  rewrite createNode_unfold.
  destruct (isVectorGroup figmaNode) eqn:Hvec; [left; split; reflexivity |].
  right.
  assert (Hcontainer :
            forall inFrame mainAxisRow fields,
              inFrame = childIsInFrame figmaNode ->
              mainAxisRow = childMainAxisRow figmaNode ->
              fields = containerFields figmaNode pf pr ps ->
              container (createNode exportAsync) figmaNode inFrame
                        mainAxisRow fields
              = match children figmaNode with
                | None => ([], Thrown notIterable)
                | Some figmaChildren =>
                    let results :=
                      map (fun c => createNode exportAsync c
                                      (childIsInFrame figmaNode)
                                      (childMainAxisRow figmaNode) true)
                          figmaChildren in
                    (diagnostics results,
                     Returned (mkLayoutNode "Layta.Node"
                                 (Some (survivors results))
                                 (containerFields figmaNode pf pr ps)))
                end).
  { intros inFrame mainAxisRow fields -> -> ->.
    destruct (children figmaNode) as [kids |] eqn:Hkids.
    - now rewrite (container_spec _ _ _ _ _ _ Hkids).
    - unfold container. now rewrite Hkids. }
  unfold isContainerType, childIsInFrame, childMainAxisRow, containerFields
    in *.
  cbn [existsb]. rewrite orb_false_r.
  destruct (type figmaNode =? "FRAME")%string eqn:Hframe.
  { left. split; [reflexivity |]. split; [reflexivity |].
    apply Hcontainer; try reflexivity.
    apply String.eqb_eq in Hframe. now rewrite Hframe. }
  destruct (type figmaNode =? "GROUP")%string eqn:Hgroup.
  { left. split; [reflexivity |]. split; [reflexivity |].
    cbn [orb]. apply Hcontainer; reflexivity. }
  destruct (type figmaNode =? "COMPONENT")%string eqn:Hcomponent.
  { left. split; [reflexivity |]. split; [reflexivity |].
    cbn [orb]. apply Hcontainer; reflexivity. }
  destruct (type figmaNode =? "INSTANCE")%string eqn:Hinstance.
  { left. split; [reflexivity |]. split; [reflexivity |].
    cbn [orb]. apply Hcontainer; reflexivity. }
  right. cbn [orb].
  destruct (type figmaNode =? "RECTANGLE")%string eqn:Hrect.
  { left. apply String.eqb_eq in Hrect. auto. }
  right.
  destruct (type figmaNode =? "TEXT")%string eqn:Htext.
  { left. apply String.eqb_eq in Htext. auto. }
  right. apply String.eqb_neq in Hrect, Htext. auto.
Qed.

(** What the survivors of a loop over children inherit from the
    conversions. *)
Lemma survivors_Forall (P : LayoutNode -> Prop)
      (convert : SceneNode -> built) (figmaChildren : list SceneNode) :
  Forall (fun c => forall log kid, convert c = (log, Returned kid) -> P kid)
         figmaChildren ->
  Forall P (survivors (map convert figmaChildren)).
Proof.
  induction 1 as [| c rest Hc _ IH]; [constructor |].
  unfold survivors in *. cbn [map flat_map].
  destruct (convert c) as [log [kid | e]] eqn:Hconv; cbn [snd app].
  - constructor; [now apply (Hc log) | exact IH].
  - exact IH.
Qed.

Lemma everyNode_intro (Q : LayoutNode -> Prop) (tag : string)
      (kids : list LayoutNode) (fields : list (string * value)) :
  Q (mkLayoutNode tag (Some kids) fields) ->
  Forall (everyNode Q) kids ->
  everyNode Q (mkLayoutNode tag (Some kids) fields).
Proof.
  intros Hroot Hkids. cbn [everyNode nodeChildren]. split; [exact Hroot |].
  clear Hroot. induction Hkids as [| kid rest Hkid _ IH]; [exact I |].
  split; [exact Hkid | exact IH].
Qed.

Lemma everyNode_kids (Q : LayoutNode -> Prop) (tag : string)
      (kids : list LayoutNode) (fields : list (string * value)) :
  everyNode Q (mkLayoutNode tag (Some kids) fields) ->
  Q (mkLayoutNode tag (Some kids) fields) /\ Forall (everyNode Q) kids.
Proof.
  cbn [everyNode nodeChildren]. intros [Hroot Hall]. split; [exact Hroot |].
  clear Hroot. induction kids as [| kid rest IH]; [constructor |].
  destruct Hall as [Hkid Hrest]. constructor; [exact Hkid | now apply IH].
Qed.

(** A property that [createNode] establishes for the node it returns,
    whatever the node and the context, holds all over the built tree. *)
Lemma createNode_everyNode (exportAsync : SceneNode -> outcome string)
      (Q : LayoutNode -> Prop) :
  (forall figmaNode pf pr ps log node,
      createNode exportAsync figmaNode pf pr ps = (log, Returned node) ->
      Q node) ->
  forall figmaNode pf pr ps log node,
    createNode exportAsync figmaNode pf pr ps = (log, Returned node) ->
    everyNode Q node.
Proof.
  intros Hlocal figmaNode.
  induction figmaNode as [figmaNode IH] using SceneNode_induction.
  intros pf pr ps log node Hbuilt.
  pose proof (Hlocal _ _ _ _ _ _ Hbuilt) as Hroot.
  destruct (createNode_cases exportAsync figmaNode pf pr ps)
    as [[_ Hc] | [(_ & _ & Hc) | [(_ & _ & Hc) | [(_ & _ & Hc) | (_ & _ & _ & Hc)]]]];
    rewrite Hc in Hbuilt.
  - destruct (safelyExport exportAsync figmaNode);
      [| discriminate Hbuilt]. injection Hbuilt as <- <-. now split.
  - destruct (children figmaNode) as [kids |] eqn:Hkids; [| discriminate].
    cbv zeta in Hbuilt. injection Hbuilt as <- <-.
    apply everyNode_intro; [exact Hroot |].
    apply survivors_Forall.
    eapply Forall_impl; [| exact (IH kids eq_refl)].
    intros c Hc' log' kid Hkid. exact (Hc' _ _ _ _ _ Hkid).
  - injection Hbuilt as <- <-. now split.
  - destruct (getTextFont figmaNode) as [[fontName fontSize] | e];
      [| discriminate Hbuilt]. injection Hbuilt as <- <-. now split.
  - discriminate.
Qed.

(* ------------------------------------------------------------------ *)
(** ** When [createNode] throws *)

Lemma isVectorGroup_container (figmaNode : SceneNode) :
  isVectorGroup figmaNode = true ->
  isContainerType (type figmaNode) = true
  /\ exists figmaChildren, children figmaNode = Some figmaChildren.
Proof.
  unfold isVectorGroup. intros H. apply andb_prop in H.
  destruct H as [Hty Hkids]. split; [exact Hty |].
  destruct (children figmaNode) as [kids |]; [now exists kids | discriminate].
Qed.

Lemma text_is_no_container (figmaNode : SceneNode) :
  type figmaNode = "TEXT" -> isContainerType (type figmaNode) = false.
Proof. now intros ->. Qed.

(** X10: [createNode] throws in four situations, and in no other: the
    export of a vector group fails (the export's error); a node of a
    container kind has no [children] property (a [TypeError]); the font
    of a text node cannot be read (that error); the node is of a kind
    other than FRAME, GROUP, COMPONENT, INSTANCE, RECTANGLE and TEXT
    ([Unsupported type: ...]).  A call that throws has logged nothing,
    and nothing a child does makes its parent throw. *)
Theorem createNode_throws_iff (exportAsync : SceneNode -> outcome string)
        (figmaNode : SceneNode)
        (parentIsFrame parentIsMainAxisRow parentStretchItems : bool)
        (e : string) :
  ((exists log,
       createNode exportAsync figmaNode parentIsFrame parentIsMainAxisRow
                  parentStretchItems = (log, Thrown e))
   <-> (isVectorGroup figmaNode = true
        /\ safelyExport exportAsync figmaNode = Thrown e)
       \/ (isContainerType (type figmaNode) = true
           /\ children figmaNode = None /\ e = notIterable)
       \/ (type figmaNode = "TEXT" /\ getTextFont figmaNode = Thrown e)
       \/ (isContainerType (type figmaNode) = false
           /\ type figmaNode <> "RECTANGLE" /\ type figmaNode <> "TEXT"
           /\ e = "Unsupported type: " ++ type figmaNode))
  /\ forall log,
       createNode exportAsync figmaNode parentIsFrame parentIsMainAxisRow
                  parentStretchItems = (log, Thrown e) ->
       log = [].
Proof.
  destruct (createNode_cases exportAsync figmaNode parentIsFrame
              parentIsMainAxisRow parentStretchItems)
    as [[Hvec Hc] | [(Hvec & Hty & Hc) | [(Hty & Hrect & Hc)
        | [(Hty & Htext & Hc) | (Hty & Hrect & Htext & Hc)]]]];
    rewrite Hc; clear Hc.
  - destruct (isVectorGroup_container _ Hvec) as [Hty [kids Hkids]].
    destruct (safelyExport exportAsync figmaNode) as [svg | e'] eqn:Hexport;
      (split; [| intros log H; congruence]); split.
    + intros [log H]. discriminate H.
    + intros [[H1 H2] | [(H1 & H2 & H3) | [[H1 H2] | (H1 & H2 & H3 & H4)]]];
        first [ congruence
              | apply text_is_no_container in H1; congruence ].
    + intros [log H]. injection H as _ <-. left. now split.
    + intros [[H1 H2] | [(H1 & H2 & H3) | [[H1 H2] | (H1 & H2 & H3 & H4)]]];
        first [ exists []; congruence
              | congruence
              | apply text_is_no_container in H1; congruence ].
  - destruct (children figmaNode) as [kids |] eqn:Hkids; cbv zeta;
      (split; [| intros log H; congruence]); split.
    + intros [log H]. discriminate H.
    + intros [[H1 H2] | [(H1 & H2 & H3) | [[H1 H2] | (H1 & H2 & H3 & H4)]]];
        first [ congruence
              | apply text_is_no_container in H1; congruence ].
    + intros [log H]. injection H as _ <-. right. left. auto.
    + intros [[H1 H2] | [(H1 & H2 & H3) | [[H1 H2] | (H1 & H2 & H3 & H4)]]];
        first [ exists []; congruence
              | congruence
              | apply text_is_no_container in H1; congruence ].
  - (split; [| intros log H; congruence]); split.
    + intros [log H]. discriminate H.
    + intros [[H1 H2] | [(H1 & H2 & H3) | [[H1 H2] | (H1 & H2 & H3 & H4)]]];
        first [ congruence
              | apply isVectorGroup_container in H1;
                destruct H1 as [H1 _]; congruence ].
  - destruct (getTextFont figmaNode) as [[fontName fontSize] | e'] eqn:Hfont;
      (split; [| intros log H; congruence]); split.
    + intros [log H]. discriminate H.
    + intros [[H1 H2] | [(H1 & H2 & H3) | [[H1 H2] | (H1 & H2 & H3 & H4)]]];
        first [ congruence
              | apply isVectorGroup_container in H1;
                destruct H1 as [H1 _]; congruence ].
    + intros [log H]. injection H as _ <-. right. right. left. now split.
    + intros [[H1 H2] | [(H1 & H2 & H3) | [[H1 H2] | (H1 & H2 & H3 & H4)]]];
        first [ exists []; congruence
              | congruence
              | apply isVectorGroup_container in H1;
                destruct H1 as [H1 _]; congruence ].
  - (split; [| intros log H; congruence]); split.
    + intros [log H]. injection H as _ <-. right. right. right. auto.
    + intros [[H1 H2] | [(H1 & H2 & H3) | [[H1 H2] | (H1 & H2 & H3 & H4)]]];
        first [ exists []; congruence
              | congruence
              | apply isVectorGroup_container in H1;
                destruct H1 as [H1 _]; congruence ].
Qed.

(* ------------------------------------------------------------------ *)
(** ** The emitter accepts every built tree *)

Lemma jsAnd_scalar (a b : value) :
  isScalar a = true -> isScalar b = true -> isScalar (a &&& b) = true.
Proof. unfold jsAnd. now destruct (truthy a). Qed.

Lemma jsOr_scalar (a b : value) :
  isScalar a = true -> isScalar b = true -> isScalar (a ||| b) = true.
Proof. unfold jsOr. now destruct (truthy a). Qed.

Lemma layout_values_scalar (figmaNode : SceneNode) (pf pr ps : bool) :
  isScalar (leftOf figmaNode pf) = true
  /\ isScalar (topOf figmaNode pf) = true
  /\ isScalar (flexDirectionOf figmaNode) = true
  /\ isScalar (flexWrapOf figmaNode) = true
  /\ isScalar (justifyContentOf figmaNode) = true
  /\ isScalar (alignItemsOf figmaNode) = true
  /\ isScalar (ofOption VNum (itemSpacing figmaNode)) = true
  /\ isScalar (widthOf figmaNode pr ps) = true
  /\ isScalar (heightOf figmaNode pr ps) = true
  /\ isScalar (colorValue (getFillColor figmaNode)) = true
  /\ isScalar (colorValue (getStrokeColor figmaNode)) = true
  /\ isScalar (colorValue (getTextColor figmaNode)) = true.
Proof.
  unfold leftOf, topOf, flexDirectionOf, flexWrapOf, justifyContentOf,
    alignItemsOf, widthOf, heightOf, colorValue, ofOption, strIs.
  repeat split;
    repeat first [apply jsOr_scalar | apply jsAnd_scalar];
    try reflexivity.
  - now destruct (_ =? _)%string.
  - now destruct (_ =? _)%string.
  - now destruct (itemSpacing figmaNode).
  - now destruct (getFillColor figmaNode).
  - now destruct (getStrokeColor figmaNode).
  - now destruct (getTextColor figmaNode).
Qed.

Lemma emittable_scalar (k : string) (v : value) :
  (k =? "font")%string = false -> (k =? "material")%string = false ->
  isScalar v = true -> emittableField (k, v) = true.
Proof.
  intros Hfont Hmat Hv. unfold emittableField. cbn [fst snd].
  now rewrite Hfont, Hmat.
Qed.

Lemma styleKey_emittable (k : string) (v : number) :
  isStyleKey k = true -> emittableField (k, VNum v) = true.
Proof.
  intros Hk. unfold isStyleKey, styleKeys in Hk. cbn [existsb] in Hk.
  rewrite orb_false_r in Hk.
  repeat (apply orb_prop in Hk; destruct Hk as [Hk | Hk]);
    apply String.eqb_eq in Hk; subst k; reflexivity.
Qed.

Lemma setIfPositive_key (k : string) (v : number) :
  isStyleKey k = true ->
  Forall (fun kv => isStyleKey (fst kv) = true) (setIfPositive k v).
Proof.
  intros Hk. unfold setIfPositive.
  destruct (Number.gtb v (int 0)); repeat constructor. exact Hk.
Qed.

Lemma extractor_keys (figmaNode : SceneNode) :
  Forall (fun kv => isStyleKey (fst kv) = true) (getBorderRadiusProps figmaNode)
  /\ Forall (fun kv => isStyleKey (fst kv) = true)
            (getStrokeWeightProps figmaNode)
  /\ Forall (fun kv => isStyleKey (fst kv) = true) (getPaddingProps figmaNode).
Proof.
  unfold getBorderRadiusProps, getStrokeWeightProps, getPaddingProps.
  split; [| split].
  - destruct (cornerRadii figmaNode) as [[a b c d] |]; [| constructor].
    destruct (_ && _).
    + repeat constructor.
    + repeat (apply Forall_app; split); now apply setIfPositive_key.
  - destruct (strokeWeights figmaNode) as [[a b c d] |]; [| constructor].
    destruct (_ && _).
    + repeat constructor.
    + repeat (apply Forall_app; split); now apply setIfPositive_key.
  - destruct (paddings figmaNode) as [[a b c d] |]; [| constructor].
    destruct (_ && _).
    + repeat constructor.
    + repeat (apply Forall_app; split); now apply setIfPositive_key.
Qed.

Lemma spread_emittable (p : props) :
  Forall (fun kv => isStyleKey (fst kv) = true) p ->
  Forall (fun kv => emittableField kv = true) (spread p).
Proof.
  unfold spread. induction 1 as [| [k v] p Hk _ IH]; cbn [map fst snd];
    constructor; [now apply styleKey_emittable | exact IH].
Qed.

Lemma forallb_Forall_true {A} (f : A -> bool) (l : list A) :
  forallb f l = true <-> Forall (fun a => f a = true) l.
Proof.
  induction l as [| a l IH]; cbn [forallb].
  - split; [constructor | reflexivity].
  - rewrite andb_true_iff, IH. split.
    + intros [Ha Hl]. now constructor.
    + intros H. inversion H. auto.
Qed.

(** Every entry of every object literal of [createNode] is one the
    emitter accepts. *)
Lemma createNode_emittableFields (exportAsync : SceneNode -> outcome string)
      (figmaNode : SceneNode) (pf pr ps : bool)
      (log : list string) (node : LayoutNode) :
  createNode exportAsync figmaNode pf pr ps = (log, Returned node) ->
  emittableFields node.
Proof.
  intros Hbuilt.
  destruct (layout_values_scalar figmaNode pf pr ps)
    as (Hleft & Htop & Hdir & Hwrap & Hjust & Halign & Hgap & Hwidth
        & Hheight & Hfill & Hstroke & Htext).
  destruct (extractor_keys figmaNode) as (Hradius & Hweight & Hpadding).
  apply spread_emittable in Hradius, Hweight, Hpadding.
  assert (Hcommon : Forall (fun kv => emittableField kv = true)
                           (commonFields figmaNode pf)).
  { unfold commonFields.
    repeat (apply Forall_cons; [apply emittable_scalar;
                                  [reflexivity | reflexivity |] |]);
      try reflexivity; try assumption. constructor. }
  assert (Hflex : Forall (fun kv => emittableField kv = true)
                         (flexFields figmaNode)).
  { unfold flexFields.
    repeat (apply Forall_cons; [apply emittable_scalar;
                                  [reflexivity | reflexivity |] |]);
      try assumption. constructor. }
  assert (Hsize : Forall (fun kv => emittableField kv = true)
                         (sizeFields figmaNode pr ps)).
  { unfold sizeFields.
    repeat (apply Forall_cons; [apply emittable_scalar;
                                  [reflexivity | reflexivity |] |]);
      try assumption. constructor. }
  unfold emittableFields. apply forallb_Forall_true.
  destruct (createNode_cases exportAsync figmaNode pf pr ps)
    as [[_ Hc] | [(_ & _ & Hc) | [(_ & _ & Hc)
        | [(_ & _ & Hc) | (_ & _ & _ & Hc)]]]];
    rewrite Hc in Hbuilt; clear Hc.
  - destruct (safelyExport exportAsync figmaNode) as [svg | e];
      [| discriminate Hbuilt]. injection Hbuilt as <- <-.
    cbn [fields]. unfold imageFields.
    repeat (apply Forall_app; split); try assumption;
      repeat (apply Forall_cons;
              [first [ apply emittable_scalar;
                       [reflexivity | reflexivity
                        | first [assumption | reflexivity]]
                     | reflexivity ] |]);
      constructor.
  - destruct (children figmaNode) as [kids |]; [| discriminate Hbuilt].
    cbv zeta in Hbuilt. injection Hbuilt as <- <-.
    cbn [fields]. unfold containerFields, frameFields, groupFields,
      instanceFields.
    destruct (type figmaNode =? "FRAME")%string;
      [| destruct ((type figmaNode =? "GROUP")%string
                   || (type figmaNode =? "COMPONENT")%string)];
      repeat (apply Forall_app; split); try assumption;
      repeat (apply Forall_cons;
              [first [ apply emittable_scalar;
                       [reflexivity | reflexivity
                        | first [assumption | reflexivity]]
                     | reflexivity ] |]);
      constructor.
  - injection Hbuilt as <- <-.
    cbn [fields]. unfold rectangleFields.
    repeat (apply Forall_app; split); try assumption;
      repeat (apply Forall_cons;
              [first [ apply emittable_scalar;
                       [reflexivity | reflexivity
                        | first [assumption | reflexivity]]
                     | reflexivity ] |]);
      constructor.
  - destruct (getTextFont figmaNode) as [[fontName fontSize] | e];
      [| discriminate Hbuilt]. injection Hbuilt as <- <-.
    cbn [fields]. unfold textFields.
    repeat (apply Forall_app; split); try assumption;
      repeat (apply Forall_cons;
              [first [ apply emittable_scalar;
                       [reflexivity | reflexivity
                        | first [assumption | reflexivity]]
                     | reflexivity ] |]);
      constructor.
  - discriminate Hbuilt.
Qed.

Lemma emitProp_emittable (kv : string * value) :
  emittableField kv = true -> exists s, emitProp kv = Returned s.
Proof.
  destruct kv as [k v]. unfold emittableField, emitProp, transpile.
  cbn [fst snd].
  destruct ((k =? "font")%string || (k =? "material")%string).
  - destruct v as [| | | | s | | |]; try discriminate. intros _.
    destruct (stripSingleQuotes s); eexists; reflexivity.
  - destruct v; try discriminate; intros _; eexists; reflexivity.
Qed.

Lemma mapM_total {A B} (f : A -> outcome B) (l : list A) :
  Forall (fun a => exists b, f a = Returned b) l ->
  exists bs, mapM f l = Returned bs.
Proof.
  induction 1 as [| a l [b Hb] _ [bs Hbs]]; [now exists [] |].
  cbn [mapM]. fold (mapM f). rewrite Hb, Hbs. now exists (b :: bs).
Qed.

Lemma buildTree_total (node : LayoutNode) :
  everyNode emittableFields node ->
  forall level, exists code, buildTree node level = Returned code.
Proof.
  assert (Hprops : forall fields,
             forallb emittableField fields = true ->
             exists props,
               mapM emitProp
                    (filter (fun kv => negb (isStructural kv)) fields)
               = Returned props).
  { intros fields Hfields. apply mapM_total.
    apply forallb_Forall_true in Hfields.
    apply Forall_forall. intros kv Hin. apply filter_In in Hin.
    destruct Hin as [Hin _]. apply emitProp_emittable.
    exact (proj1 (Forall_forall _ _) Hfields kv Hin). }
  induction node as [tag fields | tag kids fields IH]
    using LayoutNode_induction; intros Hall level; rewrite buildTree_step.
  - destruct Hall as [Hroot _].
    destruct (Hprops fields Hroot) as [props ->]. eexists; reflexivity.
  - apply everyNode_kids in Hall. destruct Hall as [Hroot Hkids].
    destruct (Hprops fields Hroot) as [props ->]. cbn [bind].
    assert (Hmap : exists codes,
               mapM (fun child => buildTree child (S level)) kids
               = Returned codes).
    { apply mapM_total. apply Forall_forall. intros kid Hin.
      apply (proj1 (Forall_forall _ _) IH kid Hin).
      exact (proj1 (Forall_forall _ _) Hkids kid Hin). }
    destruct Hmap as [codes Hcodes].
    destruct kids as [| kid rest]; [eexists; reflexivity |].
    rewrite Hcodes. eexists; reflexivity.
Qed.

(** X11: the emitter never fails on a tree the builder returned: for
    every scene node, every context and every host, if [createNode]
    returns a tree then [buildTree] returns code for it, at every
    indentation level.  (No field of a built node holds an array, an
    object or a value [transpile] rejects, and [font] and [material] are
    always strings.) *)
Theorem built_trees_are_emitted (exportAsync : SceneNode -> outcome string)
        (figmaNode : SceneNode)
        (parentIsFrame parentIsMainAxisRow parentStretchItems : bool)
        (log : list string) (tree : LayoutNode) (level : nat) :
  createNode exportAsync figmaNode parentIsFrame parentIsMainAxisRow
             parentStretchItems = (log, Returned tree) ->
  exists code, buildTree tree level = Returned code.
Proof.
  intros Hbuilt. apply buildTree_total.
  apply (createNode_everyNode exportAsync emittableFields
           (createNode_emittableFields exportAsync)
           _ _ _ _ _ _ Hbuilt).
Qed.

Lemma built_trees_are_emitted_witness :
  exists code, buildTree (treeOf card) 0 = Returned code.
Proof.
  apply (built_trees_are_emitted exportFails card false true true
           ["export failed"; "Unsupported type: ELLIPSE"] (treeOf card) 0).
  vm_compute. reflexivity.
Defined.

(* ------------------------------------------------------------------ *)
(** ** The entry point *)

Lemma createNode_thrown_log (exportAsync : SceneNode -> outcome string)
      (figmaNode : SceneNode) (pf pr ps : bool) (log : list string)
      (e : string) :
  createNode exportAsync figmaNode pf pr ps = (log, Thrown e) -> log = [].
Proof.
  destruct (createNode_cases exportAsync figmaNode pf pr ps)
    as [[_ Hc] | [(_ & _ & Hc) | [(_ & _ & Hc)
        | [(_ & _ & Hc) | (_ & _ & _ & Hc)]]]];
    rewrite Hc; clear Hc.
  - destruct (safelyExport exportAsync figmaNode); congruence.
  - destruct (children figmaNode); cbv zeta; congruence.
  - congruence.
  - destruct (getTextFont figmaNode) as [[fontName fontSize] | e'];
      congruence.
  - congruence.
Qed.

(** X12: a run of the plugin ends in one of three ways.  With nothing
    selected it does nothing.  Otherwise only the first selected node
    counts: when [createNode] returns a tree for it, the window is shown
    and exactly one message is posted, the emitted code of that tree
    between the fixed first and last lines, and the log holds what the
    children's failures left; when [createNode] throws, no window is
    shown, nothing is posted and the error is the only thing logged.
    The window is never shown without a message. *)
Theorem main_outcome (exportAsync : SceneNode -> outcome string)
        (selection : list SceneNode) :
  match selection with
  | [] => main exportAsync selection = mkSession false [] []
  | first :: others =>
      main exportAsync selection = main exportAsync [first]
      /\ ((exists log tree code,
              createNode exportAsync first false true true
              = (log, Returned tree)
              /\ buildTree tree 0 = Returned code
              /\ main exportAsync selection
                 = mkSession true [preamble ++ code ++ trailer] log)
          \/ (exists e,
                 createNode exportAsync first false true true
                 = ([], Thrown e)
                 /\ main exportAsync selection = mkSession false [] [e]))
  end.
Proof.
  destruct selection as [| first others]; [reflexivity |].
  split; [reflexivity |]. unfold main.
  destruct (createNode exportAsync first false true true)
    as [log [tree | e]] eqn:Hbuilt.
  - left.
    destruct (buildTree_total tree
                (createNode_everyNode exportAsync emittableFields
                   (createNode_emittableFields exportAsync)
                   _ _ _ _ _ _ Hbuilt) 0) as [code Hcode].
    exists log, tree, code. rewrite Hcode. auto.
  - right. exists e.
    rewrite (createNode_thrown_log _ _ _ _ _ _ _ Hbuilt). auto.
Qed.

Example main_card :
  match buildTree (treeOf card) 0 with
  | Returned code =>
      main exportFails [card; ellipse]
      = mkSession true [preamble ++ code ++ trailer]
                  ["export failed"; "Unsupported type: ELLIPSE"]
  | Thrown _ => False
  end
  /\ main exportFails [ellipse; card]
     = mkSession false [] ["Unsupported type: ELLIPSE"].
Proof. split; vm_compute; reflexivity. Qed.

(* ------------------------------------------------------------------ *)
(** ** [safelyExport] *)

Lemma allVisible_update (figmaNode : SceneNode) :
  allVisible (updateEffectiveVisibility figmaNode) = true.
Proof.
  induction figmaNode as [figmaNode IH] using SceneNode_induction.
  destruct figmaNode. cbn [children] in IH.
  cbn [updateEffectiveVisibility allVisible visible children andb].
  destruct children0 as [kids |]; [| reflexivity]. cbn [option_map].
  specialize (IH kids eq_refl).
  induction IH as [| kid rest Hkid _ IHrest]; [reflexivity |].
  cbn [map forallb]. now rewrite Hkid, IHrest.
Qed.

Lemma update_visible_fixed (figmaNode : SceneNode) :
  allVisible figmaNode = true ->
  updateEffectiveVisibility figmaNode = figmaNode.
Proof.
  induction figmaNode as [figmaNode IH] using SceneNode_induction.
  destruct figmaNode. cbn [children] in IH.
  cbn [updateEffectiveVisibility allVisible visible children].
  intros H. apply andb_prop in H. destruct H as [-> Hkids].
  f_equal.
  destruct children0 as [kids |]; [| reflexivity]. cbn [option_map].
  f_equal. specialize (IH kids eq_refl).
  induction IH as [| kid rest Hkid _ IHrest]; [reflexivity |].
  cbn [forallb] in Hkids. apply andb_prop in Hkids.
  destruct Hkids as [Hk Hr]. cbn [map].
  now rewrite (Hkid Hk), (IHrest Hr).
Qed.

Lemma removeNewlines_clean (s : string) :
  noLineFeed (removeNewlines s) = true
  /\ (noLineFeed s = true -> removeNewlines s = s).
Proof.
  unfold noLineFeed, removeNewlines.
  induction s as [| c s [IHclean IHsame]]; [split; reflexivity |].
  cbn [replaceAll allChars]. destruct (Ascii.eqb c nl) eqn:Hc.
  - split; [exact IHclean | discriminate].
  - cbn [append allChars negb andb]. rewrite Hc. cbn [negb andb].
    split; [exact IHclean | now intros H; rewrite (IHsame H)].
Qed.

(** X13: what [safelyExport] hands to the export service is a copy of
    the node with every descendant made visible and the root moved to
    the origin, and otherwise unchanged: a node that is fully visible
    and at the origin is exported as it is.  When the service returns,
    the result is its answer without line feeds, every other character
    kept; when it fails, the error is passed on. *)
Theorem safelyExport_clone (exportAsync : SceneNode -> outcome string)
        (figmaNode : SceneNode) :
  let clone := moveToOrigin (updateEffectiveVisibility figmaNode) in
  allVisible clone = true
  /\ x clone = int 0 /\ y clone = int 0
  /\ type clone = type figmaNode
  /\ width clone = width figmaNode /\ height clone = height figmaNode
  /\ (allVisible figmaNode = true ->
      x figmaNode = int 0 -> y figmaNode = int 0 -> clone = figmaNode)
  /\ (forall svg,
         exportAsync clone = Returned svg ->
         safelyExport exportAsync figmaNode = Returned (removeNewlines svg)
         /\ noLineFeed (removeNewlines svg) = true
         /\ (noLineFeed svg = true -> removeNewlines svg = svg))
  /\ (forall e,
         exportAsync clone = Thrown e ->
         safelyExport exportAsync figmaNode = Thrown e).
Proof.
  intros clone.
  assert (Hvisible : allVisible clone = true).
  { pose proof (allVisible_update figmaNode) as H. subst clone.
    destruct (updateEffectiveVisibility figmaNode). exact H. }
  split; [exact Hvisible |].
  subst clone.
  split; [now destruct (updateEffectiveVisibility figmaNode) |].
  split; [now destruct (updateEffectiveVisibility figmaNode) |].
  split; [now destruct figmaNode |].
  split; [now destruct figmaNode |].
  split; [now destruct figmaNode |].
  split.
  { intros Hall Hx Hy. rewrite (update_visible_fixed _ Hall).
    destruct figmaNode. cbn [x y] in Hx, Hy. subst. reflexivity. }
  unfold safelyExport. split.
  - intros svg ->. cbn [bind]. split; [reflexivity |].
    apply removeNewlines_clean.
  - intros e ->. reflexivity.
Qed.

(** Hidden parts of a vector group are drawn: the service sees them
    visible. *)
Example safelyExport_icon :
  drawing icon = "<icon/>" ++ NL ++ "<path/>" ++ NL
  /\ safelyExport draws icon = Returned "<icon/><path/><shadow/>".
Proof. split; reflexivity. Qed.

(* ------------------------------------------------------------------ *)
(** ** The shape of built nodes *)

Lemma isSubsequence_steps (l' : list string) :
  (forall l x, isSubsequence l l' = true -> isSubsequence l (x :: l') = true)
  /\ (forall a t, isSubsequence (a :: t) l' = true -> isSubsequence t l' = true).
Proof.
  induction l' as [| b t' [IHcons IHtail]].
  - split; [| discriminate]. intros [| a t] x H; [reflexivity | discriminate].
  - assert (Htail : forall a t,
               isSubsequence (a :: t) (b :: t') = true ->
               isSubsequence t (b :: t') = true).
    { intros a t. cbn [isSubsequence].
      destruct (a =? b)%string; intros H; apply IHcons; [exact H |].
      now apply (IHtail a). }
    split; [| exact Htail].
    intros [| a t] x H; [reflexivity |].
    change (isSubsequence (a :: t) (x :: b :: t'))
      with (if (a =? x)%string then isSubsequence t (b :: t')
            else isSubsequence (a :: t) (b :: t')).
    destruct (a =? x)%string; [now apply (Htail a) | exact H].
Qed.

Lemma isSubsequence_In (l' l : list string) (x : string) :
  isSubsequence l l' = true -> In x l -> In x l'.
Proof.
  revert l. induction l' as [| b t' IH]; intros [| a t] H Hin;
    try contradiction; try discriminate.
  cbn [isSubsequence] in H. destruct (a =? b)%string eqn:Hab.
  - apply String.eqb_eq in Hab. subst b.
    destruct Hin as [<- | Hin]; [now left | right; now apply (IH t)].
  - right. now apply (IH (a :: t)).
Qed.

Lemma isSubsequence_NoDup (l' l : list string) :
  isSubsequence l l' = true -> NoDup l' -> NoDup l.
Proof.
  revert l. induction l' as [| b t' IH]; intros [| a t] H Hnodup;
    try constructor; try discriminate.
  - cbn [isSubsequence] in H. inversion Hnodup as [| ? ? Hb Ht]; subst.
    destruct (a =? b)%string eqn:Hab.
    + apply String.eqb_eq in Hab. subst b. intros Hin.
      apply Hb. now apply (isSubsequence_In t' t).
    + assert (Hall : NoDup (a :: t)) by now apply IH.
      now inversion Hall.
  - cbn [isSubsequence] in H. inversion Hnodup as [| ? ? Hb Ht]; subst.
    destruct (a =? b)%string eqn:Hab.
    + now apply IH.
    + assert (Hall : NoDup (a :: t)) by now apply IH.
      now inversion Hall.
Qed.

Lemma isSubsequence_app (a' a b b' : list string) :
  isSubsequence a a' = true -> isSubsequence b b' = true ->
  isSubsequence (a ++ b) (a' ++ b') = true.
Proof.
  revert a. induction a' as [| x t' IH]; intros [| y s] Ha Hb;
    try discriminate.
  - exact Hb.
  - cbn [app]. apply (proj1 (isSubsequence_steps _)).
    apply (IH []); [now destruct t' | exact Hb].
  - cbn [isSubsequence] in Ha. cbn [app isSubsequence].
    destruct (y =? x)%string.
    + now apply IH.
    + now apply (IH (y :: s)).
Qed.

Lemma spread_keys (p : props) : map fst (spread p) = map fst p.
Proof. unfold spread. rewrite map_map. reflexivity. Qed.

Lemma extractor_order (figmaNode : SceneNode) :
  isSubsequence (map fst (getStrokeWeightProps figmaNode)) weightKeys = true
  /\ isSubsequence (map fst (getBorderRadiusProps figmaNode)) radiusKeys = true
  /\ isSubsequence (map fst (getPaddingProps figmaNode)) paddingKeys = true.
Proof.
  unfold getBorderRadiusProps, getStrokeWeightProps, getPaddingProps.
  split; [| split].
  - destruct (strokeWeights figmaNode) as [[a b c d] |]; [| reflexivity].
    destruct (_ && _); [reflexivity |]. unfold setIfPositive.
    destruct (Number.gtb a (int 0)), (Number.gtb b (int 0)),
      (Number.gtb c (int 0)), (Number.gtb d (int 0)); reflexivity.
  - destruct (cornerRadii figmaNode) as [[a b c d] |]; [| reflexivity].
    destruct (_ && _); [reflexivity |]. unfold setIfPositive.
    destruct (Number.gtb a (int 0)), (Number.gtb b (int 0)),
      (Number.gtb c (int 0)), (Number.gtb d (int 0)); reflexivity.
  - destruct (paddings figmaNode) as [[a b c d] |]; [| reflexivity].
    destruct (_ && _); [reflexivity |]. unfold setIfPositive.
    destruct (Number.gtb a (int 0)), (Number.gtb b (int 0)),
      (Number.gtb c (int 0)), (Number.gtb d (int 0)); reflexivity.
Qed.

(** The keys of a built node, piece by piece. *)
Lemma createNode_keys (exportAsync : SceneNode -> outcome string)
      (figmaNode : SceneNode) (pf pr ps : bool)
      (log : list string) (node : LayoutNode) :
  createNode exportAsync figmaNode pf pr ps = (log, Returned node) ->
  exists mid paints W R P,
    keys node
    = (commonKeys ++ mid ++ sizeKeys ++ paints ++ W ++ R ++ P)%list
    /\ isSubsequence mid (flexKeys ++ ["text"])%list = true
    /\ isSubsequence paints paintKeys = true
    /\ isSubsequence W weightKeys = true
    /\ isSubsequence R radiusKeys = true
    /\ isSubsequence P paddingKeys = true.
Proof.
  intros Hbuilt.
  destruct (extractor_order figmaNode) as (HW & HR & HP).
  destruct (createNode_cases exportAsync figmaNode pf pr ps)
    as [[_ Hc] | [(_ & _ & Hc) | [(_ & _ & Hc)
        | [(_ & _ & Hc) | (_ & _ & _ & Hc)]]]];
    rewrite Hc in Hbuilt; clear Hc.
  - destruct (safelyExport exportAsync figmaNode) as [svg | e];
      [| discriminate Hbuilt]. injection Hbuilt as <- <-.
    exists [], ["foregroundColor"; "material"], [], [], [].
    repeat split.
  - destruct (children figmaNode) as [kids |]; [| discriminate Hbuilt].
    cbv zeta in Hbuilt. injection Hbuilt as <- <-.
    unfold keys. cbn [fields]. unfold containerFields.
    destruct (type figmaNode =? "FRAME")%string;
      [| destruct ((type figmaNode =? "GROUP")%string
                   || (type figmaNode =? "COMPONENT")%string)].
    + exists flexKeys, ["fillColor"; "strokeColor"],
        (map fst (getStrokeWeightProps figmaNode)),
        (map fst (getBorderRadiusProps figmaNode)),
        (map fst (getPaddingProps figmaNode)).
      split; [| repeat split; assumption].
      unfold frameFields. rewrite !map_app, !spread_keys. reflexivity.
    + exists [], [], [], [], []. repeat split.
    + exists flexKeys, ["backgroundColor"; "strokeColor"],
        (map fst (getStrokeWeightProps figmaNode)),
        (map fst (getBorderRadiusProps figmaNode)), [].
      split; [| repeat split; assumption].
      unfold instanceFields. rewrite !map_app, !spread_keys.
      rewrite app_nil_r. reflexivity.
  - injection Hbuilt as <- <-.
    exists [], ["backgroundColor"; "strokeColor"],
      (map fst (getStrokeWeightProps figmaNode)),
      (map fst (getBorderRadiusProps figmaNode)), [].
    split; [| repeat split; assumption].
    unfold keys. cbn [fields]. unfold rectangleFields.
    rewrite !map_app, !spread_keys. rewrite app_nil_r. reflexivity.
  - destruct (getTextFont figmaNode) as [[fontName fontSize] | e];
      [| discriminate Hbuilt]. injection Hbuilt as <- <-.
    exists ["text"], ["foregroundColor"; "font"; "wordWrap"], [], [], [].
    repeat split.
  - discriminate Hbuilt.
Qed.

Lemma lookup_In (k : string) (entries : list (string * value)) :
  In k (map fst entries) -> lookup k entries <> None.
Proof.
  induction entries as [| [k' v] rest IH]; [contradiction |].
  cbn [map fst In lookup]. destruct (k' =? k)%string eqn:Hk; [discriminate |].
  intros [-> | Hin]; [| now apply IH].
  now rewrite String.eqb_refl in Hk.
Qed.

Lemma keyOrder_NoDup : NoDup keyOrder.
Proof.
  unfold keyOrder, commonKeys, flexKeys, sizeKeys, paintKeys, weightKeys,
    radiusKeys, paddingKeys. cbn [app].
  repeat (constructor;
          [cbn [In]; intros H;
           repeat (destruct H as [H | H]; [discriminate H |]); exact H |]).
  constructor.
Qed.

Lemma keyOrder_not_structural (k : string) (v : value) :
  In k keyOrder -> isStructural (k, v) = false.
Proof.
  unfold keyOrder, commonKeys, flexKeys, sizeKeys, paintKeys, weightKeys,
    radiusKeys, paddingKeys. cbn [app In]. intros H.
  repeat (destruct H as [<- | H]; [reflexivity |]). contradiction.
Qed.

Lemma createNode_wellFormed (exportAsync : SceneNode -> outcome string)
      (figmaNode : SceneNode) (pf pr ps : bool)
      (log : list string) (node : LayoutNode) :
  createNode exportAsync figmaNode pf pr ps = (log, Returned node) ->
  wellFormed node.
Proof.
  intros Hbuilt.
  destruct (createNode_keys _ _ _ _ _ _ _ Hbuilt)
    as (mid & paints & W & R & P & Hkeys & Hmid & Hpaints & HW & HR & HP).
  assert (Horder : isSubsequence (keys node) keyOrder = true).
  { rewrite Hkeys.
    change keyOrder
      with (commonKeys ++ (flexKeys ++ ["text"]) ++ sizeKeys ++ paintKeys
            ++ weightKeys ++ radiusKeys ++ paddingKeys)%list.
    repeat (apply isSubsequence_app; [first [assumption | reflexivity] |]).
    assumption. }
  unfold wellFormed. split; [| split; [| split]].
  - destruct (createNode_cases exportAsync figmaNode pf pr ps)
      as [[_ Hc] | [(_ & _ & Hc) | [(_ & _ & Hc)
          | [(_ & _ & Hc) | (_ & _ & _ & Hc)]]]];
      rewrite Hc in Hbuilt; clear Hc.
    + destruct (safelyExport exportAsync figmaNode);
        [| discriminate Hbuilt]. injection Hbuilt as <- <-. now left.
    + destruct (children figmaNode); [| discriminate Hbuilt].
      cbv zeta in Hbuilt. injection Hbuilt as <- <-. reflexivity.
    + injection Hbuilt as <- <-. reflexivity.
    + destruct (getTextFont figmaNode) as [[fontName fontSize] | e];
        [| discriminate Hbuilt]. injection Hbuilt as <- <-. now right.
    + discriminate Hbuilt.
  - intros k Hk. unfold field. apply lookup_In. fold (keys node).
    rewrite Hkeys. apply in_app_or in Hk. apply in_or_app.
    destruct Hk as [Hk | Hk]; [now left | right].
    apply in_or_app. right. apply in_or_app. now left.
  - exact (isSubsequence_NoDup _ _ Horder keyOrder_NoDup).
  - apply forallb_forall. intros [k v] Hin.
    rewrite (keyOrder_not_structural k v); [reflexivity |].
    apply (isSubsequence_In keyOrder (keys node)); [exact Horder |].
    unfold keys. change k with (fst (k, v)). now apply in_map.
Qed.

(** X14: every node of a tree [createNode] returns, at every depth, has
    the same shape: a [Layta.Node] carries a list of children, a
    [Layta.Image] and a [Layta.Text] carry no [children] property, and
    there is no other constructor; the node has the properties [id],
    [visible], [position], [left], [top], [width] and [height]; no
    property occurs twice, and none is named [constructor] or
    [children], so that [buildTree] emits every one of them. *)
Theorem built_nodes_are_well_formed
        (exportAsync : SceneNode -> outcome string)
        (figmaNode : SceneNode)
        (parentIsFrame parentIsMainAxisRow parentStretchItems : bool)
        (log : list string) (tree : LayoutNode) :
  createNode exportAsync figmaNode parentIsFrame parentIsMainAxisRow
             parentStretchItems = (log, Returned tree) ->
  everyNode wellFormed tree.
Proof.
  apply (createNode_everyNode exportAsync wellFormed
           (createNode_wellFormed exportAsync)).
Qed.

Lemma built_nodes_are_well_formed_witness :
  everyNode wellFormed (treeOf card).
Proof.
  apply (built_nodes_are_well_formed exportFails card false true true
           ["export failed"; "Unsupported type: ELLIPSE"] (treeOf card)).
  vm_compute. reflexivity.
Defined.

(* ------------------------------------------------------------------ *)
(** ** Sizing, and the layout a parent hands down *)

(** X15: besides [FILL], the sizing mode of a node decides its [width]
    (and likewise its [height]) as follows, whatever the parent: [HUG]
    gives ["fit-content"]; [FIXED], or no sizing mode at all, gives the
    measured length when that is not zero; any other mode gives
    [false]. *)
Theorem sizing_by_mode (exportAsync : SceneNode -> outcome string)
        (figmaNode : SceneNode)
        (parentIsFrame parentIsMainAxisRow parentStretchItems : bool)
        (log : list string) (node : LayoutNode) :
  createNode exportAsync figmaNode parentIsFrame parentIsMainAxisRow
             parentStretchItems = (log, Returned node) ->
  (horizontalMode figmaNode = "HUG" ->
   field "width" node = Some (VStr "fit-content"))
  /\ (verticalMode figmaNode = "HUG" ->
      field "height" node = Some (VStr "fit-content"))
  /\ (horizontalMode figmaNode = "FIXED" ->
      Number.truthy (width figmaNode) = true ->
      field "width" node = Some (VNum (width figmaNode)))
  /\ (verticalMode figmaNode = "FIXED" ->
      Number.truthy (height figmaNode) = true ->
      field "height" node = Some (VNum (height figmaNode)))
  /\ (knownMode (horizontalMode figmaNode) = false ->
      field "width" node = Some (VBool false))
  /\ (knownMode (verticalMode figmaNode) = false ->
      field "height" node = Some (VBool false)).
Proof.
  intros Hbuilt.
  destruct (createNode_fields _ _ _ _ _ _ _ Hbuilt) as (_ & _ & _ & Hw & Hh).
  rewrite Hw, Hh. unfold horizontalMode, verticalMode.
  split; [| split; [| split; [| split; [| split]]]].
  - unfold widthOf. intros ->. reflexivity.
  - unfold heightOf. intros ->. reflexivity.
  - intros Hmode Hlen. rewrite widthOf_fixed, Hlen; [reflexivity |].
    destruct (layoutSizingHorizontal figmaNode); [left | right]; congruence.
  - intros Hmode Hlen. rewrite heightOf_fixed, Hlen; [reflexivity |].
    destruct (layoutSizingVertical figmaNode); [left | right]; congruence.
  - unfold widthOf, knownMode. cbn [existsb]. rewrite orb_false_r.
    intros H. apply orb_false_elim in H. destruct H as [Hfixed H].
    apply orb_false_elim in H. destruct H as [Hfill Hhug].
    unfold strIs. rewrite Hfixed, Hfill, Hhug. reflexivity.
  - unfold heightOf, knownMode. cbn [existsb]. rewrite orb_false_r.
    intros H. apply orb_false_elim in H. destruct H as [Hfixed H].
    apply orb_false_elim in H. destruct H as [Hfill Hhug].
    unfold strIs. rewrite Hfixed, Hfill, Hhug. reflexivity.
Qed.

Lemma sizing_by_mode_witness :
  exists node,
    createNode exportFails (paintedRect "line" (int 100) (int 2))
               true true true = ([], Returned node)
    /\ field "width" node = Some (VNum (int 100))
    /\ field "height" node = Some (VStr "fit-content").
Proof.
  eexists. split; [reflexivity |].
  destruct (sizing_by_mode exportFails (paintedRect "line" (int 100) (int 2))
              true true true [] _ eq_refl)
    as (_ & Hhug & Hfixed & _).
  split; [exact (Hfixed eq_refl eq_refl) | exact (Hhug eq_refl)].
Defined.

Lemma childMainAxisRow_rowParent (parent : SceneNode) :
  childMainAxisRow parent = rowParent parent.
Proof.
  unfold childMainAxisRow, rowParent, flexDirectionOf.
  destruct ((type parent =? "GROUP")%string
            || (type parent =? "COMPONENT")%string); [reflexivity |].
  cbn [orb].
  destruct (layoutMode parent) as [mode |]; [| reflexivity].
  unfold strIs, jsAnd, jsOr.
  destruct (mode =? "HORIZONTAL")%string; [reflexivity |].
  cbn [truthy]. now destruct (mode =? "VERTICAL")%string.
Qed.

Lemma survivors_In (convert : SceneNode -> built)
      (figmaChildren : list SceneNode) (c : SceneNode)
      (log : list string) (kid : LayoutNode) :
  In c figmaChildren -> convert c = (log, Returned kid) ->
  In kid (survivors (map convert figmaChildren)).
Proof.
  intros Hin Hconv. unfold survivors. apply in_flat_map.
  exists (convert c). split; [now apply in_map |].
  rewrite Hconv. now left.
Qed.

(** X16: a child is built in the layout of its parent, read off the
    parent's scene node: under a group, a component, or a frame or
    instance whose [layoutMode] is [HORIZONTAL], a child that fills gets
    width ["100%"] and height ["auto"]; under a frame or instance with
    any other layout mode, or none, it gets width ["auto"] and height
    ["100%"].  The child built this way is the one that ends up among
    the children of the parent's node. *)
Theorem children_see_parent_layout
        (exportAsync : SceneNode -> outcome string)
        (parent : SceneNode)
        (parentIsFrame parentIsMainAxisRow parentStretchItems : bool)
        (log : list string) (node : LayoutNode)
        (figmaChildren : list SceneNode) (figmaChild : SceneNode)
        (childLog : list string) (child : LayoutNode) :
  isContainerType (type parent) = true ->
  isVectorGroup parent = false ->
  children parent = Some figmaChildren ->
  In figmaChild figmaChildren ->
  createNode exportAsync parent parentIsFrame parentIsMainAxisRow
             parentStretchItems = (log, Returned node) ->
  createNode exportAsync figmaChild (type parent =? "FRAME")%string
             (rowParent parent) true = (childLog, Returned child) ->
  (exists kids, nodeChildren node = Some kids /\ In child kids)
  /\ (layoutSizingHorizontal figmaChild = Some "FILL" ->
      field "width" child
      = Some (VStr (if rowParent parent then "100%" else "auto")))
  /\ (layoutSizingVertical figmaChild = Some "FILL" ->
      field "height" child
      = Some (VStr (if rowParent parent then "auto" else "100%"))).
Proof.
  intros Hty Hvec Hkids Hin Hparent Hchild.
  destruct (createNode_container exportAsync parent parentIsFrame
              parentIsMainAxisRow parentStretchItems figmaChildren
              Hty Hvec Hkids) as [fields Hnode].
  cbv zeta in Hnode. rewrite Hnode in Hparent.
  injection Hparent as _ <-. cbn [nodeChildren].
  split.
  - eexists. split; [reflexivity |].
    apply (survivors_In _ _ figmaChild childLog); [exact Hin |].
    rewrite childMainAxisRow_rowParent. exact Hchild.
  - destruct (createNode_fields _ _ _ _ _ _ _ Hchild)
      as (_ & _ & _ & Hw & Hh).
    rewrite Hw, Hh. unfold widthOf, heightOf.
    split; intros ->; now destruct (rowParent parent).
Qed.

Lemma children_see_parent_layout_witness :
  exists node kids child,
    createNode exportFails column false true true = ([], Returned node)
    /\ nodeChildren node = Some kids /\ In child kids
    /\ field "width" child = Some (VStr "auto")
    /\ field "height" child = Some (VStr "100%").
Proof.
  destruct (children_see_parent_layout exportFails column false true true
              [] (treeOf column) [rectFill; rect200x50] rectFill
              [] (builtWith rectFill true false true)
              eq_refl eq_refl eq_refl (or_introl eq_refl) eq_refl eq_refl)
    as ((kids & Hkids & Hin) & Hw & Hh).
  exists (treeOf column), kids, (builtWith rectFill true false true).
  split; [reflexivity |].
  split; [exact Hkids |]. split; [exact Hin |].
  split; [exact (Hw eq_refl) | exact (Hh eq_refl)].
Defined.

